(** * Puzzle asset optimisation: bounds detection, cropping, metadata

  A shallow embedding of the three optimiser scripts under [tools/]
  ([optimize_puzzle_assets.py], [optimize_puzzle_assets_fixed.py] and
  [optimize_puzzle_assets_no_padding.py]) together with the properties that
  the design document states about them.

  Layout of the development:
  - [Py]       Python exceptions as an error monad;
  - [Pillow]   RGBA images, [Image.crop];
  - [Numpy]    the few array primitives used by bounds detection;
  - [Detect]   [find_content_bounds], textually identical in the three scripts;
  - [Original], [Fixed], [NoPadding]   one module per script;
  - [Verbose]  what [optimize_piece] of the first script prints;
  - [Puzzle]   [optimize_puzzle] over an abstract file system. *)

From Stdlib Require Import ZArith NArith QArith Lia.
From stdpp Require Import gmap strings list list_numbers fin_maps.

Local Open Scope Z_scope.

(** ** Python exceptions *)

Module Py.

Inductive Exception : Type :=
| ValueError
| KeyError
| TypeError
| ZeroDivisionError
| OSError.

Inductive Result (A : Type) : Type :=
| Ok (a : A)
| Raise (e : Exception).
Arguments Ok {A} a.
Arguments Raise {A} e.

Definition bind {A B : Type} (r : Result A) (k : A -> Result B) : Result B :=
  match r with
  | Ok a => k a
  | Raise e => Raise e
  end.

(** [try: ... except Exception: return None] *)
Definition try_or_None {A : Type} (r : Result (option A)) : option A :=
  match r with
  | Ok o => o
  | Raise _ => None
  end.

Definition is_Ok {A : Type} (r : Result A) : bool :=
  match r with
  | Ok _ => true
  | Raise _ => false
  end.

End Py.

Import Py.

Notation "x <- r ;; k" := (Py.bind r (fun x => k))
(at level 100, r at next level, right associativity, only parsing).

(** ** Pillow images

  Every image handled by the optimiser has gone through
  [Image.open(...).convert('RGBA')], so an image is a grid of RGBA pixels,
  eight bits per channel.  [img_data] is the row-major array that
  [np.array(image)] returns: [img_height] rows of [img_width] pixels. *)

Module Pillow.

Record Pixel : Type := mkPixel {
  red : N;
  green : N;
  blue : N;
  alpha : N
}.

Definition transparent_black : Pixel := mkPixel 0 0 0 0.

Record Image : Type := mkImage {
  img_width : Z;
  img_height : Z;
  img_data : list (list Pixel)
}.

(** [image.size] *)
Definition size (im : Image) : Z * Z := (img_width im, img_height im).

Definition wf_image (im : Image) : Prop :=
  0 <= img_width im /\ 0 <= img_height im /\
  length (img_data im) = Z.to_nat (img_height im) /\
  Forall (fun row => length row = Z.to_nat (img_width im)) (img_data im).

(** The pixel at column [x], row [y], if the coordinates are inside. *)
Definition getpixel (im : Image) (x y : Z) : option Pixel :=
  if (x <? 0) || (y <? 0) then None
  else row ← img_data im !! Z.to_nat y; row !! Z.to_nat x.

(** [Image.crop(box)]: the box is [(left, upper, right, lower)] with
    exclusive right and lower sides.  The result has size
    [(right - left, lower - upper)]; the part of the box that lies outside
    the source is filled with zero bytes.  Pillow refuses a box whose right
    side is left of its left side (or lower above upper).  Boxes of ordinary
    size only: Pillow's check of the box size against its pixel limit and
    the overflow of coordinates beyond a C integer are not part of the
    model; every box cropped in the properties below lies inside the source
    image. *)
Definition crop (im : Image) (box : Z * Z * Z * Z) : Result Image :=
  let '(x0, y0, x1, y1) := box in
  if (x1 <? x0) || (y1 <? y0) then Raise ValueError
  else
    Ok {| img_width := x1 - x0;
          img_height := y1 - y0;
          img_data :=
            (fun y => (fun x => default transparent_black (getpixel im x y))
                        <$> seqZ x0 (x1 - x0))
              <$> seqZ y0 (y1 - y0) |}.

(** [image.tobytes()] for mode RGBA: row-major, four bytes per pixel. *)
Definition pixel_bytes (p : Pixel) : list N := [red p; green p; blue p; alpha p].
Definition tobytes (im : Image) : list N :=
  concat (concat ((fun row : list Pixel => pixel_bytes <$> row) <$> img_data im)).

End Pillow.

Import Pillow.

(** ** numpy primitives *)

Module Numpy.

(** [np.any(a)] on a two-dimensional boolean array. *)
Definition any (a : list (list bool)) : bool := existsb (existsb id) a.

(** [np.any(a, axis=1)]: one entry per row. *)
Definition any_axis1 (a : list (list bool)) : list bool := existsb id <$> a.

(** [np.any(a, axis=0)]: one entry per column; [ncols] is [a.shape[1]]. *)
Definition any_axis0 (ncols : nat) (a : list (list bool)) : list bool :=
  (fun j => existsb (fun row => default false (row !! j)) a) <$> seq 0 ncols.

(** [np.argmax(v)] on a boolean vector: the first index holding [True],
    and [0] when there is none.  numpy refuses an empty vector; the scripts
    call [argmax] only after [np.any] found a [True], so none is empty. *)
Fixpoint argmax (v : list bool) : nat :=
  match v with
  | [] => 0%nat
  | true :: _ => 0%nat
  | false :: v' =>
      if existsb id v' then S (argmax v') else 0%nat
  end.

End Numpy.

(** ** Bounding boxes

  The [BoundingBox] named tuple has the same four fields in the three
  scripts; the derived [width] and [height] differ and are defined with
  each script. *)

Module BoundingBox.
Record t : Type := mk { left : Z; top : Z; right : Z; bottom : Z }.
End BoundingBox.

Abbreviation BoundingBox := BoundingBox.t.

(** ** Bounds detection (the same text in the three scripts) *)

Module Detect.

(** [img_array[:, :, 3]] *)
Definition alpha_channel (im : Image) : list (list N) :=
  (fun row : list Pixel => alpha <$> row) <$> img_data im.

(** [alpha_channel > 0] *)
Definition non_transparent (im : Image) : list (list bool) :=
  (fun row : list N => (fun a => (0 <? a)%N) <$> row) <$> alpha_channel im.

(** [find_content_bounds].  The test [image.mode != 'RGBA'] is false on the
    images of this model, so the conversion branch is not taken.  [reverse]
    is the slice [[::-1]]; the subtractions are on Python integers. *)
Definition find_content_bounds (im : Image) : option BoundingBox :=
  let nt := non_transparent im in
  if negb (Numpy.any nt) then None
  else
    let rows := Numpy.any_axis1 nt in
    let cols := Numpy.any_axis0 (Z.to_nat (img_width im)) nt in
    let top := Z.of_nat (Numpy.argmax rows) in
    let bottom := Z.of_nat (length rows) - 1 - Z.of_nat (Numpy.argmax (reverse rows)) in
    let left := Z.of_nat (Numpy.argmax cols) in
    let right := Z.of_nat (length cols) - 1 - Z.of_nat (Numpy.argmax (reverse cols)) in
    Some (BoundingBox.mk left top right bottom).

End Detect.

(** ** Library functions the scripts rely on

    [hashlib.sha256(...).hexdigest()] and binary64 arithmetic are kept
    abstract: the optimiser only moves their results around. *)

Class Hashlib : Type := {
  sha256_hexdigest : list N -> string
}.

(** Python floats, as far as the scripts use them: the true division of two
    integers (non-zero divisor), a float times an integer, and [0.0]. *)
Class PyFloat (F : Type) : Type := {
  int_truediv : Z -> Z -> F;
  float_mul_int : F -> Z -> F;
  float_zero : F
}.

(** Exact rational arithmetic is one instance; it is used to evaluate the
    scripts on concrete inputs. *)
#[export] Instance Q_PyFloat : PyFloat Q := {|
  int_truediv a b := Qmake a 1 / Qmake b 1;
  float_mul_int x n := x * Qmake n 1;
  float_zero := 0%Q
|}%Q.

(** A digest that is always the empty string, for evaluating on concrete inputs. *)
Definition trivial_Hashlib : Hashlib := {| sha256_hexdigest := fun _ => EmptyString |}.

(** [a / b] on integers. *)
Definition py_truediv {F : Type} `{PyFloat F} (a b : Z) : Result F :=
  if b =? 0 then Raise ZeroDivisionError else Ok (int_truediv a b).

(** ** The layout description [layout.ipuz.json]

    The scripts read one thing from it: the [canvas] entry, whose [width]
    and [height] go through [int(...)].  A canvas dictionary is given by the
    outcome of [int(v)] for each of its keys; any other JSON value cannot be
    subscripted with a string. *)

Inductive CanvasInfo : Type :=
| CanvasDict (d : gmap string (Result Z))
| CanvasOther.

Inductive LayoutFile : Type :=
| LayoutUnreadable                           (* missing, not JSON, or not a JSON object *)
| LayoutDocument (canvas : option CanvasInfo).

Definition default_canvas : CanvasInfo :=
  CanvasDict (<["width" := Ok 2048]> (<["height" := Ok 2048]> ∅)).

(** [_load_canvas_info]: every exception is caught and answered with the default. *)
Definition _load_canvas_info (layout : LayoutFile) : CanvasInfo :=
  match layout with
  | LayoutUnreadable => default_canvas
  | LayoutDocument None => default_canvas
  | LayoutDocument (Some c) => c
  end.

(** [int(canvas_info[key])] *)
Definition canvas_int (canvas_info : CanvasInfo) (key : string) : Result Z :=
  match canvas_info with
  | CanvasDict d =>
      match d !! key with
      | Some r => r
      | None => Raise KeyError
      end
  | CanvasOther => Raise TypeError
  end.

(** ** The metadata document *)

Record BoundsDict : Type := mkBoundsDict {
  bd_left : Z;
  bd_top : Z;
  bd_right : Z;
  bd_bottom : Z;
  bd_width : Z;
  bd_height : Z
}.

Record PieceMetadata : Type := mkPieceMetadata {
  pm_bounds : BoundsDict;
  pm_canvas_size : Z * Z;
  pm_content_hash : string;
  pm_cropped_filename : string
}.

Record Statistics (F : Type) : Type := mkStatistics {
  memory_reduction_percent : F;
  total_pieces : Z;
  original_total_bytes : Z;
  optimized_total_bytes : Z;
  bytes_saved : Z
}.
Arguments mkStatistics {F}.
Arguments memory_reduction_percent {F}.
Arguments total_pieces {F}.
Arguments original_total_bytes {F}.
Arguments optimized_total_bytes {F}.
Arguments bytes_saved {F}.

Record Metadata (F : Type) : Type := mkMetadata {
  version : string;
  canvas_size : Z * Z;
  pieces : gmap string PieceMetadata;
  statistics : Statistics F
}.
Arguments mkMetadata {F}.
Arguments version {F}.
Arguments canvas_size {F}.
Arguments pieces {F}.
Arguments statistics {F}.

(** ** Piece files and the pieces directory *)

(** What [Image.open(piece_path).convert('RGBA')] finds. *)
Inductive PieceFile : Type :=
| Unreadable
| Png (im : Image).

Definition open_rgba (f : PieceFile) : Result Image :=
  match f with
  | Unreadable => Raise OSError
  | Png im => Ok im
  end.

(** One grid size on disk: [pieces_dir] is [None] when the directory does not
    exist, otherwise [sorted(pieces_path.glob("*.png"))] as pairs of the
    file's stem and its content. *)
Record GridDir : Type := mkGridDir {
  pieces_dir : option (list (string * PieceFile));
  layout_file : LayoutFile
}.

(** What one call of [optimize_grid_size] leaves behind. *)
Record GridRun (F : Type) : Type := mkGridRun {
  returned : Result bool;
  saved_pieces : gmap string Image;      (* files under [<grid>_optimized/pieces] *)
  saved_metadata : option (Metadata F)   (* [optimization_metadata.json] *)
}.
Arguments mkGridRun {F}.
Arguments returned {F}.
Arguments saved_pieces {F}.
Arguments saved_metadata {F}.

(** The steps of [optimize_grid_size] between the test of the pieces
    directory and the loop over the piece files, none of them inside a
    [try]: the two [mkdir(exist_ok=True)], the test
    [original_layout.exists()] and, when it holds, [shutil.copy2] of
    [layout.ipuz.json] into the output directory. *)
Record Setup : Type := mkSetup {
  mkdirs : Result unit;
  layout_exists : bool;
  copy2 : Result unit
}.

Definition setup (s : Setup) : Result unit :=
  _ <- mkdirs s;;
  if layout_exists s then copy2 s else Ok tt.

(** ** The batch loop

    [optimize_grid_size], [_generate_optimization_metadata] and the
    statistics are the same text in the three scripts up to the shape of the
    per-piece result; they are written once over that shape. *)

Definition sumZ (l : list Z) : Z := foldr Z.add 0 l.

Module Pipeline.
Section Pipeline.

Context {F : Type} `{PyFloat F}.

(** The per-piece result type of a script and what the loop reads from it. *)
Variable R : Type.
Variable piece_id : R -> string.
Variable original_size : R -> Z * Z.
Variable cropped_image : R -> Image.
Variable memory_saved_bytes : R -> Z.

Variable optimize_piece : string * PieceFile -> option R.

(** The body of the [for result in results] loop of
    [_generate_optimization_metadata]: the record stored under
    [result.piece_id], or the exception raised on the way. *)
Variable piece_record : CanvasInfo -> R -> Result PieceMetadata.

Record LoopState : Type := mkLoopState {
  st_saved : gmap string Image;
  st_results : list R;
  st_total_original_bytes : Z;
  st_total_saved_bytes : Z
}.

Definition loop_init : LoopState :=
  {| st_saved := ∅; st_results := [];
     st_total_original_bytes := 0; st_total_saved_bytes := 0 |}.

(** One iteration of [for piece_file in sorted(piece_files)]. *)
Definition loop_body (st : LoopState) (piece_file : string * PieceFile) : LoopState :=
  match optimize_piece piece_file with
  | Some result =>
      {| st_saved := <[piece_id result +:+ ".png" := cropped_image result]> (st_saved st);
         st_results := st_results st ++ [result];
         st_total_original_bytes :=
           st_total_original_bytes st
           + fst (original_size result) * snd (original_size result) * 4;
         st_total_saved_bytes :=
           st_total_saved_bytes st + memory_saved_bytes result |}
  | None => st
  end.

Fixpoint collect_pieces (canvas_info : CanvasInfo) (results : list R)
    (pieces_metadata : gmap string PieceMetadata)
    : Result (gmap string PieceMetadata) :=
  match results with
  | [] => Ok pieces_metadata
  | result :: rest =>
      entry <- piece_record canvas_info result;;
      collect_pieces canvas_info rest (<[piece_id result := entry]> pieces_metadata)
  end.

Definition make_statistics (results : list R)
    (total_original_bytes total_saved_bytes : Z) : Statistics F :=
  {| memory_reduction_percent :=
       if 0 <? total_original_bytes
       then float_mul_int (int_truediv total_saved_bytes total_original_bytes) 100
       else float_zero;
     total_pieces := Z.of_nat (length results);
     original_total_bytes := total_original_bytes;
     optimized_total_bytes := total_original_bytes - total_saved_bytes;
     bytes_saved := total_saved_bytes |}.

Definition _generate_optimization_metadata (results : list R)
    (canvas_info : CanvasInfo) (total_original_bytes total_saved_bytes : Z)
    : Result (Metadata F) :=
  pieces_metadata <- collect_pieces canvas_info results ∅;;
  w <- canvas_int canvas_info "width";;
  h <- canvas_int canvas_info "height";;
  Ok {| version := "1.0";
        canvas_size := (w, h);
        pieces := pieces_metadata;
        statistics := make_statistics results total_original_bytes total_saved_bytes |}.

(** [optimize_grid_size], once the output directories are there and
    [layout.ipuz.json], if any, has been copied: those steps are put in front
    by [optimize_grid_size_with_setup] below.  Saving a piece and dumping the
    metadata are recorded in the [GridRun]; both are taken to succeed.  The
    metadata is built before its file is opened, so an exception raised
    while building it leaves no metadata file; the division for the final
    log line comes after the dump. *)
Definition optimize_grid_size (d : GridDir) : GridRun F :=
  match pieces_dir d with
  | None =>
      {| returned := Ok false; saved_pieces := ∅; saved_metadata := None |}
  | Some piece_files =>
      let st := foldl loop_body loop_init piece_files in
      match st_results st with
      | [] =>
          {| returned := Ok false; saved_pieces := st_saved st; saved_metadata := None |}
      | _ :: _ =>
          let canvas_info := _load_canvas_info (layout_file d) in
          match _generate_optimization_metadata (st_results st) canvas_info
                  (st_total_original_bytes st) (st_total_saved_bytes st) with
          | Raise e =>
              {| returned := Raise e; saved_pieces := st_saved st; saved_metadata := None |}
          | Ok metadata =>
              {| returned :=
                   (total_reduction <-
                      py_truediv (st_total_saved_bytes st) (st_total_original_bytes st);;
                    Ok true);
                 saved_pieces := st_saved st;
                 saved_metadata := Some metadata |}
          end
      end
  end.

(** The whole of [optimize_grid_size]: a missing pieces directory is
    answered before anything is created; an exception of the set-up steps
    leaves the method before any piece is read. *)
Definition optimize_grid_size_with_setup (s : Setup) (d : GridDir) : GridRun F :=
  match pieces_dir d with
  | None =>
      {| returned := Ok false; saved_pieces := ∅; saved_metadata := None |}
  | Some _ =>
      match setup s with
      | Raise e =>
          {| returned := Raise e; saved_pieces := ∅; saved_metadata := None |}
      | Ok _ => optimize_grid_size d
      end
  end.

(** Closed forms used to describe the loop: the bytes of one original, the
    files written for a list of results, and the state the loop reaches once
    the accepted results [results] have gone through. *)
Definition original_bytes (result : R) : Z :=
  fst (original_size result) * snd (original_size result) * 4.

Definition save_all (results : list R) (files : gmap string Image) : gmap string Image :=
  foldl (fun m result => <[piece_id result +:+ ".png" := cropped_image result]> m)
    files results.

Definition after_results (st : LoopState) (results : list R) : LoopState :=
  {| st_saved := save_all results (st_saved st);
     st_results := st_results st ++ results;
     st_total_original_bytes :=
       st_total_original_bytes st + sumZ (original_bytes <$> results);
     st_total_saved_bytes :=
       st_total_saved_bytes st + sumZ (memory_saved_bytes <$> results) |}.

End Pipeline.
End Pipeline.

(** ** [optimize_puzzle_assets.py] *)

Module Original.

Definition width (b : BoundingBox) : Z := BoundingBox.right b - BoundingBox.left b.
Definition height (b : BoundingBox) : Z := BoundingBox.bottom b - BoundingBox.top b.

Record PieceOptimizationResult : Type := mkResult {
  piece_id : string;
  original_size : Z * Z;
  bounds : BoundingBox;
  cropped_image : Image;
  content_hash : string;
  memory_saved_bytes : Z
}.

Definition find_content_bounds : Image -> option BoundingBox :=
  Detect.find_content_bounds.

Definition crop_image_to_bounds (image : Image) (bounds : BoundingBox) (padding : Z)
    : Result Image :=
  let padded_left := Z.max 0 (BoundingBox.left bounds - padding) in
  let padded_top := Z.max 0 (BoundingBox.top bounds - padding) in
  let padded_right := Z.min (img_width image - 1) (BoundingBox.right bounds + padding) in
  let padded_bottom := Z.min (img_height image - 1) (BoundingBox.bottom bounds + padding) in
  let crop_box := (padded_left, padded_top, padded_right + 1, padded_bottom + 1) in
  crop image crop_box.

Section WithLibraries.

Context {hashlib : Hashlib} {F : Type} `{PyFloat F}.

Definition calculate_content_hash (image : Image) : string :=
  String.substring 0 8 (sha256_hexdigest (tobytes image)).

Definition optimize_piece (piece_path : string * PieceFile)
    : option PieceOptimizationResult :=
  try_or_None (
    let piece_id := fst piece_path in
    original_image <- open_rgba (snd piece_path);;
    let original_size := size original_image in
    let original_bytes := fst original_size * snd original_size * 4 in
    match find_content_bounds original_image with
    | None => Ok None
    | Some bounds =>
        cropped_image <- crop_image_to_bounds original_image bounds 2;;
        let cropped_bytes := fst (size cropped_image) * snd (size cropped_image) * 4 in
        let content_hash := calculate_content_hash cropped_image in
        let memory_saved := original_bytes - cropped_bytes in
        q <- py_truediv (F:=F) memory_saved original_bytes;;
        let reduction_percent := float_mul_int q 100 in
        Ok (Some {| piece_id := piece_id;
                    original_size := original_size;
                    bounds := bounds;
                    cropped_image := cropped_image;
                    content_hash := content_hash;
                    memory_saved_bytes := memory_saved |})
    end).

(** The loop body of [_generate_optimization_metadata]. *)
Definition piece_record (canvas_info : CanvasInfo) (result : PieceOptimizationResult)
    : Result PieceMetadata :=
  let bounds_dict :=
    {| bd_left := BoundingBox.left (bounds result);
       bd_top := BoundingBox.top (bounds result);
       bd_right := BoundingBox.right (bounds result);
       bd_bottom := BoundingBox.bottom (bounds result);
       bd_width := width (bounds result);
       bd_height := height (bounds result) |} in
  w <- canvas_int canvas_info "width";;
  h <- canvas_int canvas_info "height";;
  Ok {| pm_bounds := bounds_dict;
        pm_canvas_size := (w, h);
        pm_content_hash := content_hash result;
        pm_cropped_filename := piece_id result +:+ ".png" |}.

Definition _generate_optimization_metadata
    : list PieceOptimizationResult -> CanvasInfo -> Z -> Z -> Result (Metadata F) :=
  Pipeline._generate_optimization_metadata PieceOptimizationResult piece_id piece_record.

Definition optimize_grid_size : GridDir -> GridRun F :=
  Pipeline.optimize_grid_size PieceOptimizationResult piece_id original_size
    cropped_image memory_saved_bytes optimize_piece piece_record.

Definition optimize_grid_size_with_setup : Setup -> GridDir -> GridRun F :=
  Pipeline.optimize_grid_size_with_setup PieceOptimizationResult piece_id original_size
    cropped_image memory_saved_bytes optimize_piece piece_record.

End WithLibraries.

End Original.

(** ** [self.log] in [optimize_puzzle_assets.py]

    The script reports through [self.log(message)], which prints
    [[PuzzleOptimizer] message] when the optimiser was created with
    [verbose=True] and does nothing otherwise; [verbose] defaults to
    [False] and the command line sets it with [--verbose].  A line is kept
    as its text where the text is plain, and as its format and arguments
    where numbers or an exception are formatted into it. *)

Inductive LogMessage (F : Type) : Type :=
| Text (message : string)
| OriginalLine (original_size : Z * Z) (original_bytes : Z)
| CroppedLine (cropped_size : Z * Z) (cropped_bytes : Z)
| SavedLine (memory_saved : Z) (reduction_percent : F)
| ErrorOptimizingPiece (piece : string) (e : Exception).
Arguments Text {F}.
Arguments OriginalLine {F}.
Arguments CroppedLine {F}.
Arguments SavedLine {F}.
Arguments ErrorOptimizingPiece {F}.

Module Verbose.
Section Verbose.

Context {hashlib : Hashlib} {F : Type} `{PyFloat F}.

(** [self.verbose] *)
Variable verbose : bool.

(** A step of a method: the lines it has printed, and what it returns or
    raises. *)
Definition Printing (A : Type) : Type := list (LogMessage F) * Result A.

Definition log (message : LogMessage F) : Printing unit :=
  (if verbose then [message] else [], Ok tt).

Definition quiet {A : Type} (r : Result A) : Printing A := ([], r).

Definition and_then {A B : Type} (m : Printing A) (k : A -> Printing B) : Printing B :=
  match m with
  | (out, Ok a) => (out ++ fst (k a), snd (k a))
  | (out, Raise e) => (out, Raise e)
  end.

(** [find_content_bounds] with its line: the call of [self.log] sits in the
    branch that returns [None]. *)
Definition find_content_bounds (image : Image) : Printing (option BoundingBox) :=
  match Original.find_content_bounds image with
  | None =>
      and_then (log (Text "Warning: Image appears completely transparent"))
        (fun _ => quiet (Ok None))
  | Some bounds => quiet (Ok (Some bounds))
  end.

(** The body of the [try] of [optimize_piece]. *)
Definition optimize_piece_body (piece_path : string * PieceFile)
    : Printing (option Original.PieceOptimizationResult) :=
  let piece_id := fst piece_path in
  and_then (log (Text ("Optimizing piece " +:+ piece_id))) (fun _ =>
  and_then (quiet (open_rgba (snd piece_path))) (fun original_image =>
  let original_size := size original_image in
  let original_bytes := fst original_size * snd original_size * 4 in
  and_then (find_content_bounds original_image) (fun found =>
  match found with
  | None =>
      and_then
        (log (Text ("Warning: Piece " +:+ piece_id +:+ " has no content, skipping")))
        (fun _ => quiet (Ok None))
  | Some bounds =>
      and_then (quiet (Original.crop_image_to_bounds original_image bounds 2))
        (fun cropped_image =>
      let cropped_bytes := fst (size cropped_image) * snd (size cropped_image) * 4 in
      let content_hash := Original.calculate_content_hash cropped_image in
      let memory_saved := original_bytes - cropped_bytes in
      and_then (quiet (py_truediv (F:=F) memory_saved original_bytes)) (fun q =>
      let reduction_percent := float_mul_int q 100 in
      and_then (log (OriginalLine original_size original_bytes)) (fun _ =>
      and_then (log (CroppedLine (size cropped_image) cropped_bytes)) (fun _ =>
      and_then (log (SavedLine memory_saved reduction_percent)) (fun _ =>
      quiet (Ok (Some {| Original.piece_id := piece_id;
                         Original.original_size := original_size;
                         Original.bounds := bounds;
                         Original.cropped_image := cropped_image;
                         Original.content_hash := content_hash;
                         Original.memory_saved_bytes := memory_saved |})))))))
  end))).

(** [optimize_piece]: the lines printed during the call and the value
    returned.  [except Exception as e] reports the exception and returns
    [None]. *)
Definition optimize_piece (piece_path : string * PieceFile)
    : list (LogMessage F) * option Original.PieceOptimizationResult :=
  match optimize_piece_body piece_path with
  | (out, Ok result) => (out, result)
  | (out, Raise e) =>
      (out ++ fst (log (ErrorOptimizingPiece (fst piece_path) e)), None)
  end.

End Verbose.
End Verbose.

(** ** [optimize_puzzle_assets_fixed.py] *)

Module Fixed.

Definition width (b : BoundingBox) : Z := BoundingBox.right b - BoundingBox.left b.
Definition height (b : BoundingBox) : Z := BoundingBox.bottom b - BoundingBox.top b.

Record CroppedImageInfo : Type := mkCroppedImageInfo {
  cropped_image : Image;
  original_content_bounds : BoundingBox;
  actual_crop_bounds : BoundingBox;
  canvas_position_left : Z;
  canvas_position_top : Z
}.

Record PieceOptimizationResult : Type := mkResult {
  piece_id : string;
  original_size : Z * Z;
  cropped_info : CroppedImageInfo;
  content_hash : string;
  memory_saved_bytes : Z
}.

Definition find_content_bounds : Image -> option BoundingBox :=
  Detect.find_content_bounds.

Definition create_optimized_crop (image : Image) (content_bounds : BoundingBox)
    (padding : Z) : Result CroppedImageInfo :=
  let crop_left := Z.max 0 (BoundingBox.left content_bounds - padding) in
  let crop_top := Z.max 0 (BoundingBox.top content_bounds - padding) in
  let crop_right :=
    Z.min (img_width image) (BoundingBox.right content_bounds + padding + 1) in
  let crop_bottom :=
    Z.min (img_height image) (BoundingBox.bottom content_bounds + padding + 1) in
  let crop_box := (crop_left, crop_top, crop_right, crop_bottom) in
  cropped_image <- crop image crop_box;;
  let actual_crop_bounds :=
    BoundingBox.mk crop_left crop_top (crop_right - 1) (crop_bottom - 1) in
  let canvas_position_left := crop_left in
  let canvas_position_top := crop_top in
  Ok {| cropped_image := cropped_image;
        original_content_bounds := content_bounds;
        actual_crop_bounds := actual_crop_bounds;
        canvas_position_left := canvas_position_left;
        canvas_position_top := canvas_position_top |}.

Section WithLibraries.

Context {hashlib : Hashlib} {F : Type} `{PyFloat F}.

Definition calculate_content_hash (image : Image) : string :=
  String.substring 0 8 (sha256_hexdigest (tobytes image)).

Definition optimize_piece (piece_path : string * PieceFile)
    : option PieceOptimizationResult :=
  try_or_None (
    let piece_id := fst piece_path in
    original_image <- open_rgba (snd piece_path);;
    let original_size := size original_image in
    let original_bytes := fst original_size * snd original_size * 4 in
    match find_content_bounds original_image with
    | None => Ok None
    | Some content_bounds =>
        cropped_info <- create_optimized_crop original_image content_bounds 2;;
        let cropped_bytes :=
          fst (size (cropped_image cropped_info))
          * snd (size (cropped_image cropped_info)) * 4 in
        let content_hash := calculate_content_hash (cropped_image cropped_info) in
        let memory_saved := original_bytes - cropped_bytes in
        q <- py_truediv (F:=F) memory_saved original_bytes;;
        let reduction_percent := float_mul_int q 100 in
        Ok (Some {| piece_id := piece_id;
                    original_size := original_size;
                    cropped_info := cropped_info;
                    content_hash := content_hash;
                    memory_saved_bytes := memory_saved |})
    end).

(** The loop body of [_generate_optimization_metadata]. *)
Definition piece_record (canvas_info : CanvasInfo) (result : PieceOptimizationResult)
    : Result PieceMetadata :=
  let cropped_info := cropped_info result in
  let cropped_image := cropped_image cropped_info in
  let actual_width := fst (size cropped_image) in
  let actual_height := snd (size cropped_image) in
  let canvas_left := canvas_position_left cropped_info in
  let canvas_top := canvas_position_top cropped_info in
  let canvas_right := canvas_left + actual_width - 1 in
  let canvas_bottom := canvas_top + actual_height - 1 in
  let bounds_dict :=
    {| bd_left := canvas_left;
       bd_top := canvas_top;
       bd_right := canvas_right;
       bd_bottom := canvas_bottom;
       bd_width := actual_width;
       bd_height := actual_height |} in
  w <- canvas_int canvas_info "width";;
  h <- canvas_int canvas_info "height";;
  Ok {| pm_bounds := bounds_dict;
        pm_canvas_size := (w, h);
        pm_content_hash := content_hash result;
        pm_cropped_filename := piece_id result +:+ ".png" |}.

Definition _generate_optimization_metadata
    : list PieceOptimizationResult -> CanvasInfo -> Z -> Z -> Result (Metadata F) :=
  Pipeline._generate_optimization_metadata PieceOptimizationResult piece_id piece_record.

Definition optimize_grid_size : GridDir -> GridRun F :=
  Pipeline.optimize_grid_size PieceOptimizationResult piece_id original_size
    (fun result => cropped_image (cropped_info result))
    memory_saved_bytes optimize_piece piece_record.

End WithLibraries.

End Fixed.

(** ** [optimize_puzzle_assets_no_padding.py] *)

Module NoPadding.

Definition width (b : BoundingBox) : Z := BoundingBox.right b - BoundingBox.left b + 1.
Definition height (b : BoundingBox) : Z := BoundingBox.bottom b - BoundingBox.top b + 1.

Record PieceOptimizationResult : Type := mkResult {
  piece_id : string;
  original_size : Z * Z;
  content_bounds : BoundingBox;
  cropped_image : Image;
  content_hash : string;
  memory_saved_bytes : Z
}.

Definition find_content_bounds : Image -> option BoundingBox :=
  Detect.find_content_bounds.

Definition crop_to_exact_content (image : Image) (bounds : BoundingBox) : Result Image :=
  let crop_box :=
    (BoundingBox.left bounds, BoundingBox.top bounds,
     BoundingBox.right bounds + 1, BoundingBox.bottom bounds + 1) in
  cropped <- crop image crop_box;;
  let expected_width := BoundingBox.right bounds - BoundingBox.left bounds + 1 in
  let expected_height := BoundingBox.bottom bounds - BoundingBox.top bounds + 1 in
  if negb (bool_decide (size cropped = (expected_width, expected_height)))
  then Raise ValueError
  else Ok cropped.

Section WithLibraries.

Context {hashlib : Hashlib} {F : Type} `{PyFloat F}.

Definition calculate_content_hash (image : Image) : string :=
  String.substring 0 8 (sha256_hexdigest (tobytes image)).

Definition optimize_piece (piece_path : string * PieceFile)
    : option PieceOptimizationResult :=
  try_or_None (
    let piece_id := fst piece_path in
    original_image <- open_rgba (snd piece_path);;
    let original_size := size original_image in
    let original_bytes := fst original_size * snd original_size * 4 in
    match find_content_bounds original_image with
    | None => Ok None
    | Some content_bounds =>
        cropped_image <- crop_to_exact_content original_image content_bounds;;
        let cropped_bytes := fst (size cropped_image) * snd (size cropped_image) * 4 in
        let content_hash := calculate_content_hash cropped_image in
        let memory_saved := original_bytes - cropped_bytes in
        q <- py_truediv (F:=F) memory_saved original_bytes;;
        let reduction_percent := float_mul_int q 100 in
        Ok (Some {| piece_id := piece_id;
                    original_size := original_size;
                    content_bounds := content_bounds;
                    cropped_image := cropped_image;
                    content_hash := content_hash;
                    memory_saved_bytes := memory_saved |})
    end).

(** The loop body of [_generate_optimization_metadata], dimension check first. *)
Definition piece_record (canvas_info : CanvasInfo) (result : PieceOptimizationResult)
    : Result PieceMetadata :=
  let content_bounds := content_bounds result in
  let cropped_image := cropped_image result in
  let actual_width := fst (size cropped_image) in
  let actual_height := snd (size cropped_image) in
  let expected_width := width content_bounds in
  let expected_height := height content_bounds in
  if negb (actual_width =? expected_width) || negb (actual_height =? expected_height)
  then Raise ValueError
  else
    let bounds_dict :=
      {| bd_left := BoundingBox.left content_bounds;
         bd_top := BoundingBox.top content_bounds;
         bd_right := BoundingBox.right content_bounds;
         bd_bottom := BoundingBox.bottom content_bounds;
         bd_width := width content_bounds;
         bd_height := height content_bounds |} in
    w <- canvas_int canvas_info "width";;
    h <- canvas_int canvas_info "height";;
    Ok {| pm_bounds := bounds_dict;
          pm_canvas_size := (w, h);
          pm_content_hash := content_hash result;
          pm_cropped_filename := piece_id result +:+ ".png" |}.

Definition _generate_optimization_metadata
    : list PieceOptimizationResult -> CanvasInfo -> Z -> Z -> Result (Metadata F) :=
  Pipeline._generate_optimization_metadata PieceOptimizationResult piece_id piece_record.

Definition optimize_grid_size : GridDir -> GridRun F :=
  Pipeline.optimize_grid_size PieceOptimizationResult piece_id original_size
    cropped_image memory_saved_bytes optimize_piece piece_record.

End WithLibraries.

End NoPadding.

(** ** Test images *)

(** A [w]×[h] transparent image with the rectangle from [(l, t)] to [(r, b)],
    both corners included, filled with [colour]. *)
Definition rect_image (w h l t r b : Z) (colour : Pixel) : Image :=
  {| img_width := w;
     img_height := h;
     img_data :=
       (fun y =>
          (fun x =>
             if (l <=? x) && (x <=? r) && (t <=? y) && (y <=? b)
             then colour else transparent_black)
            <$> seqZ 0 w)
         <$> seqZ 0 h |}.

Definition opaque_red : Pixel := mkPixel 255 0 0 255.

(** ** Vocabulary of the statements *)

(** The pixel at [(x, y)] exists and is not fully transparent. *)
Definition content (im : Image) (x y : Z) : Prop :=
  exists p, getpixel im x y = Some p /\ alpha p <> 0%N.

(** [(x, y)] lies in the box, both ends included. *)
Definition inside (b : BoundingBox) (x y : Z) : Prop :=
  BoundingBox.left b <= x <= BoundingBox.right b /\
  BoundingBox.top b <= y <= BoundingBox.bottom b.

(** The box lies in the image. *)
Definition box_in_image (im : Image) (b : BoundingBox) : Prop :=
  0 <= BoundingBox.left b <= BoundingBox.right b /\
  BoundingBox.right b < img_width im /\
  0 <= BoundingBox.top b <= BoundingBox.bottom b /\
  BoundingBox.bottom b < img_height im.

(** The recorded width and height of an entry against an image. *)
Definition dims_match (entry : PieceMetadata) (im : Image) : Prop :=
  bd_width (pm_bounds entry) = img_width im /\
  bd_height (pm_bounds entry) = img_height im.

(** Every readable file of the pieces directory is a well-formed image. *)
Definition wf_piece_file (f : PieceFile) : Prop :=
  match f with
  | Png im => wf_image im
  | Unreadable => True
  end.

Definition wf_dir (d : GridDir) : Prop :=
  match pieces_dir d with
  | Some piece_files => Forall (fun f => wf_piece_file (snd f)) piece_files
  | None => True
  end.

(** Every alpha value of the image is zero. *)
Definition fully_transparent (im : Image) : Prop :=
  Forall (Forall (fun p => alpha p = 0%N)) (img_data im).

#[export] Instance fully_transparent_dec (im : Image) : Decision (fully_transparent im).
Proof. unfold fully_transparent. apply _. Defined.

(** The canvas entry can be read: both [int(canvas_info[...])] succeed. *)
Definition canvas_readable (canvas_info : CanvasInfo) : Prop :=
  (exists cw, canvas_int canvas_info "width" = Ok cw) /\
  (exists ch, canvas_int canvas_info "height" = Ok ch).

#[export] Instance wf_image_dec (im : Image) : Decision (wf_image im).
Proof. unfold wf_image. apply _. Defined.

#[export] Instance box_in_image_dec (im : Image) (b : BoundingBox) :
  Decision (box_in_image im b).
Proof. unfold box_in_image. apply _. Defined.

#[export] Instance wf_piece_file_dec (f : PieceFile) : Decision (wf_piece_file f).
Proof. destruct f; simpl; apply _. Defined.

#[export] Instance wf_dir_dec (d : GridDir) : Decision (wf_dir d).
Proof. unfold wf_dir. destruct (pieces_dir d); apply _. Defined.

(** ** Small concrete inputs *)

Definition opaque_blue : Pixel := mkPixel 0 0 255 255.

(** 8×6, content in columns 3..5 and rows 2..4. *)
Definition small_piece : Image := rect_image 8 6 3 2 5 4 opaque_red.
Definition small_piece_blue : Image := rect_image 8 6 3 2 5 4 opaque_blue.

(** 8×6, nothing drawn. *)
Definition blank_piece : Image := rect_image 8 6 1 1 0 0 opaque_red.

(** A directory with one piece and no layout file. *)
Definition dir_one : GridDir :=
  {| pieces_dir := Some [("0_0"%string, Png small_piece)];
     layout_file := LayoutUnreadable |}.

(** One good piece, one blank piece, one file that is not an image. *)
Definition dir_mixed : GridDir :=
  {| pieces_dir := Some [("0_0"%string, Png small_piece);
                         ("0_1"%string, Png blank_piece);
                         ("0_2"%string, Unreadable)];
     layout_file := LayoutUnreadable |}.

(** One good piece; [layout.ipuz.json] is [{"canvas": {}}]. *)
Definition dir_empty_canvas : GridDir :=
  {| pieces_dir := Some [("0_0"%string, Png small_piece)];
     layout_file := LayoutDocument (Some (CanvasDict ∅)) |}.

(** Four 400×400 pieces whose padded crop is 100×90. *)
Definition scenario_piece : Image := rect_image 400 400 52 32 147 117 opaque_red.

Definition scenario_dir : GridDir :=
  {| pieces_dir := Some [("0_0"%string, Png scenario_piece);
                         ("0_1"%string, Png scenario_piece);
                         ("1_0"%string, Png scenario_piece);
                         ("1_1"%string, Png scenario_piece)];
     layout_file := LayoutUnreadable |}.

(** ** [optimize_puzzle]

    The same text in the three scripts.  The directory [.../layouts] is kept
    abstract: [layouts_exists] is [puzzle_path.exists()], [iterdir_dirs] lists
    the names of the entries of [puzzle_path.iterdir()] that are directories,
    in iteration order, and [optimize_grid_size] is one call of the method,
    with what it returns or raises and the file system it leaves. *)

(** [s.endswith(suffix)] *)
Definition endswith (s suffix : string) : bool :=
  if (String.length suffix <=? String.length s)%nat
  then String.eqb
         (String.substring (String.length s - String.length suffix)
            (String.length suffix) s)
         suffix
  else false.

Module Puzzle.
Section Puzzle.

Variable FS : Type.
Variable layouts_exists : FS -> bool.
Variable iterdir_dirs : FS -> list string.
Variable optimize_grid_size : FS -> string -> Result bool * FS.

(** [[d.name for d in puzzle_path.iterdir()
      if d.is_dir() and not d.name.endswith('_optimized')]] *)
Definition discover (fs : FS) : list string :=
  List.filter (fun name => negb (endswith name "_optimized")) (iterdir_dirs fs).

(** The [for grid_size in grid_sizes] loop; an exception leaves it at once. *)
Fixpoint optimize_all (fs : FS) (grid_sizes : list string) (success_count : Z)
    : Result Z * FS :=
  match grid_sizes with
  | [] => (Ok success_count, fs)
  | grid_size :: rest =>
      match optimize_grid_size fs grid_size with
      | (Ok true, fs') => optimize_all fs' rest (success_count + 1)
      | (Ok false, fs') => optimize_all fs' rest success_count
      | (Raise e, fs') => (Raise e, fs')
      end
  end.

Definition optimize_puzzle (fs : FS) (grid_sizes : option (list string))
    : Result bool * FS :=
  if negb (layouts_exists fs) then (Ok false, fs)
  else
    let grid_sizes :=
      match grid_sizes with
      | None => discover fs
      | Some given => given
      end in
    match optimize_all fs grid_sizes 0 with
    | (Ok success_count, fs') =>
        (Ok (success_count =? Z.of_nat (length grid_sizes)), fs')
    | (Raise e, fs') => (Raise e, fs')
    end.

(** One call of [optimize_grid_size], as an observer of the method sees it:
    the file system before, the grid size, what the call returned or raised
    and the file system after. *)
Record Call : Type := mkCall {
  call_before : FS;
  call_grid_size : string;
  call_outcome : Result bool;
  call_after : FS
}.

(** [optimize_grid_size] with a recorder in front of it: it does what
    [optimize_grid_size] does and appends the call to a list kept beside the
    file system. *)
Definition recording (st : FS * list Call) (grid_size : string)
    : Result bool * (FS * list Call) :=
  let r := optimize_grid_size (fst st) grid_size in
  (fst r, (snd r, snd st ++ [mkCall (fst st) grid_size (fst r) (snd r)])).

End Puzzle.

Arguments mkCall {FS}.
Arguments call_before {FS}.
Arguments call_grid_size {FS}.
Arguments call_outcome {FS}.
Arguments call_after {FS}.

(** [optimize_puzzle] run on the recording [optimize_grid_size], from an
    empty record. *)
Definition recorded (FS : Type) (layouts_exists : FS -> bool)
    (iterdir_dirs : FS -> list string)
    (optimize_grid_size : FS -> string -> Result bool * FS)
    (fs : FS) (grid_sizes : option (list string))
    : Result bool * (FS * list (Call FS)) :=
  optimize_puzzle (FS * list (Call FS))
    (fun st => layouts_exists (fst st)) (fun st => iterdir_dirs (fst st))
    (recording FS optimize_grid_size) (fs, []) grid_sizes.

End Puzzle.

(** A file system for evaluation: grid directories by name, read only (the
    files a run writes are not fed back), running the first script. *)
Definition readonly_layouts (dirs : list (string * GridDir)) (fs : unit)
    (grid_size : string) : Result bool * unit :=
  match List.find (fun entry => String.eqb (fst entry) grid_size) dirs with
  | Some entry =>
      (returned (Original.optimize_grid_size (hashlib:=trivial_Hashlib) (F:=Q)
                   (snd entry)), fs)
  | None =>
      (returned (Original.optimize_grid_size (hashlib:=trivial_Hashlib) (F:=Q)
                   {| pieces_dir := None; layout_file := LayoutUnreadable |}), fs)
  end.

(** A result of the third script's shape whose cropped image (8×6) does not
    have the size of its bounds (3×3), as a regression would produce. *)
Definition mismatched_result : NoPadding.PieceOptimizationResult :=
  {| NoPadding.piece_id := "0_0";
     NoPadding.original_size := (8, 6);
     NoPadding.content_bounds := BoundingBox.mk 3 2 5 4;
     NoPadding.cropped_image := small_piece;
     NoPadding.content_hash := "00000000";
     NoPadding.memory_saved_bytes := 0 |}.

(** Layouts with one grid directory and the output of an earlier run. *)
Definition listing_2x2 (fs : unit) : list string := ["2x2"; "2x2_optimized"]%string.

(** * Properties *)

(** ** numpy primitives *)

Module NumpyFacts.

Lemma any_vector (v : list bool) :
  existsb id v = true <-> exists i, v !! i = Some true.
Proof.
  induction v as [|b v IH]; simpl.
  - split; [done | intros [i Hi]; by rewrite lookup_nil in Hi].
  - rewrite orb_true_iff, IH. split.
    + intros [Hb | [i Hi]].
      * exists 0%nat. unfold id in Hb. by subst.
      * by exists (S i).
    + intros [[|i] Hi]; simpl in Hi.
      * left. by simplify_eq.
      * right. by exists i.
Qed.

Lemma any_vector_false (v : list bool) (i : nat) :
  existsb id v = false -> v !! i <> Some true.
Proof.
  intros Hv Hi. assert (existsb id v = true) by (apply any_vector; eauto).
  congruence.
Qed.

(** [argmax] is the first index that holds [True]. *)
Lemma argmax_first (v : list bool) :
  existsb id v = true ->
  v !! Numpy.argmax v = Some true /\
  forall j, v !! j = Some true -> (Numpy.argmax v <= j)%nat.
Proof.
  induction v as [|b v IH]; simpl; [done|].
  destruct b; simpl.
  - intros _. split; [done | lia].
  - intros Hv. rewrite Hv. destruct (IH Hv) as [Hat Hmin]. split; [done|].
    intros [|j] Hj; simpl in Hj; [done|]. apply Hmin in Hj. lia.
Qed.

(** [len(v) - 1 - argmax(v[::-1])] is the last index that holds [True]. *)
Lemma argmax_last (v : list bool) :
  existsb id v = true ->
  exists k : nat,
    Z.of_nat k = Z.of_nat (length v) - 1 - Z.of_nat (Numpy.argmax (reverse v)) /\
    v !! k = Some true /\
    forall j, v !! j = Some true -> (j <= k)%nat.
Proof.
  intros Hv.
  assert (Hrev : existsb id (reverse v) = true).
  { apply any_vector in Hv as [i Hi]. apply any_vector.
    exists (length v - S i)%nat. rewrite reverse_lookup.
    - pose proof (lookup_lt_Some _ _ _ Hi).
      replace (length v - S (length v - S i))%nat with i by lia. done.
    - apply lookup_lt_Some in Hi. lia. }
  destruct (argmax_first _ Hrev) as [Hat Hmin].
  pose proof (lookup_lt_Some _ _ _ Hat) as Hlt. rewrite length_reverse in Hlt.
  exists (length v - S (Numpy.argmax (reverse v)))%nat. split; [lia|]. split.
  - rewrite reverse_lookup in Hat by done. done.
  - intros j Hj. pose proof (lookup_lt_Some _ _ _ Hj) as Hjlt.
    assert (Hr : reverse v !! (length v - S j)%nat = Some true).
    { rewrite reverse_lookup by lia.
      replace (length v - S (length v - S j))%nat with j by lia. done. }
    apply Hmin in Hr. lia.
Qed.

Lemma any_axis1_lookup (a : list (list bool)) (j : nat) :
  Numpy.any_axis1 a !! j = Some true <->
  exists row i, a !! j = Some row /\ row !! i = Some true.
Proof.
  unfold Numpy.any_axis1. rewrite list_lookup_fmap. split.
  - destruct (a !! j) as [row|]; simpl; [|done].
    intros [= Hrow]. apply any_vector in Hrow as [i Hi]. eauto.
  - intros (row & i & -> & Hi). simpl. f_equal. apply any_vector. eauto.
Qed.

Lemma any_axis0_lookup (ncols : nat) (a : list (list bool)) (i : nat) :
  Numpy.any_axis0 ncols a !! i = Some true <->
  (i < ncols)%nat /\ exists row j, a !! j = Some row /\ row !! i = Some true.
Proof.
  unfold Numpy.any_axis0. rewrite list_lookup_fmap. split.
  - destruct (seq 0 ncols !! i) as [i'|] eqn:Hseq; simpl; [|done].
    apply lookup_seq in Hseq as [-> Hlt]. simpl. intros [= Hex]. split; [done|].
    apply existsb_exists in Hex as (row & Hin & Hrow).
    apply list_elem_of_In, list_elem_of_lookup in Hin as [j Hj].
    exists row, j. split; [done|].
    destruct (row !! i) as [[]|]; simpl in Hrow; done.
  - intros (Hlt & row & j & Hj & Hi).
    rewrite lookup_seq_lt by done. simpl. f_equal.
    apply existsb_exists. exists row. split.
    + apply list_elem_of_In, list_elem_of_lookup. eauto.
    + by rewrite Hi.
Qed.

Lemma any_matrix (a : list (list bool)) :
  Numpy.any a = true <-> exists row j i, a !! j = Some row /\ row !! i = Some true.
Proof.
  unfold Numpy.any. rewrite existsb_exists. split.
  - intros (row & Hin & Hrow).
    apply list_elem_of_In, list_elem_of_lookup in Hin as [j Hj].
    apply any_vector in Hrow as [i Hi]. eauto.
  - intros (row & j & i & Hj & Hi). exists row. split.
    + apply list_elem_of_In, list_elem_of_lookup. eauto.
    + apply any_vector. eauto.
Qed.

End NumpyFacts.

(** ** Bounds detection *)

Module DetectFacts.

Lemma getpixel_Some (im : Image) (x y : Z) (p : Pixel) :
  getpixel im x y = Some p <->
  0 <= x /\ 0 <= y /\
  exists row, img_data im !! Z.to_nat y = Some row /\ row !! Z.to_nat x = Some p.
Proof.
  unfold getpixel.
  destruct (x <? 0) eqn:Hx; destruct (y <? 0) eqn:Hy; simpl;
    try (split; [done | lia]).
  apply Z.ltb_ge in Hx, Hy.
  destruct (img_data im !! Z.to_nat y) as [row|]; simpl.
  - split; [intros Hp; eauto 6 | intros (_ & _ & row' & [= <-] & Hp); done].
  - split; [done | intros (_ & _ & row' & [=] & _)].
Qed.

Lemma getpixel_in_range (im : Image) (x y : Z) (p : Pixel) :
  wf_image im -> getpixel im x y = Some p ->
  0 <= x < img_width im /\ 0 <= y < img_height im.
Proof.
  intros (Hw & Hh & Hlen & Hrows) (Hx & Hy & row & Hrow & Hp)%getpixel_Some.
  pose proof (lookup_lt_Some _ _ _ Hrow) as Hylt.
  pose proof (lookup_lt_Some _ _ _ Hp) as Hxlt.
  rewrite Forall_lookup in Hrows. rewrite (Hrows _ _ Hrow) in Hxlt. lia.
Qed.

Lemma getpixel_is_Some (im : Image) (x y : Z) :
  wf_image im -> 0 <= x < img_width im -> 0 <= y < img_height im ->
  is_Some (getpixel im x y).
Proof.
  intros (Hw & Hh & Hlen & Hrows) Hx Hy.
  destruct (lookup_lt_is_Some_2 (img_data im) (Z.to_nat y)) as [row Hrow]; [lia|].
  rewrite Forall_lookup in Hrows. pose proof (Hrows _ _ Hrow) as Hrlen.
  destruct (lookup_lt_is_Some_2 row (Z.to_nat x)) as [p Hp]; [lia|].
  exists p. apply getpixel_Some. eauto 6 with lia.
Qed.

(** A cell of [alpha_channel > 0] is [True] exactly at content pixels. *)
Lemma non_transparent_cell (im : Image) (j i : nat) :
  (exists row, Detect.non_transparent im !! j = Some row /\ row !! i = Some true) <->
  content im (Z.of_nat i) (Z.of_nat j).
Proof.
  unfold Detect.non_transparent, Detect.alpha_channel, content.
  rewrite !list_lookup_fmap. setoid_rewrite getpixel_Some. rewrite !Nat2Z.id.
  destruct (img_data im !! j) as [prow|]; simpl.
  - split.
    + intros (row & [= <-] & Hi). rewrite !list_lookup_fmap in Hi.
      destruct (prow !! i) as [p|] eqn:Hp; simpl in Hi; [|done].
      exists p. split; [eauto 6 with lia|].
      injection Hi as Hi. apply N.ltb_lt in Hi. lia.
    + intros (p & (_ & _ & row & [= <-] & Hp) & Ha).
      eexists. split; [done|]. rewrite !list_lookup_fmap, Hp. simpl. f_equal.
      apply N.ltb_lt. lia.
  - split; [intros (? & [=] & _) | intros (? & (_ & _ & ? & [=] & _) & _)].
Qed.

Lemma content_nat (im : Image) (x y : Z) :
  content im x y -> exists i j : nat, x = Z.of_nat i /\ y = Z.of_nat j.
Proof.
  intros (p & (Hx & Hy & _)%getpixel_Some & _).
  exists (Z.to_nat x), (Z.to_nat y). lia.
Qed.

Lemma any_content (im : Image) :
  Numpy.any (Detect.non_transparent im) = true <-> exists x y, content im x y.
Proof.
  rewrite NumpyFacts.any_matrix. split.
  - intros (row & j & i & Hj & Hi). exists (Z.of_nat i), (Z.of_nat j).
    apply non_transparent_cell. eauto.
  - intros (x & y & Hc). destruct (content_nat _ _ _ Hc) as (i & j & -> & ->).
    apply non_transparent_cell in Hc as (row & Hj & Hi). eauto.
Qed.

Lemma rows_content (im : Image) (j : nat) :
  Numpy.any_axis1 (Detect.non_transparent im) !! j = Some true <->
  exists x, content im x (Z.of_nat j).
Proof.
  rewrite NumpyFacts.any_axis1_lookup. split.
  - intros (row & i & Hj & Hi). exists (Z.of_nat i).
    apply non_transparent_cell. eauto.
  - intros (x & Hc). destruct (content_nat _ _ _ Hc) as (i & j' & -> & Hj').
    apply non_transparent_cell in Hc as (row & Hj & Hi). eauto.
Qed.

Lemma cols_content (im : Image) (i : nat) :
  wf_image im ->
  Numpy.any_axis0 (Z.to_nat (img_width im)) (Detect.non_transparent im) !! i = Some true <->
  exists y, content im (Z.of_nat i) y.
Proof.
  intros Hwf. rewrite NumpyFacts.any_axis0_lookup. split.
  - intros (_ & row & j & Hj & Hi). exists (Z.of_nat j).
    apply non_transparent_cell. eauto.
  - intros (y & Hc). pose proof Hc as (p & Hp & _).
    apply (getpixel_in_range _ _ _ _ Hwf) in Hp. split; [lia|].
    destruct (content_nat _ _ _ Hc) as (i' & j & Hi' & ->).
    apply non_transparent_cell in Hc as (row & Hj & Hi). eauto.
Qed.

(** The box returned for an image with content: it lies in the image, it
    covers all content, and each of its four sides carries content. *)
Lemma find_content_bounds_tight (im : Image) :
  wf_image im -> (exists x y, content im x y) ->
  exists b,
    Detect.find_content_bounds im = Some b /\
    box_in_image im b /\
    (forall x y, content im x y -> inside b x y) /\
    (exists x, content im x (BoundingBox.top b)) /\
    (exists x, content im x (BoundingBox.bottom b)) /\
    (exists y, content im (BoundingBox.left b) y) /\
    (exists y, content im (BoundingBox.right b) y).
Proof.
  intros Hwf Hex. unfold Detect.find_content_bounds.
  pose proof Hex as Hany. apply any_content in Hany. rewrite Hany. simpl.
  set (rows := Numpy.any_axis1 (Detect.non_transparent im)).
  set (cols := Numpy.any_axis0 (Z.to_nat (img_width im)) (Detect.non_transparent im)).
  destruct Hex as (x0 & y0 & Hc0).
  destruct (content_nat _ _ _ Hc0) as (i0 & j0 & -> & ->).
  assert (Hrows : existsb id rows = true).
  { apply NumpyFacts.any_vector. exists j0. apply rows_content. eauto. }
  assert (Hcols : existsb id cols = true).
  { apply NumpyFacts.any_vector. exists i0. apply cols_content; eauto. }
  destruct (NumpyFacts.argmax_first _ Hrows) as [Htop Htop_min].
  destruct (NumpyFacts.argmax_last _ Hrows) as (kb & Hkb & Hbot & Hbot_max).
  destruct (NumpyFacts.argmax_first _ Hcols) as [Hleft Hleft_min].
  destruct (NumpyFacts.argmax_last _ Hcols) as (kr & Hkr & Hright & Hright_max).
  rewrite <- Hkb, <- Hkr. eexists. split; [reflexivity|]. simpl.
  pose proof Htop as Htop'. pose proof Hbot as Hbot'.
  pose proof Hleft as Hleft'. pose proof Hright as Hright'.
  apply rows_content in Htop' as [xt Hxt]. apply rows_content in Hbot' as [xb Hxb].
  apply cols_content in Hleft' as [yl Hyl]; [|done].
  apply cols_content in Hright' as [yr Hyr]; [|done].
  assert (Hcover : forall x y, content im x y ->
            Z.of_nat (Numpy.argmax cols) <= x <= Z.of_nat kr /\
            Z.of_nat (Numpy.argmax rows) <= y <= Z.of_nat kb).
  { intros x y Hc. destruct (content_nat _ _ _ Hc) as (i & j & -> & ->).
    assert (Hr : rows !! j = Some true) by (apply rows_content; eauto).
    assert (Hcl : cols !! i = Some true) by (apply cols_content; eauto).
    pose proof (Htop_min _ Hr). pose proof (Hbot_max _ Hr).
    pose proof (Hleft_min _ Hcl). pose proof (Hright_max _ Hcl). lia. }
  split; [|split; [exact Hcover | eauto 10]].
  unfold box_in_image; simpl.
  destruct Hxb as (pb & Hpb & _). apply (getpixel_in_range _ _ _ _ Hwf) in Hpb.
  destruct Hyr as (pr & Hpr & _). apply (getpixel_in_range _ _ _ _ Hwf) in Hpr.
  pose proof (Hcover _ _ Hc0). lia.
Qed.

(** A fully transparent image has no box. *)
Lemma find_content_bounds_None (im : Image) :
  (forall x y, ~ content im x y) -> Detect.find_content_bounds im = None.
Proof.
  intros Hnone. unfold Detect.find_content_bounds.
  destruct (Numpy.any (Detect.non_transparent im)) eqn:Hany; [|done].
  apply any_content in Hany as (x & y & Hc). by destruct (Hnone x y).
Qed.

Lemma find_content_bounds_Some_content (im : Image) (b : BoundingBox) :
  Detect.find_content_bounds im = Some b -> exists x y, content im x y.
Proof.
  unfold Detect.find_content_bounds.
  destruct (Numpy.any (Detect.non_transparent im)) eqn:Hany; [|done].
  intros _. by apply any_content.
Qed.

End DetectFacts.

(** ** Rectangle images *)

Module RectFacts.

Lemma rect_wf (w h l t r b : Z) (colour : Pixel) :
  0 <= w -> 0 <= h -> wf_image (rect_image w h l t r b colour).
Proof.
  intros Hw Hh. unfold wf_image, rect_image; simpl.
  rewrite length_fmap, length_seqZ. split; [done|]. split; [done|]. split; [done|].
  apply Forall_fmap, Forall_forall. intros y _. simpl.
  by rewrite length_fmap, length_seqZ.
Qed.

Lemma rect_getpixel (w h l t r b : Z) (colour : Pixel) (x y : Z) :
  0 <= x < w -> 0 <= y < h ->
  getpixel (rect_image w h l t r b colour) x y =
  Some (if (l <=? x) && (x <=? r) && (t <=? y) && (y <=? b)
        then colour else transparent_black).
Proof.
  intros Hx Hy. apply DetectFacts.getpixel_Some. split; [lia|]. split; [lia|].
  unfold rect_image; simpl. eexists. split.
  - rewrite list_lookup_fmap, lookup_seqZ_lt by lia. simpl. reflexivity.
  - rewrite list_lookup_fmap, lookup_seqZ_lt by lia. simpl.
    by rewrite !Z.add_0_l, !Z2Nat.id by lia.
Qed.

Lemma rect_content (w h l t r b : Z) (colour : Pixel) (x y : Z) :
  alpha colour <> 0%N ->
  content (rect_image w h l t r b colour) x y <->
  (0 <= x < w /\ 0 <= y < h) /\ (l <= x <= r /\ t <= y <= b).
Proof.
  intros Hcol. unfold content. split.
  - intros (p & Hp & Ha).
    destruct (Z_lt_le_dec w 0) as [Hw|Hw].
    { apply DetectFacts.getpixel_Some in Hp as (? & ? & row & Hrow & Hpx).
      unfold rect_image in Hrow; simpl in Hrow.
      rewrite list_lookup_fmap in Hrow.
      destruct (seqZ 0 h !! Z.to_nat y); simpl in Hrow; [|done].
      injection Hrow as <-. rewrite (seqZ_nil 0 w) in Hpx by lia. done. }
    destruct (Z_lt_le_dec h 0) as [Hh|Hh].
    { apply DetectFacts.getpixel_Some in Hp as (? & ? & row & Hrow & Hpx).
      unfold rect_image in Hrow; simpl in Hrow.
      rewrite (seqZ_nil 0 h) in Hrow by lia. done. }
    pose proof (DetectFacts.getpixel_in_range _ _ _ _ (rect_wf w h l t r b colour Hw Hh) Hp)
      as [Hx Hy]. simpl in Hx, Hy.
    rewrite rect_getpixel in Hp by done. injection Hp as <-.
    split; [done|].
    destruct ((l <=? x) && (x <=? r) && (t <=? y) && (y <=? b)) eqn:Hin; [|done].
    rewrite !andb_true_iff in Hin. lia.
  - intros ([Hx Hy] & Hin). exists colour. split; [|done].
    rewrite rect_getpixel by done.
    replace ((l <=? x) && (x <=? r) && (t <=? y) && (y <=? b)) with true; [done|].
    symmetry. rewrite !andb_true_iff. lia.
Qed.

(** Detection on a rectangle image returns the rectangle. *)
Lemma rect_find_content_bounds (w h l t r b : Z) (colour : Pixel) :
  alpha colour <> 0%N -> 0 <= l <= r -> r < w -> 0 <= t <= b -> b < h ->
  Detect.find_content_bounds (rect_image w h l t r b colour) =
  Some (BoundingBox.mk l t r b).
Proof.
  intros Hcol Hl Hr Ht Hb.
  set (im := rect_image w h l t r b colour).
  assert (Hwf : wf_image im) by (apply rect_wf; lia).
  assert (Hc : forall x y, content im x y <->
            (0 <= x < w /\ 0 <= y < h) /\ (l <= x <= r /\ t <= y <= b)).
  { intros x y. by apply rect_content. }
  destruct (DetectFacts.find_content_bounds_tight im Hwf)
    as (b0 & Hb0 & _ & Hcover & [xt Hxt] & [xb Hxb] & [yl Hyl] & [yr Hyr]).
  { exists l, t. apply Hc. lia. }
  rewrite Hb0. f_equal.
  assert (H1 : inside b0 l t) by (apply Hcover, Hc; lia).
  assert (H2 : inside b0 r b) by (apply Hcover, Hc; lia).
  apply Hc in Hxt, Hxb, Hyl, Hyr. unfold inside in H1, H2.
  destruct b0 as [l0 t0 r0 d0]; simpl in *. f_equal; lia.
Qed.

End RectFacts.

(** ** Claims about bounds detection *)

Lemma find_content_bounds_shared (im : Image) :
  Original.find_content_bounds im = Detect.find_content_bounds im /\
  Fixed.find_content_bounds im = Detect.find_content_bounds im /\
  NoPadding.find_content_bounds im = Detect.find_content_bounds im.
Proof. done. Qed.

(** C4. For an image with at least one pixel of non-zero alpha,
    [find_content_bounds] returns a box such that every pixel outside the box
    has zero alpha and each of the four sides of the box (top row, bottom
    row, left column, right column, within the box) holds a pixel of non-zero
    alpha; for an image whose alpha values are all zero it returns [None].
    The other two scripts use the same function. *)
Theorem find_content_bounds_correct (im : Image) :
  wf_image im ->
  ((exists x y p, getpixel im x y = Some p /\ alpha p <> 0%N) ->
   exists b,
     Original.find_content_bounds im = Some b /\
     (forall x y p, getpixel im x y = Some p -> ~ inside b x y -> alpha p = 0%N) /\
     (exists x, BoundingBox.left b <= x <= BoundingBox.right b /\
                content im x (BoundingBox.top b)) /\
     (exists x, BoundingBox.left b <= x <= BoundingBox.right b /\
                content im x (BoundingBox.bottom b)) /\
     (exists y, BoundingBox.top b <= y <= BoundingBox.bottom b /\
                content im (BoundingBox.left b) y) /\
     (exists y, BoundingBox.top b <= y <= BoundingBox.bottom b /\
                content im (BoundingBox.right b) y)) /\
  ((forall x y p, getpixel im x y = Some p -> alpha p = 0%N) ->
   Original.find_content_bounds im = None) /\
  NoPadding.find_content_bounds im = Original.find_content_bounds im /\
  Fixed.find_content_bounds im = Original.find_content_bounds im.
Proof.
  intros Hwf. split; [|split; [|done]].
  - intros (x0 & y0 & p0 & Hp0 & Ha0).
    destruct (DetectFacts.find_content_bounds_tight im Hwf)
      as (b & Hb & _ & Hcover & [xt Hxt] & [xb Hxb] & [yl Hyl] & [yr Hyr]).
    { exists x0, y0, p0. done. }
    exists b. split; [exact Hb|]. split.
    { intros x y p Hp Hout. destruct (N.eq_dec (alpha p) 0%N) as [|Hne]; [done|].
      destruct Hout. apply Hcover. by exists p. }
    pose proof (Hcover _ _ Hxt) as [? _]. pose proof (Hcover _ _ Hxb) as [? _].
    pose proof (Hcover _ _ Hyl) as [_ ?]. pose proof (Hcover _ _ Hyr) as [_ ?].
    repeat split; eauto.
  - intros Hzero. apply DetectFacts.find_content_bounds_None.
    intros x y (p & Hp & Ha). apply Ha. eauto.
Qed.

(** C8. Two images of equal dimensions with the same alpha channel get the
    same answer from [find_content_bounds], whatever their red, green and
    blue values are. *)
Theorem find_content_bounds_alpha_only (im1 im2 : Image) :
  img_width im1 = img_width im2 ->
  img_height im1 = img_height im2 ->
  Detect.alpha_channel im1 = Detect.alpha_channel im2 ->
  Original.find_content_bounds im1 = Original.find_content_bounds im2.
Proof.
  intros Hw _ Ha.
  unfold Original.find_content_bounds, Detect.find_content_bounds,
    Detect.non_transparent.
  by rewrite Hw, Ha.
Qed.

(** ** Cropping *)

Module CropFacts.

(** [Image.crop] on a box that is not inverted. *)
Lemma crop_Ok (im : Image) (x0 y0 x1 y1 : Z) :
  x0 <= x1 -> y0 <= y1 ->
  exists c,
    crop im (x0, y0, x1, y1) = Ok c /\
    size c = (x1 - x0, y1 - y0) /\
    wf_image c /\
    forall x y, 0 <= x < x1 - x0 -> 0 <= y < y1 - y0 ->
      getpixel c x y = Some (default transparent_black (getpixel im (x0 + x) (y0 + y))).
Proof.
  intros Hx Hy. unfold crop.
  destruct (x1 <? x0) eqn:Hx'; [lia|]. destruct (y1 <? y0) eqn:Hy'; [lia|]. simpl.
  eexists. split; [reflexivity|]. split; [reflexivity|]. split.
  - unfold wf_image; simpl. rewrite length_fmap, length_seqZ.
    split; [lia|]. split; [lia|]. split; [done|].
    apply Forall_fmap, Forall_forall. intros y _. simpl.
    by rewrite length_fmap, length_seqZ.
  - intros x y Hxr Hyr. apply DetectFacts.getpixel_Some; simpl.
    split; [lia|]. split; [lia|]. eexists. split.
    + rewrite list_lookup_fmap, lookup_seqZ_lt by lia. simpl. reflexivity.
    + rewrite list_lookup_fmap, lookup_seqZ_lt by lia. simpl.
      by rewrite !Z2Nat.id by lia.
Qed.

(** Cropping a box that lies inside the image copies the source pixels. *)
Lemma crop_inside (im : Image) (x0 y0 x1 y1 : Z) :
  wf_image im ->
  0 <= x0 <= x1 -> x1 <= img_width im -> 0 <= y0 <= y1 -> y1 <= img_height im ->
  exists c,
    crop im (x0, y0, x1, y1) = Ok c /\
    size c = (x1 - x0, y1 - y0) /\
    wf_image c /\
    forall x y, 0 <= x < x1 - x0 -> 0 <= y < y1 - y0 ->
      exists px, getpixel c x y = Some px /\ getpixel im (x0 + x) (y0 + y) = Some px.
Proof.
  intros Hwf Hx0 Hx1 Hy0 Hy1.
  destruct (crop_Ok im x0 y0 x1 y1) as (c & Hc & Hsize & Hwfc & Hpix); [lia..|].
  exists c. split; [done|]. split; [done|]. split; [done|].
  intros x y Hx Hy. rewrite (Hpix x y) by done.
  destruct (DetectFacts.getpixel_is_Some im (x0 + x) (y0 + y)) as [px Hpx];
    [done | lia | lia |].
  exists px. by rewrite Hpx.
Qed.

(** The rectangle used by the padded crops: the bounds grown by [p] on each
    side and clamped to the image, both corners included. *)
Lemma crop_image_to_bounds_inside (im : Image) (b : BoundingBox) (p : Z) :
  wf_image im -> box_in_image im b -> 0 <= p ->
  let l := Z.max 0 (BoundingBox.left b - p) in
  let t := Z.max 0 (BoundingBox.top b - p) in
  let r := Z.min (img_width im - 1) (BoundingBox.right b + p) in
  let d := Z.min (img_height im - 1) (BoundingBox.bottom b + p) in
  exists c,
    Original.crop_image_to_bounds im b p = Ok c /\
    size c = (r - l + 1, d - t + 1) /\
    wf_image c /\
    forall x y, 0 <= x < r - l + 1 -> 0 <= y < d - t + 1 ->
      exists px, getpixel c x y = Some px /\ getpixel im (l + x) (t + y) = Some px.
Proof.
  intros Hwf (Hl & Hr & Ht & Hd) Hp l t r d.
  unfold Original.crop_image_to_bounds. fold l t r d.
  destruct (crop_inside im l t (r + 1) (d + 1)) as (c & Hc & Hsize & Hwfc & Hpix);
    [done | lia..|].
  exists c. split; [done|]. split.
  { rewrite Hsize. f_equal; lia. }
  split; [done|]. intros x y Hx Hy. apply Hpix; lia.
Qed.

Lemma create_optimized_crop_inside (im : Image) (b : BoundingBox) (p : Z) :
  wf_image im -> box_in_image im b -> 0 <= p ->
  let l := Z.max 0 (BoundingBox.left b - p) in
  let t := Z.max 0 (BoundingBox.top b - p) in
  let r := Z.min (img_width im - 1) (BoundingBox.right b + p) in
  let d := Z.min (img_height im - 1) (BoundingBox.bottom b + p) in
  exists info,
    Fixed.create_optimized_crop im b p = Ok info /\
    Fixed.actual_crop_bounds info = BoundingBox.mk l t r d /\
    (Fixed.canvas_position_left info, Fixed.canvas_position_top info) = (l, t) /\
    size (Fixed.cropped_image info) = (r - l + 1, d - t + 1) /\
    wf_image (Fixed.cropped_image info) /\
    forall x y, 0 <= x < r - l + 1 -> 0 <= y < d - t + 1 ->
      exists px, getpixel (Fixed.cropped_image info) x y = Some px /\
                 getpixel im (l + x) (t + y) = Some px.
Proof.
  intros Hwf (Hl & Hr & Ht & Hd) Hp l t r d.
  unfold Fixed.create_optimized_crop.
  replace (Z.min (img_width im) (BoundingBox.right b + p + 1)) with (r + 1) by lia.
  replace (Z.min (img_height im) (BoundingBox.bottom b + p + 1)) with (d + 1) by lia.
  fold l t.
  destruct (crop_inside im l t (r + 1) (d + 1)) as (c & Hc & Hsize & Hwfc & Hpix);
    [done | lia..|].
  rewrite Hc. simpl. eexists. split; [reflexivity|]. simpl.
  split; [f_equal; lia|]. split; [done|]. split.
  { rewrite Hsize. f_equal; lia. }
  split; [done|]. intros x y Hx Hy. apply Hpix; lia.
Qed.

End CropFacts.

(** C5. For bounds inside the image and padding [p >= 0], the crop is the
    rectangle from [(max(0, left - p), max(0, top - p))] to
    [(min(width - 1, right + p), min(height - 1, bottom + p))], both corners
    included: the returned image has that rectangle's size and holds exactly
    the source pixels of the rectangle.  This holds for
    [crop_image_to_bounds] and for [create_optimized_crop], which also
    records that rectangle as [actual_crop_bounds] and its corner as the
    canvas position. *)
Theorem crop_is_clamped_rectangle (im : Image) (b : BoundingBox) (p : Z) :
  wf_image im -> box_in_image im b -> 0 <= p ->
  let l := Z.max 0 (BoundingBox.left b - p) in
  let t := Z.max 0 (BoundingBox.top b - p) in
  let r := Z.min (img_width im - 1) (BoundingBox.right b + p) in
  let d := Z.min (img_height im - 1) (BoundingBox.bottom b + p) in
  (exists c,
     Original.crop_image_to_bounds im b p = Ok c /\
     size c = (r - l + 1, d - t + 1) /\
     wf_image c /\
     forall x y, 0 <= x < r - l + 1 -> 0 <= y < d - t + 1 ->
       exists px, getpixel c x y = Some px /\ getpixel im (l + x) (t + y) = Some px) /\
  (exists info,
     Fixed.create_optimized_crop im b p = Ok info /\
     Fixed.actual_crop_bounds info = BoundingBox.mk l t r d /\
     (Fixed.canvas_position_left info, Fixed.canvas_position_top info) = (l, t) /\
     size (Fixed.cropped_image info) = (r - l + 1, d - t + 1) /\
     wf_image (Fixed.cropped_image info) /\
     forall x y, 0 <= x < r - l + 1 -> 0 <= y < d - t + 1 ->
       exists px, getpixel (Fixed.cropped_image info) x y = Some px /\
                  getpixel im (l + x) (t + y) = Some px).
Proof.
  intros Hwf Hin Hp. split.
  - by apply CropFacts.crop_image_to_bounds_inside.
  - by apply CropFacts.create_optimized_crop_inside.
Qed.

(** ** File names *)

Module StringFacts.

Lemma append_cons (a : Ascii.ascii) (s t : string) : String a s +:+ t = String a (s +:+ t).
Proof. reflexivity. Qed.

Lemma length_append (s t : string) :
  String.length (s +:+ t) = (String.length s + String.length t)%nat.
Proof.
  induction s as [|a s IH]; [reflexivity|].
  rewrite append_cons. simpl. by rewrite IH.
Qed.

(** Two stems with the same file name are the same stem. *)
Lemma append_inj_r (s1 s2 t : string) : s1 +:+ t = s2 +:+ t -> s1 = s2.
Proof.
  revert s2. induction s1 as [|a s1 IH]; intros [|a2 s2] Heq; [done|..].
  - apply (f_equal String.length) in Heq. rewrite !length_append in Heq.
    simpl in Heq. lia.
  - apply (f_equal String.length) in Heq. rewrite !length_append in Heq.
    simpl in Heq. lia.
  - rewrite !append_cons in Heq. injection Heq as -> Heq. f_equal. by apply IH.
Qed.

End StringFacts.

(** ** The batch loop *)

Module PipelineFacts.
Section PipelineFacts.

Context {F : Type} `{PyFloat F}.
Variable R : Type.
Variable piece_id : R -> string.
Variable original_size : R -> Z * Z.
Variable cropped_image : R -> Image.
Variable memory_saved_bytes : R -> Z.
Variable optimize_piece : string * PieceFile -> option R.
Variable piece_record : CanvasInfo -> R -> Result PieceMetadata.

Abbreviation LoopState := (Pipeline.LoopState R).
Abbreviation loop_body :=
  (Pipeline.loop_body R piece_id original_size cropped_image memory_saved_bytes
     optimize_piece).
Abbreviation optimize_grid_size :=
  (Pipeline.optimize_grid_size R piece_id original_size cropped_image
     memory_saved_bytes optimize_piece piece_record).
Abbreviation _generate_optimization_metadata :=
  (Pipeline._generate_optimization_metadata R piece_id piece_record).
Abbreviation collect_pieces := (Pipeline.collect_pieces R piece_id piece_record).
Abbreviation original_bytes := (Pipeline.original_bytes R original_size).
Abbreviation save_all := (Pipeline.save_all R piece_id cropped_image).
Abbreviation after_results :=
  (Pipeline.after_results R piece_id original_size cropped_image memory_saved_bytes).

Lemma sumZ_app (l k : list Z) : sumZ (l ++ k) = sumZ l + sumZ k.
Proof. unfold sumZ. induction l as [|a l IH]; simpl; lia. Qed.

(** The loop only sees the pieces that [optimize_piece] accepts. *)
Lemma loop_only_results (piece_files : list (string * PieceFile)) (st : LoopState) :
  foldl loop_body st piece_files = after_results st (omap optimize_piece piece_files).
Proof.
  revert st. induction piece_files as [|f files IH]; intros st; simpl.
  - destruct st. unfold Pipeline.after_results, Pipeline.save_all, sumZ. simpl.
    rewrite app_nil_r. f_equal; first [done | lia].
  - rewrite IH. unfold Pipeline.loop_body.
    destruct (optimize_piece f) as [result|]; [|done].
    unfold Pipeline.after_results, Pipeline.save_all, Pipeline.original_bytes, sumZ.
    simpl. rewrite <- app_assoc. simpl. f_equal; symmetry; apply Z.add_assoc.
Qed.

Lemma omap_skip (l1 l2 : list (string * PieceFile)) (f : string * PieceFile) :
  optimize_piece f = None ->
  omap optimize_piece (l1 ++ f :: l2) = omap optimize_piece (l1 ++ l2).
Proof. intros Hf. rewrite !omap_app. simpl. by rewrite Hf. Qed.

(** A piece that [optimize_piece] turns down leaves no trace in the run. *)
Lemma run_skips_None (l1 l2 : list (string * PieceFile)) (f : string * PieceFile)
    (layout : LayoutFile) :
  optimize_piece f = None ->
  optimize_grid_size {| pieces_dir := Some (l1 ++ f :: l2); layout_file := layout |} =
  optimize_grid_size {| pieces_dir := Some (l1 ++ l2); layout_file := layout |}.
Proof.
  intros Hf. unfold Pipeline.optimize_grid_size. simpl.
  by rewrite !loop_only_results, (omap_skip _ _ _ Hf).
Qed.

(** Shape of a run in terms of the accepted results. *)
Lemma run_no_directory (layout : LayoutFile) :
  optimize_grid_size {| pieces_dir := None; layout_file := layout |} =
  {| returned := Ok false; saved_pieces := ∅; saved_metadata := None |}.
Proof. done. Qed.

Lemma run_no_results (piece_files : list (string * PieceFile)) (layout : LayoutFile) :
  omap optimize_piece piece_files = [] ->
  optimize_grid_size {| pieces_dir := Some piece_files; layout_file := layout |} =
  {| returned := Ok false; saved_pieces := ∅; saved_metadata := None |}.
Proof.
  intros Hnone. unfold Pipeline.optimize_grid_size. simpl.
  rewrite loop_only_results, Hnone. done.
Qed.

Lemma run_with_results (piece_files : list (string * PieceFile)) (layout : LayoutFile) :
  omap optimize_piece piece_files <> [] ->
  let results := omap optimize_piece piece_files in
  let tob := sumZ (original_bytes <$> results) in
  let tsb := sumZ (memory_saved_bytes <$> results) in
  optimize_grid_size {| pieces_dir := Some piece_files; layout_file := layout |} =
  match _generate_optimization_metadata results (_load_canvas_info layout) tob tsb with
  | Raise e =>
      {| returned := Raise e; saved_pieces := save_all results ∅; saved_metadata := None |}
  | Ok metadata =>
      {| returned := (_ <- py_truediv (F:=F) tsb tob;; Ok true);
         saved_pieces := save_all results ∅;
         saved_metadata := Some metadata |}
  end.
Proof.
  intros Hsome. cbv zeta. unfold Pipeline.optimize_grid_size. simpl.
  rewrite loop_only_results. simpl.
  destruct (omap optimize_piece piece_files) as [|r rs]; [done|].
  simpl. rewrite !Z.add_0_l. done.
Qed.

(** The statistics block, whatever the arguments. *)
Lemma metadata_statistics (results : list R) (canvas_info : CanvasInfo)
    (tob tsb : Z) (metadata : Metadata F) :
  _generate_optimization_metadata results canvas_info tob tsb = Ok metadata ->
  statistics metadata = Pipeline.make_statistics R results tob tsb.
Proof.
  unfold Pipeline._generate_optimization_metadata.
  destruct (collect_pieces canvas_info results ∅); simpl; [|done].
  destruct (canvas_int canvas_info "width"); simpl; [|done].
  destruct (canvas_int canvas_info "height"); simpl; [|done].
  by intros [= <-].
Qed.

Lemma metadata_pieces (results : list R) (canvas_info : CanvasInfo)
    (tob tsb : Z) (metadata : Metadata F) :
  _generate_optimization_metadata results canvas_info tob tsb = Ok metadata ->
  collect_pieces canvas_info results ∅ = Ok (pieces metadata).
Proof.
  unfold Pipeline._generate_optimization_metadata.
  destruct (collect_pieces canvas_info results ∅); simpl; [|done].
  destruct (canvas_int canvas_info "width"); simpl; [|done].
  destruct (canvas_int canvas_info "height"); simpl; [|done].
  by intros [= <-].
Qed.

(** What a run that wrote a metadata document has gone through. *)
Lemma run_metadata_inv (d : GridDir) (metadata : Metadata F) :
  saved_metadata (optimize_grid_size d) = Some metadata ->
  exists piece_files,
    pieces_dir d = Some piece_files /\
    let results := omap optimize_piece piece_files in
    results <> [] /\
    _generate_optimization_metadata results (_load_canvas_info (layout_file d))
      (sumZ (original_bytes <$> results)) (sumZ (memory_saved_bytes <$> results))
      = Ok metadata /\
    saved_pieces (optimize_grid_size d) = save_all results ∅.
Proof.
  destruct d as [[piece_files|] layout]; [|done]. intros Hmd.
  exists piece_files. split; [done|]. cbv zeta.
  destruct (decide (omap optimize_piece piece_files = [])) as [Hnil|Hne].
  { by rewrite (run_no_results _ _ Hnil) in Hmd. }
  split; [done|]. rewrite (run_with_results _ layout Hne) in Hmd |- *.
  cbv zeta in Hmd |- *.
  destruct (_generate_optimization_metadata _ _ _ _) as [md|e]; simpl in *; [|done].
  by simplify_eq.
Qed.

(** Keys of the pieces map are piece ids of results. *)
Lemma collect_pieces_keys (canvas_info : CanvasInfo) (results : list R)
    (pm pm' : gmap string PieceMetadata) (key : string) :
  collect_pieces canvas_info results pm = Ok pm' ->
  is_Some (pm' !! key) -> is_Some (pm !! key) \/ key ∈ piece_id <$> results.
Proof.
  revert pm. induction results as [|r rs IH]; intros pm; simpl.
  - intros [= <-]. auto.
  - destruct (piece_record canvas_info r) as [e|]; simpl; [|done].
    intros Hrest Hkey. destruct (IH _ Hrest Hkey) as [Hin|Hin].
    + destruct (decide (piece_id r = key)) as [<-|Hne].
      * right. apply list_elem_of_here.
      * left. by rewrite lookup_insert_ne in Hin.
    + right. by apply list_elem_of_further.
Qed.

(** Files written are the result files. *)
Lemma save_all_keys (results : list R) (files : gmap string Image) (name : string) :
  is_Some (save_all results files !! name) ->
  is_Some (files !! name) \/ name ∈ (fun r => piece_id r +:+ ".png") <$> results.
Proof.
  revert files. induction results as [|r rs IH]; intros files; simpl; [auto|].
  intros Hname. destruct (IH _ Hname) as [Hin|Hin].
  - destruct (decide (piece_id r +:+ ".png" = name)) as [<-|Hne].
    + right. apply list_elem_of_here.
    + left. by rewrite lookup_insert_ne in Hin.
  - right. by apply list_elem_of_further.
Qed.

(** A relation between a record and the result's cropped image that holds
    whenever a record is built holds between every entry of the pieces map
    and the file saved for it. *)
Lemma collect_save_related (rel : PieceMetadata -> Image -> Prop)
    (canvas_info : CanvasInfo) (results : list R)
    (pm pm' : gmap string PieceMetadata) (files : gmap string Image) :
  (forall r entry, r ∈ results -> piece_record canvas_info r = Ok entry ->
     rel entry (cropped_image r)) ->
  (forall key entry, pm !! key = Some entry ->
     exists im, files !! (key +:+ ".png") = Some im /\ rel entry im) ->
  collect_pieces canvas_info results pm = Ok pm' ->
  forall key entry, pm' !! key = Some entry ->
    exists im, save_all results files !! (key +:+ ".png") = Some im /\ rel entry im.
Proof.
  revert pm files. induction results as [|r rs IH]; intros pm files Hrec Hinv; simpl.
  - intros [= <-]. exact Hinv.
  - destruct (piece_record canvas_info r) as [e|] eqn:He; simpl; [|done].
    intros Hrest. eapply IH; [| |exact Hrest].
    { intros r' e' Hin. apply Hrec. by apply list_elem_of_further. }
    intros key entry Hkey. destruct (decide (piece_id r = key)) as [<-|Hne].
    + rewrite lookup_insert_eq in Hkey. injection Hkey as <-.
      exists (cropped_image r). rewrite lookup_insert_eq. split; [done|].
      apply Hrec; [apply list_elem_of_here | done].
    + rewrite lookup_insert_ne in Hkey by done.
      rewrite lookup_insert_ne; [by apply Hinv|].
      intros Heq. by apply StringFacts.append_inj_r in Heq.
Qed.

(** The same, for a whole run. *)
Lemma run_entries_related (rel : PieceMetadata -> Image -> Prop)
    (d : GridDir) (metadata : Metadata F) :
  (forall piece_files r entry,
     pieces_dir d = Some piece_files -> r ∈ omap optimize_piece piece_files ->
     piece_record (_load_canvas_info (layout_file d)) r = Ok entry ->
     rel entry (cropped_image r)) ->
  saved_metadata (optimize_grid_size d) = Some metadata ->
  forall key entry, pieces metadata !! key = Some entry ->
    exists im, saved_pieces (optimize_grid_size d) !! (key +:+ ".png") = Some im /\
               rel entry im.
Proof.
  intros Hrec Hmd.
  destruct (run_metadata_inv d metadata Hmd) as (files & Hfiles & _ & Hgen & ->).
  apply metadata_pieces in Hgen.
  eapply collect_save_related; [| |exact Hgen].
  - intros r entry Hin. by apply (Hrec files).
  - intros key entry Hkey. by rewrite lookup_empty in Hkey.
Qed.

Lemma run_saved_pieces (piece_files : list (string * PieceFile)) (layout : LayoutFile) :
  saved_pieces
    (optimize_grid_size {| pieces_dir := Some piece_files; layout_file := layout |}) =
  save_all (omap optimize_piece piece_files) ∅.
Proof.
  destruct (decide (omap optimize_piece piece_files = [])) as [Hnil|Hne].
  - rewrite (run_no_results _ _ Hnil), Hnil. done.
  - rewrite (run_with_results _ layout Hne). cbv zeta.
    by destruct (_generate_optimization_metadata _ _ _ _).
Qed.

(** The loop of [_generate_optimization_metadata] stops at the first record
    that raises, and otherwise goes through. *)
Lemma collect_pieces_Ok (canvas_info : CanvasInfo) (results : list R)
    (pm : gmap string PieceMetadata) :
  Forall (fun r => exists entry, piece_record canvas_info r = Ok entry) results ->
  exists pm', collect_pieces canvas_info results pm = Ok pm'.
Proof.
  intros Hall. revert pm. induction Hall as [|r rs [entry He] _ IH]; intros pm; simpl.
  - eauto.
  - rewrite He. simpl. apply IH.
Qed.

Lemma collect_pieces_Raise (canvas_info : CanvasInfo) (results : list R)
    (pm : gmap string PieceMetadata) (r : R) (e : Exception) :
  r ∈ results -> piece_record canvas_info r = Raise e ->
  exists e', collect_pieces canvas_info results pm = Raise e'.
Proof.
  intros Hin Hr. revert pm. induction Hin as [r rs | r r' rs _ IH]; intros pm; simpl.
  - rewrite Hr. simpl. eauto.
  - destruct (piece_record canvas_info r') as [entry|e'']; simpl; eauto.
Qed.

Lemma generate_metadata_Raise (canvas_info : CanvasInfo) (results : list R)
    (tob tsb : Z) (r : R) (e : Exception) :
  r ∈ results -> piece_record canvas_info r = Raise e ->
  exists e', _generate_optimization_metadata results canvas_info tob tsb = Raise e'.
Proof.
  intros Hin Hr. unfold Pipeline._generate_optimization_metadata.
  destruct (collect_pieces_Raise canvas_info results ∅ r e Hin Hr) as [e' ->].
  simpl. eauto.
Qed.

Lemma generate_metadata_Ok (canvas_info : CanvasInfo) (results : list R)
    (tob tsb cw ch : Z) :
  canvas_int canvas_info "width" = Ok cw ->
  canvas_int canvas_info "height" = Ok ch ->
  Forall (fun r => exists entry, piece_record canvas_info r = Ok entry) results ->
  exists metadata,
    _generate_optimization_metadata results canvas_info tob tsb = Ok metadata.
Proof.
  intros Hw Hh Hall. unfold Pipeline._generate_optimization_metadata.
  destruct (collect_pieces_Ok canvas_info results ∅ Hall) as [pm' ->].
  simpl. rewrite Hw, Hh. simpl. eauto.
Qed.

Lemma sumZ_between (A : Type) (f g : A -> Z) (l : list A) :
  Forall (fun a => 0 <= f a <= g a) l ->
  0 <= sumZ (f <$> l) <= sumZ (g <$> l).
Proof.
  unfold sumZ. induction 1 as [|a l Ha _ IH]; csimpl; lia.
Qed.

Lemma sumZ_pos (A : Type) (g : A -> Z) (l : list A) :
  l <> [] -> Forall (fun a => 0 < g a) l -> 0 < sumZ (g <$> l).
Proof.
  unfold sumZ. intros Hne Hall. destruct Hall as [|a l Ha Hall]; [done|]. csimpl.
  assert (0 <= foldr Z.add 0 (g <$> l)); [|lia].
  clear Hne. induction Hall as [|b l Hb _ IH]; csimpl; lia.
Qed.

Lemma sumZ_const (A : Type) (g : A -> Z) (l : list A) (c : Z) :
  Forall (fun a => g a = c) l -> sumZ (g <$> l) = Z.of_nat (length l) * c.
Proof.
  unfold sumZ. induction 1 as [|a l Ha _ IH]; csimpl; [lia|].
  rewrite IH, Ha. lia.
Qed.

End PipelineFacts.
End PipelineFacts.

(** ** [optimize_puzzle_assets.py]: one piece *)

Module OriginalFacts.
Section OriginalFacts.

Context {hashlib : Hashlib} {F : Type} `{PyFloat F}.

(** What a successful [optimize_piece] has gone through. *)
Lemma optimize_piece_inv (piece_path : string * PieceFile)
    (result : Original.PieceOptimizationResult) :
  Original.optimize_piece (F:=F) piece_path = Some result ->
  exists im b c,
    snd piece_path = Png im /\
    Original.find_content_bounds im = Some b /\
    Original.crop_image_to_bounds im b 2 = Ok c /\
    Original.piece_id result = fst piece_path /\
    Original.original_size result = size im /\
    Original.bounds result = b /\
    Original.cropped_image result = c /\
    Original.memory_saved_bytes result =
      img_width im * img_height im * 4 - img_width c * img_height c * 4.
Proof.
  unfold Original.optimize_piece. destruct piece_path as [name [|im]]; simpl; [done|].
  destruct (Original.find_content_bounds im) as [b|] eqn:Hb; simpl; [|done].
  destruct (Original.crop_image_to_bounds im b 2) as [c|] eqn:Hc; simpl; [|done].
  unfold py_truediv.
  destruct (img_width im * img_height im * 4 - img_width c * img_height c * 4 =? 0);
    destruct (img_width im * img_height im * 4 =? 0); simpl; try done;
    intros [= <-]; exists im, b, c; done.
Qed.

(** A fully transparent piece is skipped. *)
Lemma optimize_piece_transparent (name : string) (im : Image) :
  (forall x y p, getpixel im x y = Some p -> alpha p = 0%N) ->
  Original.optimize_piece (F:=F) (name, Png im) = None.
Proof.
  intros Hzero. unfold Original.optimize_piece. simpl.
  unfold Original.find_content_bounds.
  rewrite DetectFacts.find_content_bounds_None; [done|].
  intros x y (p & Hp & Ha). apply Ha. eauto.
Qed.

(** An unreadable piece is skipped. *)
Lemma optimize_piece_unreadable (name : string) :
  Original.optimize_piece (F:=F) (name, Unreadable) = None.
Proof. done. Qed.

(** A well-formed piece with content is optimised. *)
Lemma optimize_piece_content (name : string) (im : Image) :
  wf_image im -> (exists x y, content im x y) ->
  exists result, Original.optimize_piece (F:=F) (name, Png im) = Some result.
Proof.
  intros Hwf Hex.
  destruct (DetectFacts.find_content_bounds_tight im Hwf Hex)
    as (b & Hb & Hin & _).
  destruct (CropFacts.crop_image_to_bounds_inside im b 2 Hwf Hin) as (c & Hc & _); [lia|].
  unfold Original.optimize_piece, Original.find_content_bounds. simpl.
  rewrite Hb. simpl. rewrite Hc. simpl. unfold py_truediv.
  destruct Hin as (? & ? & ? & ?).
  destruct (img_width im * img_height im * 4 =? 0) eqn:Hz; [nia|].
  simpl. eauto.
Qed.

(** Sizes around a successful [optimize_piece] on a well-formed image. *)
Lemma optimize_piece_sizes (piece_path : string * PieceFile)
    (result : Original.PieceOptimizationResult) :
  wf_piece_file (snd piece_path) ->
  Original.optimize_piece (F:=F) piece_path = Some result ->
  let W := fst (Original.original_size result) in
  let H := snd (Original.original_size result) in
  let w := img_width (Original.cropped_image result) in
  let h := img_height (Original.cropped_image result) in
  0 < w <= W /\ 0 < h <= H /\
  Original.memory_saved_bytes result = W * H * 4 - w * h * 4 /\
  Original.width (Original.bounds result) < w /\
  Original.height (Original.bounds result) < h.
Proof.
  intros Hwf Hopt.
  destruct (optimize_piece_inv _ _ Hopt)
    as (im & b & c & Him & Hb & Hc & _ & Hsize & Hbounds & Hcrop & Hsaved).
  rewrite Him in Hwf. simpl in Hwf.
  destruct (DetectFacts.find_content_bounds_tight im Hwf) as (b' & Hb' & Hin & _).
  { by apply (DetectFacts.find_content_bounds_Some_content im b). }
  unfold Original.find_content_bounds in Hb. rewrite Hb in Hb'. injection Hb' as <-.
  destruct (CropFacts.crop_image_to_bounds_inside im b 2 Hwf Hin) as (c' & Hc' & Hcs & _);
    [lia|].
  rewrite Hc in Hc'. injection Hc' as <-.
  unfold size in Hcs. injection Hcs as Hcw Hch.
  rewrite Hsize, Hbounds, Hcrop, Hsaved. simpl.
  destruct Hin as (? & ? & ? & ?). unfold Original.width, Original.height.
  rewrite Hcw, Hch. lia.
Qed.

(** [optimize_piece] on a rectangle image. *)
Lemma optimize_piece_rect (name : string) (w h l t r b : Z) (colour : Pixel) :
  alpha colour <> 0%N -> 0 <= l <= r -> r < w -> 0 <= t <= b -> b < h ->
  exists result,
    Original.optimize_piece (F:=F) (name, Png (rect_image w h l t r b colour))
      = Some result /\
    Original.piece_id result = name /\
    Original.original_size result = (w, h) /\
    Original.bounds result = BoundingBox.mk l t r b /\
    size (Original.cropped_image result) =
      (Z.min (w - 1) (r + 2) - Z.max 0 (l - 2) + 1,
       Z.min (h - 1) (b + 2) - Z.max 0 (t - 2) + 1).
Proof.
  intros Hcol Hl Hr Ht Hb.
  set (im := rect_image w h l t r b colour).
  assert (Hwf : wf_image im) by (apply RectFacts.rect_wf; lia).
  destruct (optimize_piece_content name im Hwf) as [result Hres].
  { exists l, t. apply RectFacts.rect_content; [done | lia]. }
  exists result. split; [done|].
  destruct (optimize_piece_inv _ _ Hres)
    as (im' & b' & c & Him & Hb' & Hc & Hid & Hsize & Hbounds & Hcrop & _).
  simpl in Him. injection Him as <-.
  unfold Original.find_content_bounds, im in Hb'.
  rewrite RectFacts.rect_find_content_bounds in Hb' by done. injection Hb' as <-.
  destruct (CropFacts.crop_image_to_bounds_inside im (BoundingBox.mk l t r b) 2 Hwf)
    as (c' & Hc' & Hcs & _); [unfold box_in_image; simpl; lia | lia |].
  rewrite Hc in Hc'. injection Hc' as <-.
  rewrite Hcrop, Hcs. done.
Qed.

End OriginalFacts.
End OriginalFacts.

(** ** What [optimize_piece] prints *)

Module VerboseFacts.
Section VerboseFacts.

Context {hashlib : Hashlib} {F : Type} `{PyFloat F}.

(** The lines do not change what is returned. *)
Lemma optimize_piece_returned (verbose : bool) (piece_path : string * PieceFile) :
  snd (Verbose.optimize_piece verbose piece_path)
  = Original.optimize_piece (F:=F) piece_path.
Proof.
  unfold Verbose.optimize_piece, Verbose.optimize_piece_body, Original.optimize_piece.
  destruct piece_path as [name [|im]]; simpl; [done|].
  unfold Verbose.find_content_bounds.
  destruct (Original.find_content_bounds im) as [b|]; simpl; [|done].
  destruct (Original.crop_image_to_bounds im b 2) as [c|e]; simpl; [|done].
  by destruct (py_truediv _ _) as [q|e].
Qed.

(** Without [verbose] no line is printed, whatever the piece. *)
Lemma optimize_piece_silent (piece_path : string * PieceFile) :
  fst (Verbose.optimize_piece (F:=F) false piece_path) = [].
Proof.
  unfold Verbose.optimize_piece, Verbose.optimize_piece_body.
  destruct piece_path as [name [|im]]; simpl; [done|].
  unfold Verbose.find_content_bounds.
  destruct (Original.find_content_bounds im) as [b|]; simpl; [|done].
  destruct (Original.crop_image_to_bounds im b 2) as [c|e]; simpl; [|done].
  by destruct (py_truediv _ _) as [q|e].
Qed.

(** The lines of a piece in which no content is found. *)
Lemma transparent_piece_lines (verbose : bool) (name : string) (im : Image) :
  Original.find_content_bounds im = None ->
  Verbose.optimize_piece (F:=F) verbose (name, Png im)
  = (if verbose
     then [Text ("Optimizing piece " +:+ name);
           Text "Warning: Image appears completely transparent";
           Text ("Warning: Piece " +:+ name +:+ " has no content, skipping")]
     else [],
     None).
Proof.
  intros Hnone.
  unfold Verbose.optimize_piece, Verbose.optimize_piece_body. simpl.
  unfold Verbose.find_content_bounds. rewrite Hnone.
  by destruct verbose.
Qed.

End VerboseFacts.
End VerboseFacts.

(** ** [optimize_puzzle_assets.py]: the batch *)

Module OriginalRun.
Section OriginalRun.

Context {hashlib : Hashlib} {F : Type} `{PyFloat F}.

Abbreviation optimize_piece := (Original.optimize_piece (F:=F)).
Abbreviation run := (Original.optimize_grid_size (F:=F)).
Abbreviation original_bytes :=
  (Pipeline.original_bytes Original.PieceOptimizationResult Original.original_size).

Lemma fully_transparent_getpixel (im : Image) (x y : Z) (p : Pixel) :
  fully_transparent im -> getpixel im x y = Some p -> alpha p = 0%N.
Proof.
  intros Hall (_ & _ & row & Hrow & Hp)%DetectFacts.getpixel_Some.
  unfold fully_transparent in Hall. rewrite Forall_lookup in Hall.
  specialize (Hall _ _ Hrow). rewrite Forall_lookup in Hall. by apply (Hall _ _ Hp).
Qed.

Lemma result_from_file (piece_files : list (string * PieceFile))
    (r : Original.PieceOptimizationResult) :
  r ∈ omap optimize_piece piece_files ->
  exists f, f ∈ piece_files /\ optimize_piece f = Some r.
Proof. intros Hin. by apply list_elem_of_omap in Hin. Qed.

Lemma piece_record_Ok (canvas_info : CanvasInfo) (r : Original.PieceOptimizationResult) :
  canvas_readable canvas_info ->
  exists entry, Original.piece_record canvas_info r = Ok entry.
Proof.
  intros [[cw Hw] [ch Hh]]. unfold Original.piece_record.
  rewrite Hw, Hh. simpl. eauto.
Qed.

(** In a well-formed directory every accepted piece saves between nothing
    and all of its original bytes, and the original is not empty. *)
Lemma results_savings (d : GridDir) (piece_files : list (string * PieceFile)) :
  wf_dir d -> pieces_dir d = Some piece_files ->
  Forall (fun r => 0 <= Original.memory_saved_bytes r <= original_bytes r /\
                   0 < original_bytes r)
    (omap optimize_piece piece_files).
Proof.
  unfold wf_dir. intros Hwf Hfiles. rewrite Hfiles in Hwf.
  apply Forall_forall. intros r (f & Hf & Hopt)%result_from_file.
  rewrite Forall_forall in Hwf. specialize (Hwf f Hf).
  pose proof (OriginalFacts.optimize_piece_sizes f r Hwf Hopt) as Hs.
  cbv zeta in Hs. destruct Hs as (Hw & Hh & Hsaved & _).
  unfold Pipeline.original_bytes. rewrite Hsaved. nia.
Qed.

(** [False] is returned exactly when the directory is missing or no piece
    was accepted. *)
Lemma run_returns_False (d : GridDir) :
  returned (run d) = Ok false <->
  pieces_dir d = None \/
  exists piece_files, pieces_dir d = Some piece_files /\
                      omap optimize_piece piece_files = [].
Proof.
  destruct d as [[piece_files|] layout]; simpl.
  - split.
    + intros Hret. right. exists piece_files. split; [done|].
      destruct (decide (omap optimize_piece piece_files = [])) as [|Hne]; [done|].
      exfalso. revert Hret. unfold Original.optimize_grid_size.
      rewrite (PipelineFacts.run_with_results _ _ _ _ _ _ _ _ layout Hne). cbv zeta.
      destruct (Pipeline._generate_optimization_metadata _ _ _ _ _ _ _); simpl; [|done].
      by destruct (py_truediv _ _).
    + intros [|(files & [= <-] & Hnil)]; [done|].
      unfold Original.optimize_grid_size.
      by rewrite (PipelineFacts.run_no_results _ _ _ _ _ _ _ _ _ Hnil).
  - split; [auto | done].
Qed.

(** With a readable canvas entry and well-formed images, one accepted piece
    is enough for [True], and the metadata document is written. *)
Lemma run_returns_True (d : GridDir) (piece_files : list (string * PieceFile)) :
  wf_dir d -> pieces_dir d = Some piece_files ->
  canvas_readable (_load_canvas_info (layout_file d)) ->
  omap optimize_piece piece_files <> [] ->
  returned (run d) = Ok true /\ is_Some (saved_metadata (run d)).
Proof.
  intros Hwf Hfiles Hcanvas Hne.
  pose proof (results_savings d piece_files Hwf Hfiles) as Hall.
  destruct d as [pd layout]. simpl in Hfiles, Hcanvas. subst pd.
  unfold Original.optimize_grid_size.
  rewrite (PipelineFacts.run_with_results _ _ _ _ _ _ _ _ layout Hne). cbv zeta.
  destruct Hcanvas as [[cw Hw] [ch Hh]].
  edestruct (PipelineFacts.generate_metadata_Ok (F:=F) Original.PieceOptimizationResult
               Original.piece_id Original.piece_record (_load_canvas_info layout))
    as [md Hmd]; [exact Hw | exact Hh | |].
  { apply Forall_forall. intros r _. apply piece_record_Ok. split; eauto. }
  rewrite Hmd. simpl. split; [|eauto].
  unfold py_truediv.
  assert (0 < sumZ (original_bytes <$> omap optimize_piece piece_files)) as Hpos.
  { apply PipelineFacts.sumZ_pos; [done|].
    eapply Forall_impl; [exact Hall|]. by intros r [_ ?]. }
  destruct (_ =? 0) eqn:Hz; [lia | done].
Qed.

(** C7, corrected.  A fully transparent piece is skipped, and the warning
    is printed only by a verbose optimiser.  With [verbose] set,
    [optimize_piece] prints three lines for it, two of them warnings
    ([Optimizing piece <id>], [Warning: Image appears completely
    transparent], [Warning: Piece <id> has no content, skipping]); without
    [verbose], which is the default, it prints nothing.  Either way
    [optimize_piece] returns [None] for it, and the run over a directory
    that holds it is the run over the directory without it, with the same
    return value, the same saved files, the same pieces map and the same
    statistics.  When no other file has its name, no file is saved for it
    and the pieces map has no entry for it. *)
Theorem transparent_piece_is_skipped (verbose : bool) (name : string) (im : Image)
    (before after : list (string * PieceFile)) (layout : LayoutFile) :
  fully_transparent im ->
  Verbose.optimize_piece (F:=F) verbose (name, Png im)
  = (if verbose
     then [Text ("Optimizing piece " +:+ name);
           Text "Warning: Image appears completely transparent";
           Text ("Warning: Piece " +:+ name +:+ " has no content, skipping")]
     else [],
     None) /\
  optimize_piece (name, Png im) = None /\
  run {| pieces_dir := Some (before ++ (name, Png im) :: after); layout_file := layout |}
  = run {| pieces_dir := Some (before ++ after); layout_file := layout |} /\
  (name ∉ fst <$> (before ++ after) ->
   let r := run {| pieces_dir := Some (before ++ (name, Png im) :: after);
                   layout_file := layout |} in
   saved_pieces r !! (name +:+ ".png") = None /\
   forall metadata, saved_metadata r = Some metadata -> pieces metadata !! name = None).
Proof.
  intros Hblank.
  assert (Hbounds : Original.find_content_bounds im = None).
  { apply DetectFacts.find_content_bounds_None. intros x y (p & Hp & Ha).
    apply Ha. by apply (fully_transparent_getpixel im x y p). }
  split; [by apply VerboseFacts.transparent_piece_lines|].
  assert (Hnone : optimize_piece (name, Png im) = None).
  { apply OriginalFacts.optimize_piece_transparent.
    intros x y p. by apply fully_transparent_getpixel. }
  assert (Hrun : run {| pieces_dir := Some (before ++ (name, Png im) :: after);
                        layout_file := layout |}
                 = run {| pieces_dir := Some (before ++ after); layout_file := layout |}).
  { unfold Original.optimize_grid_size. by apply PipelineFacts.run_skips_None. }
  split; [done|]. split; [done|]. intros Hfresh. cbv zeta. rewrite Hrun.
  assert (Hids : forall r, r ∈ omap optimize_piece (before ++ after) ->
                   Original.piece_id r <> name).
  { intros r (f & Hf & Hopt)%result_from_file Hid.
    destruct (OriginalFacts.optimize_piece_inv _ _ Hopt)
      as (? & ? & ? & _ & _ & _ & Hpid & _).
    apply Hfresh. apply list_elem_of_fmap. exists f. split; [congruence | done]. }
  split.
  - unfold Original.optimize_grid_size. rewrite PipelineFacts.run_saved_pieces.
    apply eq_None_not_Some. intros Hsome.
    apply PipelineFacts.save_all_keys in Hsome as [Hsome|Hin].
    { rewrite lookup_empty in Hsome. by destruct Hsome. }
    apply list_elem_of_fmap in Hin as (r & Heq & Hr).
    apply StringFacts.append_inj_r in Heq. by apply (Hids r).
  - intros metadata Hmd.
    destruct (PipelineFacts.run_metadata_inv _ _ _ _ _ _ _ _ _ Hmd)
      as (files & [= <-] & _ & Hgen & _).
    apply PipelineFacts.metadata_pieces in Hgen.
    apply eq_None_not_Some. intros Hsome.
    destruct (PipelineFacts.collect_pieces_keys _ _ _ _ _ _ _ _ Hgen Hsome) as [He|Hin].
    { rewrite lookup_empty in He. by destruct He. }
    apply list_elem_of_fmap in Hin as (r & Heq & Hr). by apply (Hids r).
Qed.

(** C10. In a directory of well-formed images, every accepted piece has a
    cropped image no wider and no taller than its original, so its
    [memory_saved_bytes] is not negative; and in the statistics of every
    metadata document [0 <= bytes_saved <= original_total_bytes] and
    [optimized_total_bytes <= original_total_bytes]. *)
Theorem savings_within_original (d : GridDir) :
  wf_dir d ->
  (forall piece_files f r,
     pieces_dir d = Some piece_files -> f ∈ piece_files ->
     optimize_piece f = Some r ->
     fst (size (Original.cropped_image r)) <= fst (Original.original_size r) /\
     snd (size (Original.cropped_image r)) <= snd (Original.original_size r) /\
     0 <= Original.memory_saved_bytes r) /\
  (forall metadata,
     saved_metadata (run d) = Some metadata ->
     0 <= bytes_saved (statistics metadata)
       <= original_total_bytes (statistics metadata) /\
     optimized_total_bytes (statistics metadata)
       <= original_total_bytes (statistics metadata)).
Proof.
  intros Hwf. split.
  - intros piece_files f r Hfiles Hf Hopt.
    assert (Hwff : wf_piece_file (snd f)).
    { unfold wf_dir in Hwf. rewrite Hfiles in Hwf.
      rewrite Forall_forall in Hwf. by apply Hwf. }
    pose proof (OriginalFacts.optimize_piece_sizes f r Hwff Hopt) as Hs.
    cbv zeta in Hs. destruct Hs as (Hw & Hh & Hsaved & _).
    simpl. rewrite Hsaved. split; [lia|]. split; [lia|]. nia.
  - intros metadata Hmd.
    destruct (PipelineFacts.run_metadata_inv _ _ _ _ _ _ _ _ _ Hmd)
      as (files & Hfiles & _ & Hgen & _).
    apply PipelineFacts.metadata_statistics in Hgen. rewrite Hgen. simpl.
    pose proof (results_savings d files Hwf Hfiles) as Hall.
    assert (0 <= sumZ (Original.memory_saved_bytes <$> omap optimize_piece files)
              <= sumZ (original_bytes <$> omap optimize_piece files)); [|lia].
    apply PipelineFacts.sumZ_between.
    eapply Forall_impl; [exact Hall|]. by intros r [? _].
Qed.

(** C6. The statistics block: [memory_reduction_percent] is
    [(bytes_saved / original_total_bytes) * 100] when
    [original_total_bytes > 0] and [0.0] when it is [0];
    [optimized_total_bytes] is [original_total_bytes - bytes_saved].  A batch
    of four pieces, each going from 400×400 to 100×90, reports four pieces,
    [4*400*400*4] original bytes and [4*100*90*4] optimised bytes. *)
Theorem statistics_formulae :
  (forall results canvas_info tob tsb metadata,
     Original._generate_optimization_metadata (F:=F) results canvas_info tob tsb
       = Ok metadata ->
     let s := statistics metadata in
     (0 < original_total_bytes s ->
      memory_reduction_percent s =
        float_mul_int (int_truediv (bytes_saved s) (original_total_bytes s)) 100) /\
     (original_total_bytes s = 0 -> memory_reduction_percent s = float_zero) /\
     optimized_total_bytes s = original_total_bytes s - bytes_saved s /\
     original_total_bytes s = tob /\ bytes_saved s = tsb /\
     total_pieces s = Z.of_nat (length results)) /\
  (forall d piece_files,
     pieces_dir d = Some piece_files ->
     length piece_files = 4%nat ->
     Forall (fun f => exists r, optimize_piece f = Some r /\
                                Original.original_size r = (400, 400) /\
                                size (Original.cropped_image r) = (100, 90))
       piece_files ->
     canvas_readable (_load_canvas_info (layout_file d)) ->
     exists metadata,
       saved_metadata (run d) = Some metadata /\
       total_pieces (statistics metadata) = 4 /\
       original_total_bytes (statistics metadata) = 4 * 400 * 400 * 4 /\
       optimized_total_bytes (statistics metadata) = 4 * 100 * 90 * 4 /\
       bytes_saved (statistics metadata) = 4 * (400 * 400 * 4 - 100 * 90 * 4)).
Proof.
  split.
  - intros results canvas_info tob tsb metadata Hgen.
    apply PipelineFacts.metadata_statistics in Hgen. cbv zeta. rewrite Hgen. simpl.
    split.
    { intros Hpos. apply Z.ltb_lt in Hpos. by rewrite Hpos. }
    split; [|done].
    intros ->. done.
  - intros [pd layout] piece_files Hfiles Hlen Hall Hcanvas. simpl in *. subst pd.
    assert (Hres : Forall (fun r => Original.original_size r = (400, 400) /\
                                    size (Original.cropped_image r) = (100, 90) /\
                                    Original.memory_saved_bytes r
                                      = 400 * 400 * 4 - 100 * 90 * 4)
                     (omap optimize_piece piece_files)).
    { apply Forall_forall. intros r (f & Hf & Hopt)%result_from_file.
      rewrite Forall_forall in Hall. destruct (Hall f Hf) as (r' & Hr' & Hos & Hcs).
      rewrite Hopt in Hr'. injection Hr' as <-.
      split; [done|]. split; [done|].
      destruct (OriginalFacts.optimize_piece_inv _ _ Hopt)
        as (im0 & b & c & _ & _ & _ & _ & Hsize & _ & Hcrop & Hsaved).
      rewrite Hsize in Hos. rewrite Hcrop in Hcs. unfold size in Hos, Hcs.
      injection Hos as Hw Hh. injection Hcs as Hcw Hch.
      rewrite Hsaved, Hw, Hh, Hcw, Hch. done. }
    assert (Hlen' : length (omap optimize_piece piece_files) = 4%nat).
    { rewrite <- Hlen. clear -Hall.
      induction Hall as [|f fs (r & Hr & _) _ IH]; [done|].
      csimpl. rewrite Hr. csimpl. by rewrite IH. }
    assert (Hne : omap optimize_piece piece_files <> []).
    { intros Hnil. by rewrite Hnil in Hlen'. }
    unfold Original.optimize_grid_size.
    rewrite (PipelineFacts.run_with_results _ _ _ _ _ _ _ _ layout Hne). cbv zeta.
    destruct Hcanvas as [[cw Hw] [ch Hh]].
    edestruct (PipelineFacts.generate_metadata_Ok (F:=F) Original.PieceOptimizationResult
                 Original.piece_id Original.piece_record (_load_canvas_info layout))
      as [md Hmd]; [exact Hw | exact Hh | |].
    { apply Forall_forall. intros r _. apply piece_record_Ok. split; eauto. }
    rewrite Hmd. simpl. exists md. split; [done|].
    apply PipelineFacts.metadata_statistics in Hmd. rewrite Hmd. simpl.
    rewrite (PipelineFacts.sumZ_const _ original_bytes _ (400 * 400 * 4)).
    2:{ eapply Forall_impl; [exact Hres|]. intros r (Hos & _).
        unfold Pipeline.original_bytes. by rewrite Hos. }
    rewrite (PipelineFacts.sumZ_const _ Original.memory_saved_bytes _
               (400 * 400 * 4 - 100 * 90 * 4)).
    2:{ eapply Forall_impl; [exact Hres|]. by intros r (_ & _ & ?). }
    rewrite Hlen'. lia.
Qed.

(** The first script never turns a result down: with a readable canvas
    entry its metadata generation succeeds on every list of results. *)
Lemma metadata_never_rejects (results : list Original.PieceOptimizationResult)
    (canvas_info : CanvasInfo) (tob tsb : Z) :
  canvas_readable canvas_info ->
  exists metadata,
    Original._generate_optimization_metadata (F:=F) results canvas_info tob tsb
      = Ok metadata.
Proof.
  intros Hcanvas. pose proof Hcanvas as [[cw Hw] [ch Hh]].
  unfold Original._generate_optimization_metadata.
  eapply PipelineFacts.generate_metadata_Ok; [exact Hw | exact Hh |].
  apply Forall_forall. intros r _. by apply piece_record_Ok.
Qed.

(** In the first script every entry of the pieces map records a width and a
    height smaller than those of the file saved for the piece. *)
Lemma recorded_size_always_smaller (d : GridDir) (metadata : Metadata F) :
  wf_dir d ->
  saved_metadata (run d) = Some metadata ->
  forall key entry, pieces metadata !! key = Some entry ->
    exists im, saved_pieces (run d) !! (key +:+ ".png") = Some im /\
               bd_width (pm_bounds entry) < img_width im /\
               bd_height (pm_bounds entry) < img_height im.
Proof.
  intros Hwf Hmd. unfold Original.optimize_grid_size in *.
  apply (PipelineFacts.run_entries_related _ _ _ _ _ _ _
           (fun entry im => bd_width (pm_bounds entry) < img_width im /\
                            bd_height (pm_bounds entry) < img_height im) d metadata);
    [|done].
  intros files r entry Hfiles (f & Hf & Hopt)%result_from_file Hrec.
  assert (Hwff : wf_piece_file (snd f)).
  { unfold wf_dir in Hwf. rewrite Hfiles in Hwf.
    rewrite Forall_forall in Hwf. by apply Hwf. }
  pose proof (OriginalFacts.optimize_piece_sizes f r Hwff Hopt) as Hs.
  cbv zeta in Hs. destruct Hs as (_ & _ & _ & Hw & Hh).
  unfold Original.piece_record in Hrec.
  destruct (canvas_int _ "width"); simpl in Hrec; [|done].
  destruct (canvas_int _ "height"); simpl in Hrec; [|done].
  injection Hrec as <-. simpl. done.
Qed.

(** C1, on the first script.  One 8×6 piece with content in columns 3..5 and
    rows 2..4: the saved file is 7×6 (two pixels of padding, clamped), the
    pieces map records width 2 and height 2. *)
Theorem recorded_size_differs_from_saved_image :
  exists metadata entry im,
    saved_metadata (run dir_one) = Some metadata /\
    pieces metadata !! "0_0"%string = Some entry /\
    saved_pieces (run dir_one) !! "0_0.png"%string = Some im /\
    (bd_width (pm_bounds entry), bd_height (pm_bounds entry)) = (2, 2) /\
    size im = (7, 6).
Proof.
  eexists. eexists. eexists.
  split; [vm_compute; reflexivity|].
  split; [vm_compute; reflexivity|].
  split; [vm_compute; reflexivity|].
  split; vm_compute; reflexivity.
Qed.

(** C3, on the first script.  The result of the piece above is written into
    the document although its recorded size is not the size of its image. *)
Theorem mismatched_piece_is_written :
  exists r metadata entry,
    optimize_piece ("0_0"%string, Png small_piece) = Some r /\
    Original._generate_optimization_metadata (F:=F) [r] default_canvas 192 24
      = Ok metadata /\
    pieces metadata !! "0_0"%string = Some entry /\
    bd_width (pm_bounds entry) = 2 /\ img_width (Original.cropped_image r) = 7 /\
    bd_height (pm_bounds entry) = 2 /\ img_height (Original.cropped_image r) = 6.
Proof.
  eexists. eexists. eexists.
  split; [vm_compute; reflexivity|].
  split; [vm_compute; reflexivity|].
  split; [vm_compute; reflexivity|].
  repeat split; vm_compute; reflexivity.
Qed.

(** C9, on the first script.  One piece is optimised, the layout file is
    [{"canvas": {}}]: [_generate_optimization_metadata] raises [KeyError],
    nothing catches it, and no metadata is written. *)
Theorem empty_canvas_aborts_run :
  is_Some (optimize_piece ("0_0"%string, Png small_piece)) /\
  pieces_dir dir_empty_canvas = Some [("0_0"%string, Png small_piece)] /\
  returned (run dir_empty_canvas) = Raise KeyError /\
  saved_metadata (run dir_empty_canvas) = None.
Proof.
  split; [eexists; vm_compute; reflexivity|].
  split; [reflexivity|].
  split; vm_compute; reflexivity.
Qed.

End OriginalRun.
End OriginalRun.

(** ** Width and height of a box in the three scripts *)

Module BoundingBoxFacts.

Lemma no_padding_width (b : BoundingBox) :
  NoPadding.width b = BoundingBox.right b - BoundingBox.left b + 1 /\
  NoPadding.height b = BoundingBox.bottom b - BoundingBox.top b + 1.
Proof. done. Qed.

Lemma no_padding_scenario :
  NoPadding.width (BoundingBox.mk 50 30 149 119) = 100 /\
  NoPadding.height (BoundingBox.mk 50 30 149 119) = 90.
Proof. done. Qed.

(** [test_cropping_accuracy] of [test_optimization.py] expects the padded
    crop to be [content_bounds.width + 4] wide.  The crop is 105 wide; the
    first script's [width] gives 100, the inclusive rule gives 101. *)
Lemma test_cropping_accuracy :
  let img := rect_image 200 200 50 30 150 120 opaque_red in
  let content_bounds := BoundingBox.mk 50 30 150 120 in
  exists cropped,
    Original.crop_image_to_bounds img content_bounds 2 = Ok cropped /\
    size cropped = (105, 95) /\
    Original.width content_bounds + 4 = 104 /\
    Original.height content_bounds + 4 = 94 /\
    NoPadding.width content_bounds + 4 = 105 /\
    NoPadding.height content_bounds + 4 = 95.
Proof.
  intros img content_bounds.
  destruct (CropFacts.crop_image_to_bounds_inside img content_bounds 2)
    as (c & Hc & Hsize & _).
  - apply RectFacts.rect_wf; lia.
  - unfold box_in_image; simpl; lia.
  - lia.
  - exists c. split; [done|]. split; [exact Hsize|]. done.
Qed.

End BoundingBoxFacts.

(** C2, on the first and second scripts.  The box with left 50, top 30,
    right 149, bottom 119 gets width 99 and height 89: [width] is
    [right - left] and [height] is [bottom - top], without the [+ 1] of the
    inclusive rule. *)
Theorem original_width_drops_one :
  Original.width (BoundingBox.mk 50 30 149 119) = 99 /\
  Original.height (BoundingBox.mk 50 30 149 119) = 89 /\
  Fixed.width (BoundingBox.mk 50 30 149 119) = 99 /\
  Fixed.height (BoundingBox.mk 50 30 149 119) = 89 /\
  (forall b, Original.width b = BoundingBox.right b - BoundingBox.left b) /\
  (forall b, Original.height b = BoundingBox.bottom b - BoundingBox.top b).
Proof. repeat split. Qed.

(** ** [optimize_puzzle_assets_no_padding.py] *)

Module NoPaddingFacts.
Section NoPaddingFacts.

Context {hashlib : Hashlib} {F : Type} `{PyFloat F}.

Abbreviation run := (NoPadding.optimize_grid_size (F:=F)).

(** The check at the top of the metadata loop. *)
Lemma piece_record_mismatch (canvas_info : CanvasInfo)
    (r : NoPadding.PieceOptimizationResult) :
  size (NoPadding.cropped_image r) <>
    (NoPadding.width (NoPadding.content_bounds r),
     NoPadding.height (NoPadding.content_bounds r)) ->
  NoPadding.piece_record canvas_info r = Raise ValueError.
Proof.
  intros Hne. unfold NoPadding.piece_record, size in *. simpl.
  destruct (img_width _ =? _) eqn:Hw; simpl; [|done].
  destruct (img_height _ =? _) eqn:Hh; simpl; [|done].
  apply Z.eqb_eq in Hw, Hh. destruct Hne. by rewrite Hw, Hh.
Qed.

Lemma piece_record_match (canvas_info : CanvasInfo)
    (r : NoPadding.PieceOptimizationResult) (entry : PieceMetadata) :
  NoPadding.piece_record canvas_info r = Ok entry ->
  dims_match entry (NoPadding.cropped_image r) /\
  bd_width (pm_bounds entry) = bd_right (pm_bounds entry) - bd_left (pm_bounds entry) + 1 /\
  bd_height (pm_bounds entry) = bd_bottom (pm_bounds entry) - bd_top (pm_bounds entry) + 1.
Proof.
  unfold NoPadding.piece_record, size, dims_match. simpl.
  destruct (img_width _ =? _) eqn:Hw; simpl; [|done].
  destruct (img_height _ =? _) eqn:Hh; simpl; [|done].
  apply Z.eqb_eq in Hw, Hh.
  destruct (canvas_int _ "width"); simpl; [|done].
  destruct (canvas_int _ "height"); simpl; [|done].
  intros [= <-]. simpl. done.
Qed.

(** Metadata generation raises as soon as one result does not have the size
    of its bounds; nothing is returned, so nothing can be written. *)
Lemma metadata_rejects_mismatch (results : list NoPadding.PieceOptimizationResult)
    (canvas_info : CanvasInfo) (tob tsb : Z) (r : NoPadding.PieceOptimizationResult) :
  r ∈ results ->
  size (NoPadding.cropped_image r) <>
    (NoPadding.width (NoPadding.content_bounds r),
     NoPadding.height (NoPadding.content_bounds r)) ->
  exists e,
    NoPadding._generate_optimization_metadata (F:=F) results canvas_info tob tsb
      = Raise e.
Proof.
  intros Hin Hne. unfold NoPadding._generate_optimization_metadata.
  eapply PipelineFacts.generate_metadata_Raise; [exact Hin|].
  by apply piece_record_mismatch.
Qed.

(** A document that is returned has only matching entries. *)
Lemma metadata_entries_match (results : list NoPadding.PieceOptimizationResult)
    (canvas_info : CanvasInfo) (tob tsb : Z) (metadata : Metadata F) :
  NoPadding._generate_optimization_metadata (F:=F) results canvas_info tob tsb
    = Ok metadata ->
  Forall (fun r => size (NoPadding.cropped_image r) =
                     (NoPadding.width (NoPadding.content_bounds r),
                      NoPadding.height (NoPadding.content_bounds r))) results.
Proof.
  intros Hgen. apply Forall_forall. intros r Hin.
  destruct (decide (size (NoPadding.cropped_image r) =
                      (NoPadding.width (NoPadding.content_bounds r),
                       NoPadding.height (NoPadding.content_bounds r)))) as [|Hne];
    [done|].
  destruct (metadata_rejects_mismatch results canvas_info tob tsb r Hin Hne) as [e He].
  congruence.
Qed.

(** In the third script every entry of the pieces map records the width and
    the height of the file saved for the piece. *)
Lemma no_padding_recorded_size_is_saved_size (d : GridDir) (metadata : Metadata F) :
  saved_metadata (run d) = Some metadata ->
  forall key entry, pieces metadata !! key = Some entry ->
    exists im, saved_pieces (run d) !! (key +:+ ".png") = Some im /\
               dims_match entry im.
Proof.
  intros Hmd. unfold NoPadding.optimize_grid_size in *.
  apply (PipelineFacts.run_entries_related _ _ _ _ _ _ _ dims_match d metadata);
    [|done].
  intros files r entry _ _ Hrec. by apply piece_record_match in Hrec as [? _].
Qed.

(** The exact crop of bounds inside the image passes its own size check. *)
Lemma crop_to_exact_content_inside (im : Image) (b : BoundingBox) :
  wf_image im -> box_in_image im b ->
  exists c,
    NoPadding.crop_to_exact_content im b = Ok c /\
    size c = (NoPadding.width b, NoPadding.height b) /\
    wf_image c /\
    forall x y, 0 <= x < NoPadding.width b -> 0 <= y < NoPadding.height b ->
      exists px, getpixel c x y = Some px /\
                 getpixel im (BoundingBox.left b + x) (BoundingBox.top b + y) = Some px.
Proof.
  intros Hwf (Hl & Hr & Ht & Hd). unfold NoPadding.crop_to_exact_content.
  destruct (CropFacts.crop_inside im (BoundingBox.left b) (BoundingBox.top b)
              (BoundingBox.right b + 1) (BoundingBox.bottom b + 1))
    as (c & Hc & Hsize & Hwfc & Hpix); [done | lia..|].
  rewrite Hc. simpl.
  assert (Hs : size c = (BoundingBox.right b - BoundingBox.left b + 1,
                         BoundingBox.bottom b - BoundingBox.top b + 1)).
  { rewrite Hsize. f_equal; lia. }
  rewrite bool_decide_eq_true_2 by done. simpl.
  exists c. split; [done|]. split; [done|]. split; [done|].
  intros x y Hx Hy. unfold NoPadding.width, NoPadding.height in *. apply Hpix; lia.
Qed.

(** The spec scenario: a 400×400 image with an opaque rectangle from
    [(50, 30)] to [(149, 119)] has exactly these bounds, and its exact crop
    is 100×90. *)
Lemma scenario_exact_crop :
  let im := rect_image 400 400 50 30 149 119 opaque_red in
  NoPadding.find_content_bounds im = Some (BoundingBox.mk 50 30 149 119) /\
  exists c, NoPadding.crop_to_exact_content im (BoundingBox.mk 50 30 149 119) = Ok c /\
            size c = (100, 90).
Proof.
  intros im. split.
  - apply RectFacts.rect_find_content_bounds; [done | lia..].
  - destruct (crop_to_exact_content_inside im (BoundingBox.mk 50 30 149 119))
      as (c & Hc & Hsize & _).
    + apply RectFacts.rect_wf; lia.
    + unfold box_in_image; simpl; lia.
    + eauto.
Qed.

End NoPaddingFacts.
End NoPaddingFacts.

(** ** [optimize_puzzle_assets_fixed.py] *)

Module FixedFacts.
Section FixedFacts.

Context {hashlib : Hashlib} {F : Type} `{PyFloat F}.

Abbreviation run := (Fixed.optimize_grid_size (F:=F)).

(** The second script copies the size of the cropped image into the record. *)
Lemma fixed_recorded_size_is_saved_size (d : GridDir) (metadata : Metadata F) :
  saved_metadata (run d) = Some metadata ->
  forall key entry, pieces metadata !! key = Some entry ->
    exists im, saved_pieces (run d) !! (key +:+ ".png") = Some im /\
               dims_match entry im.
Proof.
  intros Hmd. unfold Fixed.optimize_grid_size in *.
  apply (PipelineFacts.run_entries_related _ _ _ _ _ _ _ dims_match d metadata);
    [|done].
  intros files r entry _ _ Hrec. unfold Fixed.piece_record in Hrec.
  destruct (canvas_int _ "width"); simpl in Hrec; [|done].
  destruct (canvas_int _ "height"); simpl in Hrec; [|done].
  injection Hrec as <-. done.
Qed.

End FixedFacts.
End FixedFacts.

(** ** The statements on concrete inputs

    Each lemma below instantiates one of the theorems above on a small image
    or directory, with exact rationals for floats and the trivial digest,
    and discharges its hypotheses there. *)

Lemma find_content_bounds_correct_witness :
  wf_image small_piece /\
  exists b,
    Original.find_content_bounds small_piece = Some b /\
    (forall x y p, getpixel small_piece x y = Some p -> ~ inside b x y ->
       alpha p = 0%N) /\
    (exists x, BoundingBox.left b <= x <= BoundingBox.right b /\
               content small_piece x (BoundingBox.top b)).
Proof.
  assert (Hwf : wf_image small_piece) by compute_done.
  split; [exact Hwf|].
  destruct (find_content_bounds_correct small_piece Hwf) as [Hsome _].
  destruct Hsome as (b & Hb & Hout & Htop & _).
  - exists 3, 2, opaque_red. split; [reflexivity | discriminate].
  - exists b. split; [exact Hb|]. split; [exact Hout | exact Htop].
Defined.

Lemma find_content_bounds_alpha_only_witness :
  img_width small_piece = img_width small_piece_blue /\
  img_height small_piece = img_height small_piece_blue /\
  Detect.alpha_channel small_piece = Detect.alpha_channel small_piece_blue /\
  small_piece <> small_piece_blue /\
  Original.find_content_bounds small_piece = Original.find_content_bounds small_piece_blue.
Proof.
  split; [reflexivity|]. split; [reflexivity|].
  assert (Ha : Detect.alpha_channel small_piece = Detect.alpha_channel small_piece_blue)
    by (vm_compute; reflexivity).
  split; [exact Ha|]. split.
  - intros Heq. apply (f_equal (fun im => getpixel im 3 2)) in Heq.
    vm_compute in Heq. discriminate Heq.
  - apply find_content_bounds_alpha_only; [reflexivity | reflexivity | exact Ha].
Defined.

Lemma crop_is_clamped_rectangle_witness :
  wf_image small_piece /\
  box_in_image small_piece (BoundingBox.mk 3 2 5 4) /\
  0 <= 2 /\
  (exists c,
     Original.crop_image_to_bounds small_piece (BoundingBox.mk 3 2 5 4) 2 = Ok c /\
     size c = (7, 6)) /\
  (exists info,
     Fixed.create_optimized_crop small_piece (BoundingBox.mk 3 2 5 4) 2 = Ok info /\
     Fixed.actual_crop_bounds info = BoundingBox.mk 1 0 7 5 /\
     size (Fixed.cropped_image info) = (7, 6)).
Proof.
  assert (Hwf : wf_image small_piece) by compute_done.
  assert (Hin : box_in_image small_piece (BoundingBox.mk 3 2 5 4)) by compute_done.
  assert (Hp : 0 <= 2) by lia.
  split; [exact Hwf|]. split; [exact Hin|]. split; [exact Hp|].
  destruct (crop_is_clamped_rectangle small_piece (BoundingBox.mk 3 2 5 4) 2 Hwf Hin Hp)
    as [(c & Hc & Hsize & _) (info & Hinfo & Hact & _ & Hisize & _)].
  split.
  - exists c. split; [exact Hc | exact Hsize].
  - exists info. split; [exact Hinfo|]. split; [exact Hact | exact Hisize].
Defined.

Lemma transparent_piece_is_skipped_witness :
  fully_transparent blank_piece /\
  Verbose.optimize_piece (hashlib:=trivial_Hashlib) (F:=Q) true
    ("0_1"%string, Png blank_piece)
  = ([Text "Optimizing piece 0_1";
      Text "Warning: Image appears completely transparent";
      Text "Warning: Piece 0_1 has no content, skipping"], None) /\
  Original.optimize_piece (hashlib:=trivial_Hashlib) (F:=Q)
    ("0_1"%string, Png blank_piece) = None /\
  Original.optimize_grid_size (hashlib:=trivial_Hashlib) (F:=Q) dir_mixed =
  Original.optimize_grid_size (hashlib:=trivial_Hashlib) (F:=Q)
    {| pieces_dir := Some [("0_0"%string, Png small_piece); ("0_2"%string, Unreadable)];
       layout_file := LayoutUnreadable |} /\
  saved_pieces (Original.optimize_grid_size (hashlib:=trivial_Hashlib) (F:=Q) dir_mixed)
    !! "0_1.png"%string = None.
Proof.
  assert (Hblank : fully_transparent blank_piece) by compute_done.
  split; [exact Hblank|].
  destruct (OriginalRun.transparent_piece_is_skipped (hashlib:=trivial_Hashlib) (F:=Q)
              true "0_1" blank_piece [("0_0"%string, Png small_piece)]
              [("0_2"%string, Unreadable)] LayoutUnreadable Hblank)
    as (Hlines & Hnone & Hrun & Hfresh).
  split; [exact Hlines|]. split; [exact Hnone|]. split; [exact Hrun|].
  apply Hfresh. compute_done.
Defined.

(** C7, the claim as it stands fails on the default optimiser: a fully
    transparent piece is skipped and no warning, indeed no line at all, is
    printed for it. *)
Lemma transparent_piece_without_warning :
  fully_transparent blank_piece /\
  Verbose.optimize_piece (hashlib:=trivial_Hashlib) (F:=Q) false
    ("0_1"%string, Png blank_piece)
  = ([], None).
Proof. split; [compute_done | vm_compute; reflexivity]. Qed.

Lemma savings_within_original_witness :
  wf_dir dir_mixed /\
  exists metadata,
    saved_metadata (Original.optimize_grid_size (hashlib:=trivial_Hashlib) (F:=Q) dir_mixed)
      = Some metadata /\
    0 <= bytes_saved (statistics metadata) <= original_total_bytes (statistics metadata) /\
    optimized_total_bytes (statistics metadata)
      <= original_total_bytes (statistics metadata).
Proof.
  assert (Hwf : wf_dir dir_mixed) by compute_done.
  split; [exact Hwf|].
  destruct (OriginalRun.savings_within_original (hashlib:=trivial_Hashlib) (F:=Q)
              dir_mixed Hwf) as [_ Hstats].
  eexists. split; [vm_compute; reflexivity|].
  apply Hstats. vm_compute. reflexivity.
Defined.

Lemma statistics_formulae_witness :
  (exists metadata,
     Original._generate_optimization_metadata (F:=Q) [] default_canvas 0 0
       = Ok metadata /\
     memory_reduction_percent (statistics metadata) = 0%Q /\
     optimized_total_bytes (statistics metadata) = 0) /\
  pieces_dir scenario_dir <> None /\
  canvas_readable (_load_canvas_info (layout_file scenario_dir)) /\
  exists metadata,
    saved_metadata
      (Original.optimize_grid_size (hashlib:=trivial_Hashlib) (F:=Q) scenario_dir)
      = Some metadata /\
    total_pieces (statistics metadata) = 4 /\
    original_total_bytes (statistics metadata) = 2560000 /\
    optimized_total_bytes (statistics metadata) = 144000.
Proof.
  destruct (OriginalRun.statistics_formulae (hashlib:=trivial_Hashlib) (F:=Q))
    as [Hgeneral Hscenario].
  assert (Hcanvas : canvas_readable (_load_canvas_info (layout_file scenario_dir))).
  { split; [exists 2048 | exists 2048]; vm_compute; reflexivity. }
  split.
  - eexists. split; [vm_compute; reflexivity|].
    split; vm_compute; reflexivity.
  - split; [discriminate|]. split; [exact Hcanvas|].
    destruct (Hscenario scenario_dir _ eq_refl eq_refl) as (md & Hmd & Hn & Hob & Hopt & _).
    + assert (Hpiece : forall name, exists r,
                Original.optimize_piece (hashlib:=trivial_Hashlib) (F:=Q)
                  (name, Png scenario_piece) = Some r /\
                Original.original_size r = (400, 400) /\
                size (Original.cropped_image r) = (100, 90)).
      { intros name.
        destruct (OriginalFacts.optimize_piece_rect (hashlib:=trivial_Hashlib) (F:=Q)
                    name 400 400 52 32 147 117 opaque_red)
          as (r & Hr & _ & Hos & _ & Hcs); [discriminate | lia.. |].
        exists r. split; [exact Hr | split; [exact Hos | exact Hcs]]. }
      repeat (apply Forall_cons_2; [apply Hpiece|]). apply Forall_nil_2.
    + exact Hcanvas.
    + exists md. split; [exact Hmd|]. split; [exact Hn|]. split; [exact Hob | exact Hopt].
Defined.

(** * Further properties of the scripts *)

(** ** Bounds detection *)

Module MoreDetectFacts.

Lemma fully_transparent_no_content (im : Image) :
  fully_transparent im <-> forall x y, ~ content im x y.
Proof.
  split.
  - intros Hall x y (p & Hp & Ha). apply Ha.
    by apply (OriginalRun.fully_transparent_getpixel im x y p).
  - intros Hnone. unfold fully_transparent.
    apply Forall_lookup. intros j row Hrow. apply Forall_lookup. intros i p Hp.
    destruct (N.eq_dec (alpha p) 0%N) as [|Hne]; [done|].
    destruct (Hnone (Z.of_nat i) (Z.of_nat j)). exists p. split; [|done].
    apply DetectFacts.getpixel_Some. split; [lia|]. split; [lia|].
    exists row. by rewrite !Nat2Z.id.
Qed.

Lemma content_or_transparent (im : Image) :
  fully_transparent im \/ exists x y, content im x y.
Proof.
  destruct (Detect.find_content_bounds im) as [b|] eqn:Hb.
  - right. by apply (DetectFacts.find_content_bounds_Some_content im b).
  - left. apply fully_transparent_no_content. intros x y Hc.
    unfold Detect.find_content_bounds in Hb.
    destruct (Numpy.any (Detect.non_transparent im)) eqn:Hany; [done|].
    assert (Numpy.any (Detect.non_transparent im) = true); [|congruence].
    apply DetectFacts.any_content. eauto.
Qed.

End MoreDetectFacts.


(** X2. On a transparent image that holds one filled rectangle with corners
    [(l, t)] and [(r, b)] inside it, both included, in a colour of non-zero
    alpha, [find_content_bounds] returns exactly [(l, t, r, b)]: the check of
    [test_content_bounds_detection] for every size and position. *)
Theorem find_content_bounds_rectangle (w h l t r b : Z) (colour : Pixel) :
  alpha colour <> 0%N -> 0 <= l <= r -> r < w -> 0 <= t <= b -> b < h ->
  Original.find_content_bounds (rect_image w h l t r b colour)
  = Some (BoundingBox.mk l t r b).
Proof.
  intros. unfold Original.find_content_bounds.
  by apply RectFacts.rect_find_content_bounds.
Qed.

(** ** The exact crop of the third script *)

(** X4. For bounds inside a rectangular pixel grid, [crop_to_exact_content]
    returns a rectangular image of the bounds' width and height whose pixel
    [(x, y)] is the source pixel [(left + x, top + y)]. *)
Theorem crop_to_exact_content_pixels (im : Image) (b : BoundingBox) :
  wf_image im -> box_in_image im b ->
  exists c,
    NoPadding.crop_to_exact_content im b = Ok c /\
    size c = (NoPadding.width b, NoPadding.height b) /\
    wf_image c /\
    forall x y, 0 <= x < NoPadding.width b -> 0 <= y < NoPadding.height b ->
      exists px, getpixel c x y = Some px /\
                 getpixel im (BoundingBox.left b + x) (BoundingBox.top b + y) = Some px.
Proof. apply NoPaddingFacts.crop_to_exact_content_inside. Qed.

(** ** One piece, in each script *)

Module PieceFacts.
Section PieceFacts.

Context {hashlib : Hashlib} {F : Type} `{PyFloat F}.

(** A crop that copies a rectangle of the source, read in both directions. *)
Lemma crop_both_ways (im c : Image) (l t w h : Z) :
  wf_image c -> size c = (w, h) ->
  (forall x y, 0 <= x < w -> 0 <= y < h ->
     exists px, getpixel c x y = Some px /\ getpixel im (l + x) (t + y) = Some px) ->
  (forall x y q, getpixel c x y = Some q -> getpixel im (l + x) (t + y) = Some q) /\
  (forall x y p, getpixel im x y = Some p -> l <= x < l + w -> t <= y < t + h ->
     getpixel c (x - l) (y - t) = Some p).
Proof.
  intros Hwf Hsize Hpix. unfold size in Hsize. injection Hsize as Hw Hh. split.
  - intros x y q Hq.
    destruct (DetectFacts.getpixel_in_range c x y q Hwf Hq) as [Hx Hy].
    destruct (Hpix x y) as (px & Hc & Him); [lia | lia |]. congruence.
  - intros x y p Hp Hx Hy.
    destruct (Hpix (x - l) (y - t)) as (px & Hc & Him); [lia | lia |].
    replace (l + (x - l)) with x in Him by lia.
    replace (t + (y - t)) with y in Him by lia. congruence.
Qed.

(** Everything a successful [optimize_piece] of the first script fixes. *)
Lemma original_optimize_piece_result (piece_path : string * PieceFile)
    (r : Original.PieceOptimizationResult) :
  Original.optimize_piece (F:=F) piece_path = Some r ->
  exists im b c,
    snd piece_path = Png im /\
    Original.find_content_bounds im = Some b /\
    Original.crop_image_to_bounds im b 2 = Ok c /\
    r = {| Original.piece_id := fst piece_path;
           Original.original_size := size im;
           Original.bounds := b;
           Original.cropped_image := c;
           Original.content_hash := Original.calculate_content_hash c;
           Original.memory_saved_bytes :=
             img_width im * img_height im * 4 - img_width c * img_height c * 4 |}.
Proof.
  unfold Original.optimize_piece. destruct piece_path as [name [|im]]; simpl; [done|].
  destruct (Original.find_content_bounds im) as [b|] eqn:Hb; simpl; [|done].
  destruct (Original.crop_image_to_bounds im b 2) as [c|] eqn:Hc; simpl; [|done].
  unfold py_truediv. destruct (_ =? 0); simpl; [done|].
  intros [= <-]. exists im, b, c. done.
Qed.

Lemma fixed_optimize_piece_result (piece_path : string * PieceFile)
    (r : Fixed.PieceOptimizationResult) :
  Fixed.optimize_piece (F:=F) piece_path = Some r ->
  exists im b info,
    snd piece_path = Png im /\
    Fixed.find_content_bounds im = Some b /\
    Fixed.create_optimized_crop im b 2 = Ok info /\
    r = {| Fixed.piece_id := fst piece_path;
           Fixed.original_size := size im;
           Fixed.cropped_info := info;
           Fixed.content_hash := Fixed.calculate_content_hash (Fixed.cropped_image info);
           Fixed.memory_saved_bytes :=
             img_width im * img_height im * 4
             - img_width (Fixed.cropped_image info)
               * img_height (Fixed.cropped_image info) * 4 |}.
Proof.
  unfold Fixed.optimize_piece. destruct piece_path as [name [|im]]; simpl; [done|].
  destruct (Fixed.find_content_bounds im) as [b|] eqn:Hb; simpl; [|done].
  destruct (Fixed.create_optimized_crop im b 2) as [info|] eqn:Hc; simpl; [|done].
  unfold py_truediv. destruct (_ =? 0); simpl; [done|].
  intros [= <-]. exists im, b, info. done.
Qed.

Lemma no_padding_optimize_piece_result (piece_path : string * PieceFile)
    (r : NoPadding.PieceOptimizationResult) :
  NoPadding.optimize_piece (F:=F) piece_path = Some r ->
  exists im b c,
    snd piece_path = Png im /\
    NoPadding.find_content_bounds im = Some b /\
    NoPadding.crop_to_exact_content im b = Ok c /\
    img_width im * img_height im * 4 <> 0 /\
    r = {| NoPadding.piece_id := fst piece_path;
           NoPadding.original_size := size im;
           NoPadding.content_bounds := b;
           NoPadding.cropped_image := c;
           NoPadding.content_hash := NoPadding.calculate_content_hash c;
           NoPadding.memory_saved_bytes :=
             img_width im * img_height im * 4 - img_width c * img_height c * 4 |}.
Proof.
  unfold NoPadding.optimize_piece. destruct piece_path as [name [|im]]; simpl; [done|].
  destruct (NoPadding.find_content_bounds im) as [b|] eqn:Hb; simpl; [|done].
  destruct (NoPadding.crop_to_exact_content im b) as [c|] eqn:Hc; simpl; [|done].
  unfold py_truediv. destruct (_ =? 0) eqn:Hz; simpl; [done|].
  intros [= <-]. exists im, b, c. repeat split; try done. lia.
Qed.

(** The box found in a well-formed image with content. *)
Lemma found_box (im : Image) (b : BoundingBox) :
  wf_image im -> Detect.find_content_bounds im = Some b ->
  box_in_image im b /\ forall x y, content im x y -> inside b x y.
Proof.
  intros Hwf Hb.
  destruct (DetectFacts.find_content_bounds_tight im Hwf) as (b0 & Hb0 & Hin & Hcover & _).
  { by apply (DetectFacts.find_content_bounds_Some_content im b). }
  rewrite Hb in Hb0. injection Hb0 as <-. done.
Qed.

End PieceFacts.
End PieceFacts.

Module PieceProperties.
Section PieceProperties.

Context {hashlib : Hashlib} {F : Type} `{PyFloat F}.

(** X5. Third script, round trip.  For a result of [optimize_piece] on a
    rectangular pixel grid and the record built from it: every pixel of the
    cropped image is the original pixel at the recorded position
    [(bounds.left, bounds.top)] plus its own coordinates, every original
    pixel of non-zero alpha is in the cropped image at its coordinates minus
    that position, and every original pixel outside the recorded bounds has
    zero alpha.  Drawing the crop at the recorded position restores the
    content. *)
Theorem no_padding_round_trip (name : string) (im : Image)
    (r : NoPadding.PieceOptimizationResult) (canvas_info : CanvasInfo)
    (entry : PieceMetadata) :
  wf_image im ->
  NoPadding.optimize_piece (F:=F) (name, Png im) = Some r ->
  NoPadding.piece_record canvas_info r = Ok entry ->
  let ox := bd_left (pm_bounds entry) in
  let oy := bd_top (pm_bounds entry) in
  (forall x y q, getpixel (NoPadding.cropped_image r) x y = Some q ->
     getpixel im (ox + x) (oy + y) = Some q) /\
  (forall x y p, getpixel im x y = Some p -> alpha p <> 0%N ->
     getpixel (NoPadding.cropped_image r) (x - ox) (y - oy) = Some p) /\
  (forall x y p, getpixel im x y = Some p ->
     ~ (ox <= x <= bd_right (pm_bounds entry) /\ oy <= y <= bd_bottom (pm_bounds entry)) ->
     alpha p = 0%N).
Proof.
  intros Hwf Hopt Hrec.
  destruct (PieceFacts.no_padding_optimize_piece_result _ _ Hopt)
    as (im' & b & c & [= <-] & Hb & Hc & _ & ->).
  destruct (PieceFacts.found_box im b Hwf Hb) as [Hin Hcover].
  destruct (NoPaddingFacts.crop_to_exact_content_inside im b Hwf Hin)
    as (c' & Hc' & Hsize & Hwfc & Hpix).
  rewrite Hc in Hc'. injection Hc' as <-.
  destruct (PieceFacts.crop_both_ways im c (BoundingBox.left b) (BoundingBox.top b)
              (NoPadding.width b) (NoPadding.height b) Hwfc Hsize Hpix) as [Hfrom Hto].
  unfold NoPadding.piece_record in Hrec. simpl in Hrec.
  destruct (negb _ || negb _); [done|].
  destruct (canvas_int _ "width"); simpl in Hrec; [|done].
  destruct (canvas_int _ "height"); simpl in Hrec; [|done].
  injection Hrec as <-. simpl. split; [exact Hfrom|]. split.
  - intros x y p Hp Ha. assert (Hi : inside b x y) by (apply Hcover; by exists p).
    unfold inside, NoPadding.width, NoPadding.height in *. apply Hto; [done | lia | lia].
  - intros x y p Hp Hout. destruct (N.eq_dec (alpha p) 0%N) as [|Hne]; [done|].
    destruct Hout. apply (Hcover x y). by exists p.
Qed.

(** X6. Second script, round trip.  For a result of [optimize_piece] on a
    rectangular pixel grid and the record built from it: the recorded bounds
    are [actual_crop_bounds], the padded and clamped rectangle, with
    [width = right - left + 1] and [height = bottom - top + 1]; every pixel of
    the cropped image is the original pixel at the recorded position plus its
    coordinates, and every original pixel of non-zero alpha is in the cropped
    image at its coordinates minus that position. *)
Theorem fixed_round_trip (name : string) (im : Image)
    (r : Fixed.PieceOptimizationResult) (canvas_info : CanvasInfo)
    (entry : PieceMetadata) :
  wf_image im ->
  Fixed.optimize_piece (F:=F) (name, Png im) = Some r ->
  Fixed.piece_record canvas_info r = Ok entry ->
  let bd := pm_bounds entry in
  BoundingBox.mk (bd_left bd) (bd_top bd) (bd_right bd) (bd_bottom bd)
    = Fixed.actual_crop_bounds (Fixed.cropped_info r) /\
  bd_width bd = bd_right bd - bd_left bd + 1 /\
  bd_height bd = bd_bottom bd - bd_top bd + 1 /\
  (forall x y q, getpixel (Fixed.cropped_image (Fixed.cropped_info r)) x y = Some q ->
     getpixel im (bd_left bd + x) (bd_top bd + y) = Some q) /\
  (forall x y p, getpixel im x y = Some p -> alpha p <> 0%N ->
     getpixel (Fixed.cropped_image (Fixed.cropped_info r)) (x - bd_left bd) (y - bd_top bd)
       = Some p).
Proof.
  intros Hwf Hopt Hrec.
  destruct (PieceFacts.fixed_optimize_piece_result _ _ Hopt)
    as (im' & b & info & [= <-] & Hb & Hinfo & ->).
  destruct (PieceFacts.found_box im b Hwf Hb) as [Hin Hcover].
  destruct (CropFacts.create_optimized_crop_inside im b 2 Hwf Hin)
    as (info' & Hinfo' & Hact & Hpos & Hsize & Hwfc & Hpix); [lia|].
  rewrite Hinfo in Hinfo'. injection Hinfo' as <-.
  injection Hpos as Hpl Hpt.
  destruct (PieceFacts.crop_both_ways im (Fixed.cropped_image info) _ _ _ _
              Hwfc Hsize Hpix) as [Hfrom Hto].
  unfold Fixed.piece_record in Hrec. simpl in Hrec.
  destruct (canvas_int _ "width"); simpl in Hrec; [|done].
  destruct (canvas_int _ "height"); simpl in Hrec; [|done].
  injection Hrec as <-. cbv zeta. simpl.
  unfold size in Hsize. injection Hsize as Hw Hh.
  rewrite Hact, Hpl, Hpt, Hw, Hh.
  split; [f_equal; lia|]. split; [lia|]. split; [lia|]. split; [exact Hfrom|].
  intros x y p Hp Ha. assert (Hi : inside b x y) by (apply Hcover; by exists p).
  destruct Hin as (? & ? & ? & ?). unfold inside in Hi. apply Hto; [done | lia | lia].
Qed.

(** X7. First script.  For a result of [optimize_piece] on a rectangular
    pixel grid and the record built from it, the cropped image is the
    original from [(max(0, left - 2), max(0, top - 2))] on, where [left] and
    [top] are the recorded bounds: its pixel [(x, y)] is the original pixel at
    that corner plus [(x, y)], and every original pixel of non-zero alpha is
    in it at its coordinates minus that corner.  The recorded position
    [(left, top)] is the corner of the saved image only when both are 0. *)
Theorem original_crop_origin (name : string) (im : Image)
    (r : Original.PieceOptimizationResult) (canvas_info : CanvasInfo)
    (entry : PieceMetadata) :
  wf_image im ->
  Original.optimize_piece (F:=F) (name, Png im) = Some r ->
  Original.piece_record canvas_info r = Ok entry ->
  let ox := Z.max 0 (bd_left (pm_bounds entry) - 2) in
  let oy := Z.max 0 (bd_top (pm_bounds entry) - 2) in
  (forall x y q, getpixel (Original.cropped_image r) x y = Some q ->
     getpixel im (ox + x) (oy + y) = Some q) /\
  (forall x y p, getpixel im x y = Some p -> alpha p <> 0%N ->
     getpixel (Original.cropped_image r) (x - ox) (y - oy) = Some p) /\
  ((ox, oy) = (bd_left (pm_bounds entry), bd_top (pm_bounds entry)) <->
   (bd_left (pm_bounds entry), bd_top (pm_bounds entry)) = (0, 0)).
Proof.
  intros Hwf Hopt Hrec.
  destruct (PieceFacts.original_optimize_piece_result _ _ Hopt)
    as (im' & b & c & [= <-] & Hb & Hc & ->).
  destruct (PieceFacts.found_box im b Hwf Hb) as [Hin Hcover].
  destruct (CropFacts.crop_image_to_bounds_inside im b 2 Hwf Hin)
    as (c' & Hc' & Hsize & Hwfc & Hpix); [lia|].
  rewrite Hc in Hc'. injection Hc' as <-.
  destruct (PieceFacts.crop_both_ways im c _ _ _ _ Hwfc Hsize Hpix) as [Hfrom Hto].
  unfold Original.piece_record in Hrec. simpl in Hrec.
  destruct (canvas_int _ "width"); simpl in Hrec; [|done].
  destruct (canvas_int _ "height"); simpl in Hrec; [|done].
  injection Hrec as <-. cbv zeta. simpl.
  destruct Hin as (? & ? & ? & ?).
  split; [exact Hfrom|]. split.
  - intros x y p Hp Ha. assert (Hi : inside b x y) by (apply Hcover; by exists p).
    unfold inside in Hi. apply Hto; [done | lia | lia].
  - split; intros [= ? ?]; f_equal; lia.
Qed.

(** X8. First script.  On a readable or unreadable piece file whose image,
    if any, is a rectangular pixel grid, [optimize_piece] returns [None]
    exactly when the file cannot be read as an image or the image is fully
    transparent.  When it returns a result, the result carries the file's
    stem, the size of the original, bounds that lie inside the original, the
    digest of the cropped image, and
    [memory_saved_bytes = 4 * (W * H - w * h)] for the sizes of the original
    and the crop. *)
Theorem optimize_piece_accepts_content (name : string) (f : PieceFile) :
  wf_piece_file f ->
  (Original.optimize_piece (F:=F) (name, f) = None <->
   f = Unreadable \/ exists im, f = Png im /\ fully_transparent im) /\
  (forall r, Original.optimize_piece (F:=F) (name, f) = Some r ->
     exists im,
       f = Png im /\
       Original.piece_id r = name /\
       Original.original_size r = size im /\
       box_in_image im (Original.bounds r) /\
       Original.content_hash r
         = Original.calculate_content_hash (Original.cropped_image r) /\
       Original.memory_saved_bytes r
         = 4 * (img_width im * img_height im
                - img_width (Original.cropped_image r)
                  * img_height (Original.cropped_image r))).
Proof.
  intros Hwf. split.
  - split.
    + intros Hnone. destruct f as [|im]; [by left|]. right. exists im. split; [done|].
      destruct (MoreDetectFacts.content_or_transparent im) as [|Hex]; [done|].
      destruct (OriginalFacts.optimize_piece_content (F:=F) name im Hwf Hex) as [r Hr].
      congruence.
    + intros [-> | (im & -> & Hblank)]; [done|].
      apply OriginalFacts.optimize_piece_transparent.
      intros x y p. by apply OriginalRun.fully_transparent_getpixel.
  - intros r Hopt.
    destruct (PieceFacts.original_optimize_piece_result _ _ Hopt)
      as (im & b & c & Hf & Hb & Hc & ->).
    simpl in Hf. subst f. simpl in Hwf. exists im.
    destruct (PieceFacts.found_box im b Hwf Hb) as [Hin _].
    simpl. repeat split; try done; try apply Hin. lia.
Qed.

End PieceProperties.
End PieceProperties.

(** ** The batch: files, entries and counters *)

Module BatchFacts.
Section BatchFacts.

Context {F : Type} `{PyFloat F}.
Variable R : Type.
Variable piece_id : R -> string.
Variable original_size : R -> Z * Z.
Variable cropped_image : R -> Image.
Variable memory_saved_bytes : R -> Z.
Variable optimize_piece : string * PieceFile -> option R.
Variable piece_record : CanvasInfo -> R -> Result PieceMetadata.

Abbreviation collect_pieces := (Pipeline.collect_pieces R piece_id piece_record).
Abbreviation save_all := (Pipeline.save_all R piece_id cropped_image).

(** Where an entry of the pieces map comes from. *)
Lemma collect_pieces_entry (canvas_info : CanvasInfo) (results : list R)
    (pm pm' : gmap string PieceMetadata) (key : string) (entry : PieceMetadata) :
  collect_pieces canvas_info results pm = Ok pm' ->
  pm' !! key = Some entry ->
  pm !! key = Some entry \/
  exists r, r ∈ results /\ piece_id r = key /\ piece_record canvas_info r = Ok entry.
Proof.
  revert pm. induction results as [|r rs IH]; intros pm; simpl.
  - intros [= <-]. auto.
  - destruct (piece_record canvas_info r) as [e|] eqn:He; simpl; [|done].
    intros Hrest Hkey. destruct (IH _ Hrest Hkey) as [Hin|(r' & Hin & Hid & Hrec)].
    + destruct (decide (piece_id r = key)) as [Heq|Hne].
      * rewrite Heq, lookup_insert_eq in Hin. injection Hin as <-.
        right. exists r. split; [apply list_elem_of_here | done].
      * left. by rewrite lookup_insert_ne in Hin.
    + right. exists r'. split; [by apply list_elem_of_further | done].
Qed.

Lemma collect_pieces_has_key (canvas_info : CanvasInfo) (results : list R)
    (pm pm' : gmap string PieceMetadata) (key : string) :
  collect_pieces canvas_info results pm = Ok pm' ->
  is_Some (pm !! key) \/ key ∈ piece_id <$> results ->
  is_Some (pm' !! key).
Proof.
  revert pm. induction results as [|r rs IH]; intros pm; simpl.
  - intros [= <-] [Hin|Hin]; [done|]. by apply elem_of_nil in Hin.
  - destruct (piece_record canvas_info r) as [e|] eqn:He; simpl; [|done].
    intros Hrest Hkey. apply (IH _ Hrest).
    destruct Hkey as [Hin|Hin].
    + left. destruct (decide (piece_id r = key)) as [<-|Hne].
      * rewrite lookup_insert_eq. eauto.
      * by rewrite lookup_insert_ne.
    + apply elem_of_cons in Hin as [->|Hin]; [|by right].
      left. rewrite lookup_insert_eq. eauto.
Qed.

Lemma save_all_has_key (results : list R) (files : gmap string Image) (name : string) :
  is_Some (files !! name) \/ name ∈ (fun r => piece_id r +:+ ".png") <$> results ->
  is_Some (save_all results files !! name).
Proof.
  revert files. induction results as [|r rs IH]; intros files; simpl.
  - intros [Hin|Hin]; [done|]. by apply elem_of_nil in Hin.
  - intros Hkey. apply IH. destruct Hkey as [Hin|Hin].
    + left. destruct (decide (piece_id r +:+ ".png" = name)) as [<-|Hne].
      * rewrite lookup_insert_eq. eauto.
      * by rewrite lookup_insert_ne.
    + apply elem_of_cons in Hin as [->|Hin]; [|by right].
      left. rewrite lookup_insert_eq. eauto.
Qed.

(** With pairwise distinct ids, one entry and one file per result. *)
Lemma collect_pieces_size (canvas_info : CanvasInfo) (results : list R)
    (pm pm' : gmap string PieceMetadata) :
  NoDup (piece_id <$> results) ->
  (forall r, r ∈ results -> pm !! piece_id r = None) ->
  collect_pieces canvas_info results pm = Ok pm' ->
  base.size pm' = (base.size pm + length results)%nat.
Proof.
  revert pm. induction results as [|r rs IH]; intros pm Hnd Hfresh; simpl.
  - intros [= <-]. lia.
  - destruct (piece_record canvas_info r) as [e|] eqn:He; simpl; [|done].
    intros Hrest. rewrite fmap_cons in Hnd. apply NoDup_cons in Hnd as [Hnotin Hnd].
    assert (Hfresh' : forall r', r' ∈ rs ->
              <[piece_id r:=e]> pm !! piece_id r' = None).
    { intros r' Hr'. rewrite lookup_insert_ne.
      - apply Hfresh. by apply list_elem_of_further.
      - intros Heq. apply Hnotin. rewrite Heq. apply list_elem_of_fmap. eauto. }
    rewrite (IH _ Hnd Hfresh' Hrest).
    rewrite map_size_insert_None; [lia|]. apply Hfresh, list_elem_of_here.
Qed.

Lemma save_all_size (results : list R) (files : gmap string Image) :
  NoDup (piece_id <$> results) ->
  (forall r, r ∈ results -> files !! (piece_id r +:+ ".png") = None) ->
  base.size (save_all results files) = (base.size files + length results)%nat.
Proof.
  revert files. induction results as [|r rs IH]; intros files Hnd Hfresh; simpl.
  - lia.
  - rewrite fmap_cons in Hnd. apply NoDup_cons in Hnd as [Hnotin Hnd].
    assert (Hfresh' : forall r', r' ∈ rs ->
              <[piece_id r +:+ ".png":=cropped_image r]> files
                !! (piece_id r' +:+ ".png") = None).
    { intros r' Hr'. rewrite lookup_insert_ne.
      - apply Hfresh. by apply list_elem_of_further.
      - intros Heq. apply StringFacts.append_inj_r in Heq.
        apply Hnotin. rewrite Heq. apply list_elem_of_fmap. eauto. }
    rewrite (IH _ Hnd Hfresh').
    rewrite map_size_insert_None; [lia|]. apply Hfresh, list_elem_of_here.
Qed.

Lemma sumZ_difference (A : Type) (f g h : A -> Z) (l : list A) :
  Forall (fun a => h a = f a - g a) l ->
  sumZ (f <$> l) - sumZ (h <$> l) = sumZ (g <$> l).
Proof.
  unfold sumZ. induction 1 as [|a l Ha _ IH]; csimpl; [done|]. rewrite Ha. lia.
Qed.

(** Distinct stems give distinct piece ids. *)
Lemma result_ids_NoDup (piece_files : list (string * PieceFile)) :
  (forall f r, optimize_piece f = Some r -> piece_id r = fst f) ->
  NoDup (fst <$> piece_files) ->
  NoDup (piece_id <$> omap optimize_piece piece_files).
Proof.
  intros Hid. induction piece_files as [|f fs IH]; csimpl; intros Hnd.
  - apply NoDup_nil_2.
  - apply NoDup_cons in Hnd as [Hnotin Hnd].
    destruct (optimize_piece f) as [r|] eqn:Hr; [|by apply IH].
    csimpl. apply NoDup_cons. split; [|by apply IH].
    intros Hin. apply list_elem_of_fmap in Hin as (r' & Heq & Hr').
    apply list_elem_of_omap in Hr' as (f' & Hf' & Hopt').
    apply Hnotin. rewrite <- (Hid f r Hr), Heq, (Hid f' r' Hopt').
    apply list_elem_of_fmap. eauto.
Qed.

End BatchFacts.
End BatchFacts.

Module BatchProperties.
Section BatchProperties.

Context {hashlib : Hashlib} {F : Type} `{PyFloat F}.

Abbreviation optimize_piece := (Original.optimize_piece (F:=F)).
Abbreviation run := (Original.optimize_grid_size (F:=F)).

Lemma run_written (d : GridDir) (metadata : Metadata F) :
  saved_metadata (run d) = Some metadata ->
  exists piece_files cw ch,
    pieces_dir d = Some piece_files /\
    let results := omap optimize_piece piece_files in
    results <> [] /\
    Pipeline.collect_pieces Original.PieceOptimizationResult Original.piece_id
      Original.piece_record (_load_canvas_info (layout_file d)) results ∅
      = Ok (pieces metadata) /\
    canvas_int (_load_canvas_info (layout_file d)) "width" = Ok cw /\
    canvas_int (_load_canvas_info (layout_file d)) "height" = Ok ch /\
    canvas_size metadata = (cw, ch) /\
    version metadata = "1.0"%string /\
    statistics metadata =
      Pipeline.make_statistics Original.PieceOptimizationResult results
        (sumZ (Pipeline.original_bytes Original.PieceOptimizationResult
                 Original.original_size <$> results))
        (sumZ (Original.memory_saved_bytes <$> results)) /\
    saved_pieces (run d) =
      Pipeline.save_all Original.PieceOptimizationResult Original.piece_id
        Original.cropped_image results ∅.
Proof.
  intros Hmd. unfold Original.optimize_grid_size in *.
  destruct (PipelineFacts.run_metadata_inv _ _ _ _ _ _ _ _ _ Hmd)
    as (files & Hfiles & Hne & Hgen & Hsaved).
  exists files. unfold Pipeline._generate_optimization_metadata in Hgen.
  destruct (Pipeline.collect_pieces _ _ _ _ _ _) as [pm|] eqn:Hpm; simpl in Hgen; [|done].
  destruct (canvas_int _ "width") as [cw|] eqn:Hw; simpl in Hgen; [|done].
  destruct (canvas_int _ "height") as [ch|] eqn:Hh; simpl in Hgen; [|done].
  injection Hgen as <-. exists cw, ch. simpl. done.
Qed.

Lemma piece_record_fields (canvas_info : CanvasInfo)
    (r : Original.PieceOptimizationResult) (entry : PieceMetadata) (cw ch : Z) :
  canvas_int canvas_info "width" = Ok cw ->
  canvas_int canvas_info "height" = Ok ch ->
  Original.piece_record canvas_info r = Ok entry ->
  pm_canvas_size entry = (cw, ch) /\
  pm_cropped_filename entry = Original.piece_id r +:+ ".png" /\
  pm_content_hash entry = Original.content_hash r.
Proof.
  intros Hw Hh. unfold Original.piece_record. rewrite Hw, Hh. simpl.
  by intros [= <-].
Qed.

(** X9. First script.  When a run writes the metadata document, its pieces
    map and the files it saved match one to one: there is an entry under
    [key] exactly when the file [key.png] was saved, every saved file is
    [key.png] for a key of the map, and the [cropped_filename] of the entry
    under [key] is [key.png]. *)
Theorem saved_files_match_entries (d : GridDir) (metadata : Metadata F) :
  saved_metadata (run d) = Some metadata ->
  (forall key, is_Some (pieces metadata !! key) <->
               is_Some (saved_pieces (run d) !! (key +:+ ".png"))) /\
  (forall name, is_Some (saved_pieces (run d) !! name) ->
     exists key, name = key +:+ ".png" /\ is_Some (pieces metadata !! key)) /\
  (forall key entry, pieces metadata !! key = Some entry ->
     pm_cropped_filename entry = key +:+ ".png").
Proof.
  intros Hmd.
  destruct (run_written d metadata Hmd)
    as (files & cw & ch & Hfiles & Hne & Hpm & Hw & Hh & _ & _ & _ & Hsaved).
  rewrite Hsaved.
  assert (Hfile : forall name,
            is_Some (Pipeline.save_all Original.PieceOptimizationResult
                       Original.piece_id Original.cropped_image
                       (omap optimize_piece files) ∅ !! name) ->
            exists key, name = key +:+ ".png" /\ is_Some (pieces metadata !! key)).
  { intros name Hname.
    apply PipelineFacts.save_all_keys in Hname as [Hin|Hin].
    { rewrite lookup_empty in Hin. by destruct Hin. }
    apply list_elem_of_fmap in Hin as (r & -> & Hr).
    exists (Original.piece_id r). split; [done|].
    eapply BatchFacts.collect_pieces_has_key; [exact Hpm|].
    right. apply list_elem_of_fmap. eauto. }
  split; [|split; [exact Hfile|]].
  - intros key. split.
    + intros Hkey.
      eapply PipelineFacts.collect_pieces_keys in Hkey as [Hin|Hin]; [| |exact Hpm].
      { rewrite lookup_empty in Hin. by destruct Hin. }
      apply BatchFacts.save_all_has_key. right.
      apply list_elem_of_fmap in Hin as (r & -> & Hr).
      apply list_elem_of_fmap. eauto.
    + intros Hname. destruct (Hfile _ Hname) as (key' & Heq & Hkey').
      apply StringFacts.append_inj_r in Heq. by subst.
  - intros key entry Hentry.
    eapply BatchFacts.collect_pieces_entry in Hentry as [Hin|(r & _ & <- & Hrec)];
      [| |exact Hpm].
    { by rewrite lookup_empty in Hin. }
    by destruct (piece_record_fields _ _ _ _ _ Hw Hh Hrec) as (_ & ? & _).
Qed.

(** X10. First script.  In a written metadata document the [content_hash] of
    every entry is [calculate_content_hash] of the image saved as the
    entry's file: the first eight characters of the SHA-256 hex digest of
    that image's RGBA bytes. *)
Theorem content_hash_of_saved_file (d : GridDir) (metadata : Metadata F) :
  saved_metadata (run d) = Some metadata ->
  forall key entry, pieces metadata !! key = Some entry ->
    exists im,
      saved_pieces (run d) !! (key +:+ ".png") = Some im /\
      pm_content_hash entry = String.substring 0 8 (sha256_hexdigest (tobytes im)).
Proof.
  intros Hmd. unfold Original.optimize_grid_size in *.
  apply (PipelineFacts.run_entries_related _ _ _ _ _ _ _
           (fun entry im =>
              pm_content_hash entry = String.substring 0 8 (sha256_hexdigest (tobytes im)))
           d metadata); [|done].
  intros files r entry _ (f & _ & Hopt)%list_elem_of_omap Hrec.
  destruct (PieceFacts.original_optimize_piece_result _ _ Hopt)
    as (im & b & c & _ & _ & _ & ->).
  unfold Original.piece_record in Hrec.
  destruct (canvas_int _ "width"); simpl in Hrec; [|done].
  destruct (canvas_int _ "height"); simpl in Hrec; [|done].
  by injection Hrec as <-.
Qed.

(** X11. First script.  In a written metadata document every entry carries
    the document's [canvas_size], the version is ["1.0"], and when
    [layout.ipuz.json] is missing or unreadable or has no [canvas] key the
    canvas size is the fallback 2048×2048. *)
Theorem canvas_size_consistent (d : GridDir) (metadata : Metadata F) :
  saved_metadata (run d) = Some metadata ->
  (forall key entry, pieces metadata !! key = Some entry ->
     pm_canvas_size entry = canvas_size metadata) /\
  version metadata = "1.0"%string /\
  (layout_file d = LayoutUnreadable \/ layout_file d = LayoutDocument None ->
   canvas_size metadata = (2048, 2048)).
Proof.
  intros Hmd.
  destruct (run_written d metadata Hmd)
    as (files & cw & ch & Hfiles & Hne & Hpm & Hw & Hh & Hcs & Hv & _).
  split; [|split; [exact Hv|]].
  - intros key entry Hentry.
    eapply BatchFacts.collect_pieces_entry in Hentry as [Hin|(r & _ & _ & Hrec)];
      [| |exact Hpm].
    { by rewrite lookup_empty in Hin. }
    destruct (piece_record_fields _ _ _ _ _ Hw Hh Hrec) as (-> & _). by rewrite Hcs.
  - intros Hlayout. rewrite Hcs.
    assert (Hdef : _load_canvas_info (layout_file d) = default_canvas)
      by (destruct Hlayout as [-> | ->]; done).
    rewrite Hdef in Hw, Hh. vm_compute in Hw, Hh. congruence.
Qed.

(** X12. First script.  When the files of the pieces directory have pairwise
    distinct stems, [total_pieces] of a written metadata document is the
    number of entries of its pieces map, which is also the number of files
    saved by the run. *)
Theorem total_pieces_counts_entries (d : GridDir)
    (piece_files : list (string * PieceFile)) (metadata : Metadata F) :
  pieces_dir d = Some piece_files ->
  NoDup (fst <$> piece_files) ->
  saved_metadata (run d) = Some metadata ->
  total_pieces (statistics metadata) = Z.of_nat (base.size (pieces metadata)) /\
  base.size (saved_pieces (run d)) = base.size (pieces metadata).
Proof.
  intros Hfiles Hnd Hmd.
  destruct (run_written d metadata Hmd)
    as (files & cw & ch & Hfiles' & Hne & Hpm & _ & _ & _ & _ & Hstats & Hsaved).
  rewrite Hfiles in Hfiles'. injection Hfiles' as <-.
  assert (Hids : NoDup (Original.piece_id <$> omap optimize_piece piece_files)).
  { apply BatchFacts.result_ids_NoDup; [|done].
    intros f r Hopt.
    by destruct (PieceFacts.original_optimize_piece_result _ _ Hopt)
      as (? & ? & ? & _ & _ & _ & ->). }
  rewrite Hstats, Hsaved. simpl.
  assert (Hn : base.size (pieces metadata)
               = (base.size (∅ : gmap string PieceMetadata)
                  + length (omap optimize_piece piece_files))%nat).
  { eapply BatchFacts.collect_pieces_size; [exact Hids | | exact Hpm].
    intros. apply lookup_empty. }
  rewrite Hn, BatchFacts.save_all_size by (done || (intros; apply lookup_empty)).
  rewrite !map_size_empty. split; [f_equal; lia | done].
Qed.

(** X13. First script.  In a written metadata document,
    [original_total_bytes] is the sum of [4 * W * H] over the accepted
    pieces, [optimized_total_bytes] is the sum of [4 * w * h] over their
    cropped images, [bytes_saved] is the sum of their [memory_saved_bytes],
    and [total_pieces] is their number. *)
Theorem totals_are_sums (d : GridDir) (piece_files : list (string * PieceFile))
    (metadata : Metadata F) :
  pieces_dir d = Some piece_files ->
  saved_metadata (run d) = Some metadata ->
  let results := omap optimize_piece piece_files in
  original_total_bytes (statistics metadata) =
    sumZ ((fun r => fst (Original.original_size r) * snd (Original.original_size r) * 4)
            <$> results) /\
  optimized_total_bytes (statistics metadata) =
    sumZ ((fun r => img_width (Original.cropped_image r)
                    * img_height (Original.cropped_image r) * 4) <$> results) /\
  bytes_saved (statistics metadata) = sumZ (Original.memory_saved_bytes <$> results) /\
  total_pieces (statistics metadata) = Z.of_nat (length results).
Proof.
  intros Hfiles Hmd.
  destruct (run_written d metadata Hmd)
    as (files & cw & ch & Hfiles' & Hne & _ & _ & _ & _ & _ & Hstats & _).
  rewrite Hfiles in Hfiles'. injection Hfiles' as <-.
  cbv zeta. rewrite Hstats. simpl. split; [done|]. split; [|done].
  assert (Hall : Forall (fun r => Original.memory_saved_bytes r =
                          fst (Original.original_size r) * snd (Original.original_size r) * 4
                          - img_width (Original.cropped_image r)
                            * img_height (Original.cropped_image r) * 4)
                   (omap optimize_piece piece_files)).
  { apply Forall_forall. intros r (f & _ & Hopt)%list_elem_of_omap.
    by destruct (PieceFacts.original_optimize_piece_result _ _ Hopt)
      as (? & ? & ? & _ & _ & _ & ->). }
  apply (BatchFacts.sumZ_difference _
           (Pipeline.original_bytes Original.PieceOptimizationResult Original.original_size)
           (fun r => img_width (Original.cropped_image r)
                     * img_height (Original.cropped_image r) * 4)
           Original.memory_saved_bytes).
  exact Hall.
Qed.

End BatchProperties.
End BatchProperties.

(** ** What a run returns *)

Module RunFacts.
Section RunFacts.

Context {hashlib : Hashlib} {F : Type} `{PyFloat F}.

Lemma canvas_readable_cases (canvas_info : CanvasInfo) :
  canvas_readable canvas_info \/ ~ canvas_readable canvas_info.
Proof.
  unfold canvas_readable.
  destruct (canvas_int canvas_info "width") as [cw|e] eqn:Hw.
  - destruct (canvas_int canvas_info "height") as [ch|e] eqn:Hh.
    + left. eauto.
    + right. by intros [_ [ch [=]]].
  - right. by intros [[cw [=]] _].
Qed.

(** With an unreadable canvas entry, the first record already raises. *)
Lemma original_record_raises (canvas_info : CanvasInfo)
    (r : Original.PieceOptimizationResult) :
  ~ canvas_readable canvas_info ->
  exists e, Original.piece_record canvas_info r = Raise e.
Proof.
  intros Hno. unfold Original.piece_record.
  destruct (canvas_int canvas_info "width") as [cw|e] eqn:Hw; simpl; [|eauto].
  destruct (canvas_int canvas_info "height") as [ch|e] eqn:Hh; simpl; [|eauto].
  destruct Hno. split; eauto.
Qed.

Lemma no_padding_crop_size (im : Image) (b : BoundingBox) (c : Image) :
  NoPadding.crop_to_exact_content im b = Ok c ->
  size c = (NoPadding.width b, NoPadding.height b).
Proof.
  unfold NoPadding.crop_to_exact_content.
  destruct (crop im _) as [c'|]; simpl; [|done].
  destruct (bool_decide _) eqn:Hsize; simpl; [|done].
  intros [= <-]. apply bool_decide_eq_true in Hsize. exact Hsize.
Qed.

(** Every result of the third script passes the check of its metadata loop. *)
Lemma no_padding_record_Ok (piece_path : string * PieceFile)
    (r : NoPadding.PieceOptimizationResult) (canvas_info : CanvasInfo) :
  NoPadding.optimize_piece (F:=F) piece_path = Some r ->
  canvas_readable canvas_info ->
  exists entry, NoPadding.piece_record canvas_info r = Ok entry.
Proof.
  intros Hopt [[cw Hw] [ch Hh]].
  destruct (PieceFacts.no_padding_optimize_piece_result _ _ Hopt)
    as (im & b & c & _ & _ & Hc & _ & ->).
  apply no_padding_crop_size in Hc. unfold size in Hc. injection Hc as Hcw Hch.
  unfold NoPadding.piece_record. simpl. rewrite Hcw, Hch, !Z.eqb_refl. simpl.
  rewrite Hw, Hh. simpl. eauto.
Qed.

End RunFacts.
End RunFacts.

Module RunProperties.
Section RunProperties.

Context {hashlib : Hashlib} {F : Type} `{PyFloat F}.

(** The outcome of the part of [optimize_grid_size] that follows the set-up
    steps. *)
Lemma outcome_after_setup (d : GridDir) :
  wf_dir d ->
  let accepted :=
    match pieces_dir d with
    | Some piece_files => omap (Original.optimize_piece (F:=F)) piece_files
    | None => []
    end in
  let canvas_info := _load_canvas_info (layout_file d) in
  let run := Original.optimize_grid_size (F:=F) d in
  (returned run = Ok false <-> accepted = []) /\
  (returned run = Ok true <-> accepted <> [] /\ canvas_readable canvas_info) /\
  ((exists e, returned run = Raise e) <->
   accepted <> [] /\ ~ canvas_readable canvas_info) /\
  (is_Some (saved_metadata run) <-> returned run = Ok true).
Proof.
  intros Hwf. cbv zeta.
  set (accepted := match pieces_dir d with
                   | Some piece_files => omap (Original.optimize_piece (F:=F)) piece_files
                   | None => []
                   end).
  destruct (decide (accepted = [])) as [Hnil|Hne].
  - (* nothing accepted: [False], nothing written *)
    assert (Hrun : returned (Original.optimize_grid_size (F:=F) d) = Ok false /\
                   saved_metadata (Original.optimize_grid_size (F:=F) d) = None).
    { destruct d as [[files|] layout]; [|done]. simpl in accepted.
      unfold Original.optimize_grid_size.
      by rewrite (PipelineFacts.run_no_results _ _ _ _ _ _ _ _ _ Hnil). }
    destruct Hrun as [-> ->].
    split; [done|]. split; [split; [done | by intros [? _]]|].
    split; [split; [by intros [? [=]] | by intros [? _]]|].
    split; [by intros [? [=]] | done].
  - destruct d as [[files|] layout]; [|done]. simpl in accepted, Hne |- *.
    destruct (RunFacts.canvas_readable_cases (_load_canvas_info layout)) as [Hcanvas|Hno].
    + (* readable canvas: [True], metadata written *)
      destruct (OriginalRun.run_returns_True
                  {| pieces_dir := Some files; layout_file := layout |} files
                  Hwf eq_refl Hcanvas Hne) as [Hret Hmd].
      rewrite Hret.
      split; [done|]. split; [done|].
      split; [split; [by intros [? [=]] | by intros [_ ?]]|].
      done.
    + (* unreadable canvas: the metadata loop raises *)
      assert (Hraise : exists e,
                returned (Original.optimize_grid_size (F:=F)
                            {| pieces_dir := Some files; layout_file := layout |})
                  = Raise e /\
                saved_metadata (Original.optimize_grid_size (F:=F)
                                  {| pieces_dir := Some files; layout_file := layout |})
                  = None).
      { unfold Original.optimize_grid_size.
        rewrite (PipelineFacts.run_with_results _ _ _ _ _ _ _ _ layout Hne). cbv zeta.
        destruct accepted as [|r rs] eqn:Hres; [done|].
        destruct (RunFacts.original_record_raises (_load_canvas_info layout) r Hno)
          as [e He].
        edestruct (PipelineFacts.generate_metadata_Raise (F:=F)
                     Original.PieceOptimizationResult Original.piece_id
                     Original.piece_record (_load_canvas_info layout) (r :: rs))
          as [e' He']; [apply list_elem_of_here | exact He |].
        unfold accepted in Hres. rewrite Hres, He'. eauto. }
      destruct Hraise as (e & -> & ->).
      split; [done|]. split; [split; [done | by intros [_ ?]]|].
      split; [split; [done | eauto]|].
      split; [by intros [? [=]] | done].
Qed.



End RunProperties.
End RunProperties.

(** ** [optimize_puzzle] *)

Module PuzzleFacts.

Lemma substring_all (s : string) : String.substring 0 (String.length s) s = s.
Proof. induction s as [|a s IH]; simpl; [done|]. by rewrite IH. Qed.

Lemma substring_after (p s : string) :
  String.substring (String.length p) (String.length s) (p +:+ s) = s.
Proof.
  induction p as [|a p IH].
  - apply substring_all.
  - rewrite StringFacts.append_cons. simpl. exact IH.
Qed.

Lemma substring_split (s : string) (n : nat) :
  (n <= String.length s)%nat ->
  s = String.substring 0 n s +:+ String.substring n (String.length s - n) s.
Proof.
  revert n. induction s as [|a s IH]; intros [|n] Hn; simpl in Hn; try lia.
  - done.
  - change (String a s = String.substring 0 (String.length (String a s)) (String a s)).
    by rewrite substring_all.
  - change (String a s
            = String a (String.substring 0 n s)
              +:+ String.substring n (String.length s - n) s).
    rewrite StringFacts.append_cons. f_equal. apply IH. lia.
Qed.

(** [s.endswith(suffix)] holds exactly for the strings [stem + suffix]. *)
Lemma endswith_spec (s suffix : string) :
  endswith s suffix = true <-> exists stem, s = stem +:+ suffix.
Proof.
  unfold endswith. split.
  - destruct (String.length suffix <=? String.length s)%nat eqn:Hlen; [|done].
    apply Nat.leb_le in Hlen. intros Heq. apply String.eqb_eq in Heq.
    exists (String.substring 0 (String.length s - String.length suffix) s).
    pose proof (substring_split s (String.length s - String.length suffix)) as Hs.
    replace (String.length s - (String.length s - String.length suffix))%nat
      with (String.length suffix) in Hs by lia.
    rewrite Heq in Hs. apply Hs. lia.
  - intros [stem ->]. rewrite StringFacts.length_append.
    replace (String.length suffix <=? String.length stem + String.length suffix)%nat
      with true by (symmetry; apply Nat.leb_le; lia).
    replace (String.length stem + String.length suffix - String.length suffix)%nat
      with (String.length stem) by lia.
    rewrite substring_after. apply String.eqb_refl.
Qed.

Section PuzzleFacts.

Variable FS : Type.
Variable optimize_grid_size : FS -> string -> Result bool * FS.

Abbreviation optimize_all := (Puzzle.optimize_all FS optimize_grid_size).
Abbreviation optimize_all_recording :=
  (Puzzle.optimize_all (FS * list (Puzzle.Call FS))
     (Puzzle.recording FS optimize_grid_size)).

(** The loop on the recording [optimize_grid_size]: it returns what the loop
    returns without the recorder, and the record it leaves is the sequence
    of calls, each from the file system the one before left, in the order of
    [grid_sizes], ending with the first that raised. *)
Lemma optimize_all_recorded (grid_sizes : list string) :
  forall (fs : FS) (log : list (Puzzle.Call FS)) (n : Z),
  exists calls,
    optimize_all_recording (fs, log) grid_sizes n
    = (fst (optimize_all fs grid_sizes n),
       (snd (optimize_all fs grid_sizes n), log ++ calls)) /\
    Forall (fun c => optimize_grid_size (Puzzle.call_before c) (Puzzle.call_grid_size c)
                     = (Puzzle.call_outcome c, Puzzle.call_after c)) calls /\
    (forall c, head calls = Some c -> Puzzle.call_before c = fs) /\
    (forall i c c', calls !! i = Some c -> calls !! S i = Some c' ->
       Puzzle.call_before c' = Puzzle.call_after c) /\
    snd (optimize_all fs grid_sizes n) = from_option Puzzle.call_after fs (last calls) /\
    Puzzle.call_grid_size <$> calls `prefix_of` grid_sizes /\
    (forall i c e, calls !! i = Some c -> Puzzle.call_outcome c = Raise e ->
       S i = length calls) /\
    match fst (optimize_all fs grid_sizes n) with
    | Ok m =>
        Puzzle.call_grid_size <$> calls = grid_sizes /\
        (forall c e, c ∈ calls -> Puzzle.call_outcome c <> Raise e) /\
        n <= m <= n + Z.of_nat (length calls) /\
        (m = n + Z.of_nat (length calls) <->
         Forall (fun c => Puzzle.call_outcome c = Ok true) calls)
    | Raise e => exists c, last calls = Some c /\ Puzzle.call_outcome c = Raise e
    end.
Proof.
  induction grid_sizes as [|g gs IH]; intros fs log n.
  - exists []. simpl. rewrite app_nil_r.
    split; [done|]. split; [apply Forall_nil_2|]. split; [done|]. split; [done|].
    split; [done|]. split; [done|]. split; [done|].
    split; [done|]. split; [intros c e Hc; by apply elem_of_nil in Hc|].
    split; [lia|]. split; [intros _; apply Forall_nil_2 | lia].
  - destruct (optimize_grid_size fs g) as [[b|e] fs'] eqn:Hg.
    + (* the call returns *)
      set (c0 := Puzzle.mkCall fs g (Ok b) fs').
      set (n' := if b then n + 1 else n).
      assert (Hplain : optimize_all fs (g :: gs) n = optimize_all fs' gs n').
      { simpl. rewrite Hg. by destruct b. }
      assert (Hrec : optimize_all_recording (fs, log) (g :: gs) n
                     = optimize_all_recording (fs', log ++ [c0]) gs n').
      { simpl. unfold Puzzle.recording. simpl. rewrite Hg. simpl. by destruct b. }
      rewrite Hplain, Hrec.
      destruct (IH fs' (log ++ [c0]) n')
        as (calls & Heq & Hcalls & Hhead & Hchain & Hlast & Hpre & Hstop & Hres).
      exists (c0 :: calls). rewrite Heq, <- app_assoc. csimpl.
      split; [done|].
      split; [apply Forall_cons_2; [exact Hg | exact Hcalls]|].
      split; [by intros c [= <-]|].
      split.
      { intros [|i] c c'; simpl.
        - intros [= <-] Hc'. apply Hhead. by destruct calls.
        - apply Hchain. }
      split.
      { rewrite Hlast, last_cons. by destruct (last calls). }
      split; [by apply prefix_cons|].
      split.
      { intros [|i] c e; simpl.
        - by intros [= <-].
        - intros Hc He. f_equal. by apply (Hstop i c e). }
      destruct (fst (optimize_all fs' gs n')) as [m|e].
      * destruct Hres as (Hall & Hno & Hm & Hcount).
        split; [by rewrite Hall|].
        split.
        { intros c e Hc. apply elem_of_cons in Hc as [->|Hc]; [done|]. by apply Hno. }
        rewrite Forall_cons. simpl. subst n'. destruct b.
        -- split; [lia|]. split.
           ++ intros Hmeq. split; [done|]. apply Hcount. lia.
           ++ intros [_ Hok]. apply Hcount in Hok. lia.
        -- split; [lia|]. split; [lia | by intros [[=] _]].
      * destruct Hres as (c & Hc & He). exists c. split; [|exact He].
        rewrite last_cons. by rewrite Hc.
    + (* the call raises: the loop is left *)
      set (c0 := Puzzle.mkCall fs g (Raise e) fs').
      exists [c0]. simpl. unfold Puzzle.recording. simpl. rewrite Hg. simpl.
      split; [done|].
      split; [apply Forall_cons_2; [exact Hg | apply Forall_nil_2]|].
      split; [by intros c [= <-]|].
      split; [by intros [|i] c c'|].
      split; [done|].
      split; [apply prefix_cons, prefix_nil|].
      split; [by intros [|i] c e'|].
      by exists c0.
Qed.

End PuzzleFacts.
End PuzzleFacts.


(** X17. When no grid sizes are given, [optimize_puzzle] takes the
    directories under [layouts] whose name does not end in [_optimized], in
    the order of the listing: a name is taken exactly when it is a listed
    directory and is not [stem_optimized] for any [stem].  In particular the
    output directory [<grid>_optimized] of any run is never taken as a
    source. *)
Theorem discover_skips_outputs (FS : Type) (iterdir_dirs : FS -> list string)
    (fs : FS) (name : string) :
  (name ∈ Puzzle.discover FS iterdir_dirs fs <->
   name ∈ iterdir_dirs fs /\ ~ exists stem, name = stem +:+ "_optimized") /\
  (forall grid_size, grid_size +:+ "_optimized" ∉ Puzzle.discover FS iterdir_dirs fs) /\
  Puzzle.discover FS iterdir_dirs fs `sublist_of` iterdir_dirs fs.
Proof.
  assert (Hin : forall n, n ∈ Puzzle.discover FS iterdir_dirs fs <->
                  n ∈ iterdir_dirs fs /\ ~ exists stem, n = stem +:+ "_optimized").
  { intros n. unfold Puzzle.discover.
    rewrite list_elem_of_In, filter_In, <- list_elem_of_In, negb_true_iff.
    rewrite <- PuzzleFacts.endswith_spec.
    destruct (endswith n "_optimized"); split; intros [Hl Hc]; split;
      first [exact Hl | congruence | done]. }
  split; [apply Hin|]. split.
  - intros g Hg. apply Hin in Hg as [_ Hno]. apply Hno. by exists g.
  - clear Hin. unfold Puzzle.discover.
    generalize (iterdir_dirs fs). intros l.
    induction l as [|n l IH]; simpl; [done|].
    destruct (negb (endswith n "_optimized")).
    + by apply sublist_skip.
    + by apply sublist_cons.
Qed.

(** ** The size invariant in the second and third scripts *)

Module SuccessorFacts.
Section SuccessorFacts.

Context {F : Type} `{PyFloat F}.

(** With a readable canvas entry, the only exception of the third script's
    metadata loop is the [ValueError] of its dimension check. *)
Lemma no_padding_collect_ValueError (canvas_info : CanvasInfo)
    (results : list NoPadding.PieceOptimizationResult)
    (pm : gmap string PieceMetadata) (r : NoPadding.PieceOptimizationResult) :
  canvas_readable canvas_info ->
  r ∈ results ->
  size (NoPadding.cropped_image r) <>
    (NoPadding.width (NoPadding.content_bounds r),
     NoPadding.height (NoPadding.content_bounds r)) ->
  Pipeline.collect_pieces NoPadding.PieceOptimizationResult NoPadding.piece_id
    NoPadding.piece_record canvas_info results pm = Raise ValueError.
Proof.
  intros [[cw Hw] [ch Hh]] Hin Hne. revert pm.
  induction Hin as [r rs | r r' rs _ IH]; intros pm; simpl.
  - by rewrite (NoPaddingFacts.piece_record_mismatch canvas_info r Hne).
  - destruct (NoPadding.piece_record canvas_info r') as [entry|e] eqn:Hrec; simpl.
    + by apply IH.
    + unfold NoPadding.piece_record in Hrec.
      destruct (negb _ || negb _); [congruence|].
      rewrite Hw, Hh in Hrec. done.
Qed.

End SuccessorFacts.
End SuccessorFacts.

Module SuccessorProperties.
Section SuccessorProperties.

Context {hashlib : Hashlib} {F : Type} `{PyFloat F}.

(** X18. Second and third scripts.  In a written metadata document every
    entry records, as [bounds.width] and [bounds.height], the width and the
    height of the image saved as the entry's file [key.png]. *)
Theorem successors_record_saved_size (d : GridDir) :
  (forall metadata,
     saved_metadata (Fixed.optimize_grid_size (F:=F) d) = Some metadata ->
     forall key entry, pieces metadata !! key = Some entry ->
       exists im,
         saved_pieces (Fixed.optimize_grid_size (F:=F) d) !! (key +:+ ".png") = Some im /\
         bd_width (pm_bounds entry) = img_width im /\
         bd_height (pm_bounds entry) = img_height im) /\
  (forall metadata,
     saved_metadata (NoPadding.optimize_grid_size (F:=F) d) = Some metadata ->
     forall key entry, pieces metadata !! key = Some entry ->
       exists im,
         saved_pieces (NoPadding.optimize_grid_size (F:=F) d) !! (key +:+ ".png")
           = Some im /\
         bd_width (pm_bounds entry) = img_width im /\
         bd_height (pm_bounds entry) = img_height im).
Proof.
  split.
  - intros metadata Hmd key entry Hentry.
    by apply (FixedFacts.fixed_recorded_size_is_saved_size d metadata Hmd).
  - intros metadata Hmd key entry Hentry.
    by apply (NoPaddingFacts.no_padding_recorded_size_is_saved_size d metadata Hmd).
Qed.

(** X19. Third script.  With a readable canvas entry,
    [_generate_optimization_metadata] raises [ValueError] as soon as the list
    of results holds one whose cropped image does not have the width and
    height of its content bounds; no document is returned. *)
Theorem no_padding_metadata_rejects (results : list NoPadding.PieceOptimizationResult)
    (canvas_info : CanvasInfo) (tob tsb : Z) (r : NoPadding.PieceOptimizationResult) :
  canvas_readable canvas_info ->
  r ∈ results ->
  size (NoPadding.cropped_image r) <>
    (NoPadding.width (NoPadding.content_bounds r),
     NoPadding.height (NoPadding.content_bounds r)) ->
  NoPadding._generate_optimization_metadata (F:=F) results canvas_info tob tsb
    = Raise ValueError.
Proof.
  intros Hcanvas Hin Hne.
  unfold NoPadding._generate_optimization_metadata, Pipeline._generate_optimization_metadata.
  by rewrite (SuccessorFacts.no_padding_collect_ValueError canvas_info results ∅ r).
Qed.

End SuccessorProperties.
End SuccessorProperties.

(** ** The further properties on concrete inputs *)


Lemma find_content_bounds_rectangle_witness :
  alpha opaque_red <> 0%N /\ 0 <= 50 <= 150 /\ 150 < 200 /\ 0 <= 30 <= 120 /\ 120 < 200 /\
  Original.find_content_bounds (rect_image 200 200 50 30 150 120 opaque_red)
  = Some (BoundingBox.mk 50 30 150 120).
Proof.
  assert (Ha : alpha opaque_red <> 0%N) by discriminate.
  assert (H1 : 0 <= 50 <= 150) by lia. assert (H2 : 150 < 200) by lia.
  assert (H3 : 0 <= 30 <= 120) by lia. assert (H4 : 120 < 200) by lia.
  split; [exact Ha|]. split; [exact H1|]. split; [exact H2|].
  split; [exact H3|]. split; [exact H4|].
  exact (find_content_bounds_rectangle 200 200 50 30 150 120 opaque_red Ha H1 H2 H3 H4).
Defined.

Lemma crop_to_exact_content_pixels_witness :
  wf_image small_piece /\
  box_in_image small_piece (BoundingBox.mk 3 2 5 4) /\
  exists c,
    NoPadding.crop_to_exact_content small_piece (BoundingBox.mk 3 2 5 4) = Ok c /\
    size c = (3, 3).
Proof.
  assert (Hwf : wf_image small_piece) by compute_done.
  assert (Hin : box_in_image small_piece (BoundingBox.mk 3 2 5 4)) by compute_done.
  split; [exact Hwf|]. split; [exact Hin|].
  destruct (crop_to_exact_content_pixels small_piece (BoundingBox.mk 3 2 5 4) Hwf Hin)
    as (c & Hc & Hsize & _).
  exists c. split; [exact Hc | exact Hsize].
Defined.

Lemma no_padding_round_trip_witness :
  wf_image small_piece /\
  exists r entry,
    NoPadding.optimize_piece (hashlib:=trivial_Hashlib) (F:=Q)
      ("0_0"%string, Png small_piece) = Some r /\
    NoPadding.piece_record default_canvas r = Ok entry /\
    (bd_left (pm_bounds entry), bd_top (pm_bounds entry)) = (3, 2) /\
    forall x y p, getpixel small_piece x y = Some p -> alpha p <> 0%N ->
      getpixel (NoPadding.cropped_image r) (x - 3) (y - 2) = Some p.
Proof.
  assert (Hwf : wf_image small_piece) by compute_done.
  split; [exact Hwf|].
  destruct (NoPadding.optimize_piece (hashlib:=trivial_Hashlib) (F:=Q)
              ("0_0"%string, Png small_piece)) as [r|] eqn:Hopt;
    [|vm_compute in Hopt; discriminate Hopt].
  assert (Hr : Some r = NoPadding.optimize_piece (hashlib:=trivial_Hashlib) (F:=Q)
                          ("0_0"%string, Png small_piece)) by (symmetry; exact Hopt).
  vm_compute in Hr. injection Hr as Hr.
  destruct (NoPadding.piece_record default_canvas r) as [entry|e] eqn:Hrec;
    [|rewrite Hr in Hrec; vm_compute in Hrec; discriminate Hrec].
  assert (Hpos : (bd_left (pm_bounds entry), bd_top (pm_bounds entry)) = (3, 2)).
  { rewrite Hr in Hrec. vm_compute in Hrec. injection Hrec as <-. reflexivity. }
  exists r, entry. split; [reflexivity|]. split; [exact Hrec|]. split; [exact Hpos|].
  destruct (PieceProperties.no_padding_round_trip (hashlib:=trivial_Hashlib) (F:=Q)
              "0_0" small_piece r default_canvas entry Hwf Hopt Hrec) as (_ & Hto & _).
  injection Hpos as Hl Ht. rewrite Hl, Ht in Hto. exact Hto.
Defined.

Lemma fixed_round_trip_witness :
  wf_image small_piece /\
  exists r entry,
    Fixed.optimize_piece (hashlib:=trivial_Hashlib) (F:=Q)
      ("0_0"%string, Png small_piece) = Some r /\
    Fixed.piece_record default_canvas r = Ok entry /\
    (bd_left (pm_bounds entry), bd_top (pm_bounds entry)) = (1, 0) /\
    forall x y p, getpixel small_piece x y = Some p -> alpha p <> 0%N ->
      getpixel (Fixed.cropped_image (Fixed.cropped_info r)) (x - 1) (y - 0) = Some p.
Proof.
  assert (Hwf : wf_image small_piece) by compute_done.
  split; [exact Hwf|].
  destruct (Fixed.optimize_piece (hashlib:=trivial_Hashlib) (F:=Q)
              ("0_0"%string, Png small_piece)) as [r|] eqn:Hopt;
    [|vm_compute in Hopt; discriminate Hopt].
  assert (Hr : Some r = Fixed.optimize_piece (hashlib:=trivial_Hashlib) (F:=Q)
                          ("0_0"%string, Png small_piece)) by (symmetry; exact Hopt).
  vm_compute in Hr. injection Hr as Hr.
  destruct (Fixed.piece_record default_canvas r) as [entry|e] eqn:Hrec;
    [|rewrite Hr in Hrec; vm_compute in Hrec; discriminate Hrec].
  assert (Hpos : (bd_left (pm_bounds entry), bd_top (pm_bounds entry)) = (1, 0)).
  { rewrite Hr in Hrec. vm_compute in Hrec. injection Hrec as <-. reflexivity. }
  exists r, entry. split; [reflexivity|]. split; [exact Hrec|]. split; [exact Hpos|].
  destruct (PieceProperties.fixed_round_trip (hashlib:=trivial_Hashlib) (F:=Q)
              "0_0" small_piece r default_canvas entry Hwf Hopt Hrec)
    as (_ & _ & _ & _ & Hto).
  injection Hpos as Hl Ht. rewrite Hl, Ht in Hto. exact Hto.
Defined.

Lemma original_crop_origin_witness :
  wf_image small_piece /\
  exists r entry,
    Original.optimize_piece (hashlib:=trivial_Hashlib) (F:=Q)
      ("0_0"%string, Png small_piece) = Some r /\
    Original.piece_record default_canvas r = Ok entry /\
    (bd_left (pm_bounds entry), bd_top (pm_bounds entry)) = (3, 2) /\
    forall x y p, getpixel small_piece x y = Some p -> alpha p <> 0%N ->
      getpixel (Original.cropped_image r) (x - 1) (y - 0) = Some p.
Proof.
  assert (Hwf : wf_image small_piece) by compute_done.
  split; [exact Hwf|].
  destruct (Original.optimize_piece (hashlib:=trivial_Hashlib) (F:=Q)
              ("0_0"%string, Png small_piece)) as [r|] eqn:Hopt;
    [|vm_compute in Hopt; discriminate Hopt].
  assert (Hr : Some r = Original.optimize_piece (hashlib:=trivial_Hashlib) (F:=Q)
                          ("0_0"%string, Png small_piece)) by (symmetry; exact Hopt).
  vm_compute in Hr. injection Hr as Hr.
  destruct (Original.piece_record default_canvas r) as [entry|e] eqn:Hrec;
    [|rewrite Hr in Hrec; vm_compute in Hrec; discriminate Hrec].
  assert (Hpos : (bd_left (pm_bounds entry), bd_top (pm_bounds entry)) = (3, 2)).
  { rewrite Hr in Hrec. vm_compute in Hrec. injection Hrec as <-. reflexivity. }
  exists r, entry. split; [reflexivity|]. split; [exact Hrec|]. split; [exact Hpos|].
  destruct (PieceProperties.original_crop_origin (hashlib:=trivial_Hashlib) (F:=Q)
              "0_0" small_piece r default_canvas entry Hwf Hopt Hrec) as (_ & Hto & _).
  injection Hpos as Hl Ht. rewrite Hl, Ht in Hto. exact Hto.
Defined.

Lemma optimize_piece_accepts_content_witness :
  wf_piece_file (Png blank_piece) /\
  fully_transparent blank_piece /\
  Original.optimize_piece (hashlib:=trivial_Hashlib) (F:=Q)
    ("0_1"%string, Png blank_piece) = None.
Proof.
  assert (Hwf : wf_piece_file (Png blank_piece)) by compute_done.
  assert (Hblank : fully_transparent blank_piece) by compute_done.
  split; [exact Hwf|]. split; [exact Hblank|].
  destruct (PieceProperties.optimize_piece_accepts_content (hashlib:=trivial_Hashlib)
              (F:=Q) "0_1" (Png blank_piece) Hwf) as [[_ Hnone] _].
  apply Hnone. right. exists blank_piece. split; [reflexivity | exact Hblank].
Defined.

Lemma saved_files_match_entries_witness :
  exists metadata,
    saved_metadata
      (Original.optimize_grid_size (hashlib:=trivial_Hashlib) (F:=Q) dir_mixed)
      = Some metadata /\
    forall key, is_Some (pieces metadata !! key) <->
      is_Some (saved_pieces
                 (Original.optimize_grid_size (hashlib:=trivial_Hashlib) (F:=Q) dir_mixed)
               !! (key +:+ ".png")).
Proof.
  destruct (saved_metadata
              (Original.optimize_grid_size (hashlib:=trivial_Hashlib) (F:=Q) dir_mixed))
    as [metadata|] eqn:Hmd; [|vm_compute in Hmd; discriminate Hmd].
  exists metadata. split; [reflexivity|].
  exact (proj1 (BatchProperties.saved_files_match_entries (hashlib:=trivial_Hashlib)
                  (F:=Q) dir_mixed metadata Hmd)).
Defined.

Lemma content_hash_of_saved_file_witness :
  exists metadata,
    saved_metadata
      (Original.optimize_grid_size (hashlib:=trivial_Hashlib) (F:=Q) dir_mixed)
      = Some metadata /\
    forall key entry, pieces metadata !! key = Some entry ->
      exists im,
        saved_pieces
          (Original.optimize_grid_size (hashlib:=trivial_Hashlib) (F:=Q) dir_mixed)
          !! (key +:+ ".png") = Some im /\
        pm_content_hash entry
          = String.substring 0 8 (sha256_hexdigest (Hashlib:=trivial_Hashlib) (tobytes im)).
Proof.
  destruct (saved_metadata
              (Original.optimize_grid_size (hashlib:=trivial_Hashlib) (F:=Q) dir_mixed))
    as [metadata|] eqn:Hmd; [|vm_compute in Hmd; discriminate Hmd].
  exists metadata. split; [reflexivity|].
  exact (BatchProperties.content_hash_of_saved_file (hashlib:=trivial_Hashlib)
           (F:=Q) dir_mixed metadata Hmd).
Defined.

Lemma canvas_size_consistent_witness :
  exists metadata,
    saved_metadata
      (Original.optimize_grid_size (hashlib:=trivial_Hashlib) (F:=Q) dir_mixed)
      = Some metadata /\
    (forall key entry, pieces metadata !! key = Some entry ->
       pm_canvas_size entry = canvas_size metadata) /\
    canvas_size metadata = (2048, 2048).
Proof.
  destruct (saved_metadata
              (Original.optimize_grid_size (hashlib:=trivial_Hashlib) (F:=Q) dir_mixed))
    as [metadata|] eqn:Hmd; [|vm_compute in Hmd; discriminate Hmd].
  exists metadata. split; [reflexivity|].
  destruct (BatchProperties.canvas_size_consistent (hashlib:=trivial_Hashlib)
              (F:=Q) dir_mixed metadata Hmd) as (Hentries & _ & Hdefault).
  split; [exact Hentries|]. apply Hdefault. left. reflexivity.
Defined.

Lemma total_pieces_counts_entries_witness :
  NoDup (fst <$> [("0_0"%string, Png small_piece); ("0_1"%string, Png blank_piece);
                  ("0_2"%string, Unreadable)]) /\
  exists metadata,
    saved_metadata
      (Original.optimize_grid_size (hashlib:=trivial_Hashlib) (F:=Q) dir_mixed)
      = Some metadata /\
    total_pieces (statistics metadata) = Z.of_nat (base.size (pieces metadata)).
Proof.
  assert (Hnd : NoDup (fst <$> [("0_0"%string, Png small_piece);
                                ("0_1"%string, Png blank_piece);
                                ("0_2"%string, Unreadable)])) by compute_done.
  split; [exact Hnd|].
  destruct (saved_metadata
              (Original.optimize_grid_size (hashlib:=trivial_Hashlib) (F:=Q) dir_mixed))
    as [metadata|] eqn:Hmd; [|vm_compute in Hmd; discriminate Hmd].
  exists metadata. split; [reflexivity|].
  exact (proj1 (BatchProperties.total_pieces_counts_entries (hashlib:=trivial_Hashlib)
                  (F:=Q) dir_mixed _ metadata eq_refl Hnd Hmd)).
Defined.

Lemma totals_are_sums_witness :
  exists metadata,
    saved_metadata
      (Original.optimize_grid_size (hashlib:=trivial_Hashlib) (F:=Q) dir_mixed)
      = Some metadata /\
    original_total_bytes (statistics metadata) = 192 /\
    optimized_total_bytes (statistics metadata) = 168.
Proof.
  destruct (saved_metadata
              (Original.optimize_grid_size (hashlib:=trivial_Hashlib) (F:=Q) dir_mixed))
    as [metadata|] eqn:Hmd; [|vm_compute in Hmd; discriminate Hmd].
  exists metadata. split; [reflexivity|].
  destruct (BatchProperties.totals_are_sums (hashlib:=trivial_Hashlib) (F:=Q)
              dir_mixed _ metadata eq_refl Hmd) as (Hob & Hopt & _).
  split.
  - rewrite Hob. vm_compute. reflexivity.
  - rewrite Hopt. vm_compute. reflexivity.
Defined.




Lemma successors_record_saved_size_witness :
  exists metadata,
    saved_metadata
      (NoPadding.optimize_grid_size (hashlib:=trivial_Hashlib) (F:=Q) dir_mixed)
      = Some metadata /\
    forall key entry, pieces metadata !! key = Some entry ->
      exists im,
        saved_pieces
          (NoPadding.optimize_grid_size (hashlib:=trivial_Hashlib) (F:=Q) dir_mixed)
          !! (key +:+ ".png") = Some im /\
        bd_width (pm_bounds entry) = img_width im /\
        bd_height (pm_bounds entry) = img_height im.
Proof.
  destruct (saved_metadata
              (NoPadding.optimize_grid_size (hashlib:=trivial_Hashlib) (F:=Q) dir_mixed))
    as [metadata|] eqn:Hmd; [|vm_compute in Hmd; discriminate Hmd].
  exists metadata. split; [reflexivity|].
  exact (proj2 (SuccessorProperties.successors_record_saved_size
                  (hashlib:=trivial_Hashlib) (F:=Q) dir_mixed) metadata Hmd).
Defined.

Lemma no_padding_metadata_rejects_witness :
  canvas_readable default_canvas /\
  mismatched_result ∈ [mismatched_result] /\
  size (NoPadding.cropped_image mismatched_result) <>
    (NoPadding.width (NoPadding.content_bounds mismatched_result),
     NoPadding.height (NoPadding.content_bounds mismatched_result)) /\
  NoPadding._generate_optimization_metadata (F:=Q) [mismatched_result] default_canvas 192 0
    = Raise ValueError.
Proof.
  assert (Hcanvas : canvas_readable default_canvas).
  { split; exists 2048; vm_compute; reflexivity. }
  assert (Hin : mismatched_result ∈ [mismatched_result]) by apply list_elem_of_here.
  assert (Hne : size (NoPadding.cropped_image mismatched_result) <>
                  (NoPadding.width (NoPadding.content_bounds mismatched_result),
                   NoPadding.height (NoPadding.content_bounds mismatched_result)))
    by (vm_compute; discriminate).
  split; [exact Hcanvas|]. split; [exact Hin|]. split; [exact Hne|].
  exact (SuccessorProperties.no_padding_metadata_rejects (F:=Q) [mismatched_result]
           default_canvas 192 0 mismatched_result Hcanvas Hin Hne).
Defined.
